(** * godocker: container lifecycle, resource limits and networking

    A shallow embedding of the Go sources of godocker
    ([container/container.go], the init protocol of package
    [container] with its Linux helpers, [resources/resource.go],
    [network/network.go]) and the properties of its specification that
    were checked against it.

    Go strings are byte strings and are modelled by [string]; Go [int]
    and [int64] values are modelled by [Z] with wrap-around written out
    where the code can overflow; the registry
    [map[string]*ContainerInfo] is a [gmap string ContainerInfo]; every
    interaction with the operating system is recorded in a trace of
    [Event]s and answered by an environment [Env]. *)

From Stdlib Require Import ZArith NArith String Ascii Lia List.
From stdpp Require Import gmap strings list fin_maps.

Local Open Scope string_scope.
Local Open Scope list_scope.

(* ===================================================================== *)
(** * Part I: the Go library functions the sources call                  *)
(* ===================================================================== *)

Module GoLib.

(** The numeric value of a byte. *)
Definition byte_val (c : ascii) : Z := Z.of_N (N_of_ascii c).

Definition byte_of (z : Z) : ascii := ascii_of_N (Z.to_N z).

Definition in_range (lo hi : Z) (c : ascii) : bool :=
  ((lo <=? byte_val c) && (byte_val c <=? hi))%Z.

Definition is_digit (c : ascii) : bool := in_range 48 57 c.

Definition is_upper (c : ascii) : bool := in_range 65 90 c.

(** ** package strings *)

Fixpoint isASCII (s : string) : bool :=
  match s with
  | EmptyString => true
  | String c r => (byte_val c <? 128)%Z && isASCII r
  end.

Definition lower_byte (c : ascii) : ascii :=
  if is_upper c then byte_of (byte_val c + 32) else c.

Fixpoint map_bytes (f : ascii -> ascii) (s : string) : string :=
  match s with
  | EmptyString => EmptyString
  | String c r => String (f c) (map_bytes f r)
  end.

Section ToLower.

(** [strings.ToLower] lower-cases an all-ASCII string byte by byte and
    otherwise maps [unicode.ToLower] over the runes of the string.
    The Unicode tables are not part of the repository; the second
    path is a parameter. *)
Variable unicode_lower : string -> string.

Definition ToLower (s : string) : string :=
  if isASCII s then map_bytes lower_byte s else unicode_lower s.

End ToLower.

Fixpoint rev_string (acc s : string) : string :=
  match s with
  | EmptyString => acc
  | String c r => rev_string (String c acc) r
  end.

Definition reverse (s : string) : string := rev_string EmptyString s.

(** [strings.HasSuffix(s, suffix)] *)
Definition HasSuffix (s suffix : string) : bool :=
  String.prefix (reverse suffix) (reverse s).

(** [strings.TrimSuffix(s, suffix)] *)
Definition TrimSuffix (s suffix : string) : string :=
  if HasSuffix s suffix
  then String.substring 0 (String.length s - String.length suffix) s
  else s.

(** [strings.Contains(s, substr)] *)
Fixpoint Contains (s substr : string) : bool :=
  String.prefix substr s ||
  match s with
  | EmptyString => false
  | String _ r => Contains r substr
  end.

(** [strings.Split(s, sep)] for a one-byte separator: the pieces
    between the separators, always at least one piece. *)
Fixpoint split_byte (sep : ascii) (cur s : string) : list string :=
  match s with
  | EmptyString => [reverse cur]
  | String c r =>
      if Ascii.eqb c sep then reverse cur :: split_byte sep EmptyString r
      else split_byte sep (String c cur) r
  end.

Definition Split (s : string) (sep : ascii) : list string :=
  split_byte sep EmptyString s.

(** [strings.Join(elems, sep)] *)
Fixpoint Join (elems : list string) (sep : string) : string :=
  match elems with
  | [] => ""
  | [x] => x
  | x :: r => x +:+ sep +:+ Join r sep
  end.

(** [s[:n]]: a slice expression panics when [n] exceeds [len(s)]. *)
Definition slice_to (n : nat) (s : string) : option string :=
  if (n <=? String.length s)%nat then Some (String.substring 0 n s) else None.

(** ** package strconv *)

Definition maxUint64 : Z := 2 ^ 64 - 1.

Inductive NumResult :=
| NumOk (n : Z)
| ErrSyntax
| ErrRange (clamped : Z).

(** The digit loop of [strconv.ParseUint(s, 10, 64)].  [lower(c)] is
    [c | 0x20]; a letter is a digit of value at least ten and is
    refused in base ten, as is an underscore. *)
Definition digit_of (c : ascii) : option Z :=
  let lower := Z.lor (byte_val c) 32 in
  if is_digit c then Some (byte_val c - 48)%Z
  else if ((97 <=? lower) && (lower <=? 122))%Z then Some (lower - 97 + 10)%Z
  else None.

Fixpoint ParseUint_loop (s : string) (n : Z) : NumResult :=
  match s with
  | EmptyString => NumOk n
  | String c r =>
      match digit_of c with
      | None => ErrSyntax
      | Some d =>
          if (10 <=? d)%Z then ErrSyntax
          else if (maxUint64 / 10 + 1 <=? n)%Z then ErrRange maxUint64
          else
            let n10 := (n * 10)%Z in
            let n1 := ((n10 + d) mod 2 ^ 64)%Z in
            if ((n1 <? n10) || (maxUint64 <? n1))%Z then ErrRange maxUint64
            else ParseUint_loop r n1
      end
  end.

Definition ParseUint (s : string) : NumResult :=
  match s with
  | EmptyString => ErrSyntax
  | _ => ParseUint_loop s 0
  end.

(** [strconv.ParseInt(s, 10, 64)] *)
Definition ParseInt (s : string) : NumResult :=
  match s with
  | EmptyString => ErrSyntax
  | String c r =>
      let neg := Ascii.eqb c "-" in
      let body := if Ascii.eqb c "+" || neg then r else s in
      match ParseUint body with
      | ErrSyntax => ErrSyntax
      | ErrRange _ => if neg then ErrRange (- 2 ^ 63) else ErrRange (2 ^ 63 - 1)
      | NumOk un =>
          if negb neg && (2 ^ 63 <=? un)%Z then ErrRange (2 ^ 63 - 1)
          else if neg && (2 ^ 63 <? un)%Z then ErrRange (- 2 ^ 63)
          else NumOk (if neg then - un else un)%Z
      end
  end.

(** Decimal rendering, [strconv.FormatInt(n, 10)] and [strconv.Itoa]. *)
Fixpoint digits (fuel : nat) (n : Z) (acc : string) : string :=
  match fuel with
  | O => acc
  | S f =>
      let acc' := String (byte_of (48 + n mod 10)) acc in
      if (n <? 10)%Z then acc' else digits f (n / 10)%Z acc'
  end.

Definition FormatInt (n : Z) : string :=
  if (n <? 0)%Z then String "-" (digits 20 (- n) "") else digits 20 n "".

Definition Itoa (n : Z) : string := FormatInt n.

(** Two's complement wrap-around of a 64-bit signed result. *)
Definition wrap64 (z : Z) : Z := ((z + 2 ^ 63) mod 2 ^ 64 - 2 ^ 63)%Z.

(** [path/filepath.Join] of a directory and one element: empty
    elements are dropped and the rest is joined by one separator.  The
    lexical cleaning [Join] performs on the result (doubled separators,
    dot elements) is not modelled; the paths are arguments of recorded
    requests. *)
Definition filepath_Join (dir elem : string) : string :=
  if String.eqb elem "" then dir
  else if String.prefix "/" elem then dir +:+ elem
  else dir +:+ "/" +:+ elem.

End GoLib.

Import GoLib.

(* ===================================================================== *)
(** * Part II: resources/resource.go, the memory-limit parser            *)
(* ===================================================================== *)

(** Errors carry the place they were made at, as the messages of the
    source do. *)
Definition Errno := Z.

Definition EEXIST : Errno := 17%Z.

Inductive Error :=
| OsError (e : Errno)
| InvalidMemorySpec (numeric : string)
| SetMemoryLimitFailed (cause : Error)
| SetCpuSetFailed (cause : Error)
| SetCpuShareFailed (cause : Error)
| DuplicateName (name : string)
| RootfsPreparationError (cause : Error)
| ProcessStartError (cause : Error)
| NotFound (id : string)
| ProcessLookupError (cause : Error)
| KillFailed (cause : Error)
| StopFailed (cause : Error)
| WaitFailed (cause : Error)
| InterfaceError (text : string)
| NetworkStepFailed (step : string) (cause : Error)
| NetworkSetupError (stage : string) (cause : Error)
| UnsupportedNetworkMode (mode : string)
| MissingConfiguration
| HostnameError (cause : Error)
| MkdirError (path : string) (cause : Error)
| MountError (what : string) (cause : Error)
| MknodError (cause : Error)
| MountsSetupError (cause : Error)
| ChrootError (cause : Error)
| ChdirError (cause : Error)
| InvalidCommand
| ExecFailure (file : string) (cause : Error).

(** A Go result pair [(T, error)]. *)
Inductive Res (T : Type) :=
| Ok (v : T)
| Err (e : Error).

Arguments Ok {T} v.
Arguments Err {T} e.

Section ParseMemory.

Variable unicode_lower : string -> string.

Definition parseMemoryLimit (memoryLimit : string) : Res Z :=
  let memoryLimit := ToLower unicode_lower memoryLimit in
  let '(multiplier, memoryLimit) :=
    if HasSuffix memoryLimit "k" then (1024, TrimSuffix memoryLimit "k")%Z
    else if HasSuffix memoryLimit "m" then (1024 * 1024, TrimSuffix memoryLimit "m")%Z
    else if HasSuffix memoryLimit "g" then (1024 * 1024 * 1024, TrimSuffix memoryLimit "g")%Z
    else (1%Z, memoryLimit) in
  match ParseInt memoryLimit with
  | NumOk value => Ok (wrap64 (value * multiplier))
  | _ => Err (InvalidMemorySpec memoryLimit)
  end.

(** The numeric part of a memory specification: the lower-cased text
    with one trailing unit letter removed. *)
Definition numeric_part (spec : string) : string :=
  let s := ToLower unicode_lower spec in
  if HasSuffix s "k" || HasSuffix s "m" || HasSuffix s "g"
  then String.substring 0 (String.length s - 1) s
  else s.

End ParseMemory.

(** A decimal integer: an optional sign followed by one or more decimal
    digits. *)
Fixpoint all_digits (s : string) : bool :=
  match s with
  | EmptyString => true
  | String c r => is_digit c && all_digits r
  end.

Definition nonempty (s : string) : bool :=
  match s with EmptyString => false | _ => true end.


(** The number a string of decimal digits denotes. *)
Fixpoint decimal_from (acc : Z) (s : string) : Z :=
  match s with
  | EmptyString => acc
  | String c r => decimal_from (acc * 10 + (byte_val c - 48)) r
  end.

Definition decimal_value (s : string) : Z := decimal_from 0 s.

(** The unit letters of a memory specification and their factors. *)
Inductive MemUnit := UnitBytes | UnitK | UnitM | UnitG.

Definition unit_suffix (u : MemUnit) : string :=
  match u with
  | UnitBytes => ""
  | UnitK => "k"
  | UnitM => "m"
  | UnitG => "g"
  end.

Definition unit_factor (u : MemUnit) : Z :=
  match u with
  | UnitBytes => 1
  | UnitK => 2 ^ 10
  | UnitM => 2 ^ 20
  | UnitG => 2 ^ 30
  end.

(* ===================================================================== *)
(** * Part III: the process, its registry and the operating system       *)
(* ===================================================================== *)

Record ResourceConfig := {
  rc_MemoryLimit : string;
  rc_CpuSet : string;
  rc_CpuShare : Z
}.

Record VolumeMapping := {
  vm_HostPath : string;
  vm_ContainerPath : string
}.

Record Config := {
  cfg_Name : string;
  cfg_Image : string;
  cfg_Command : list string;
  cfg_Tty : bool;
  cfg_Detach : bool;
  cfg_Network : string;
  cfg_Volumes : list VolumeMapping;
  cfg_Resource : ResourceConfig
}.

(** [StatusRunning] and [StatusStopped] are the only two values the
    package ever stores in [ContainerInfo.Status]. *)
Inductive Status := StatusRunning | StatusStopped.

Definition Status_eqb (a b : Status) : bool :=
  match a, b with
  | StatusRunning, StatusRunning | StatusStopped, StatusStopped => true
  | _, _ => false
  end.

Record ContainerInfo := {
  ci_ID : string;
  ci_Name : string;
  ci_Pid : Z;
  ci_Image : string;
  ci_Command : list string;
  ci_Status : Status;
  ci_CreateTime : Z;
  ci_Config : Config
}.

Record NetworkConfig := {
  nc_Mode : string;
  nc_IPAddress : string;
  nc_Gateway : string;
  nc_Subnet : string;
  nc_MacAddr : string
}.

(** What the program writes to its console. *)
Inductive LogMsg :=
| LogRootfsPrepared (root image : string)
| LogProcessStarted (pid : Z)
| LogResourceWarning (e : Error)
| LogNetworkFailed (e : Error)
| LogSigtermFailed (e : Error)
| LogCleanupWarning (e : Error)
| LogExited (id12 : string) (code : Z)
| LogBridgeExists (bridge : string)
| LogCreateBridge (bridge : string)
| LogHostNetwork
| LogNoNetwork
| LogNATWarning (e : Error)
| LogInit (name rootfs : string)
| LogExecCommand (cmdString : string).

(** What the program asks of the operating system. *)
Inductive Event :=
| EvRandom
| EvLog (m : LogMsg)
| EvMkdirAll (path : string) (perm : Z)
| EvWriteFile (path data : string) (perm : Z)
| EvStart (path : string) (args env : list string) (cloneflags : Z) (stdio : bool)
| EvFindProcess (pid : Z)
| EvSignal (pid sig : Z)
| EvKill (pid : Z)
| EvWait (pid : Z)
| EvRemoveAll (path : string)
| EvCommand (argv : list string)
| EvInterfaceByName (name : string)
| EvSethostname (name : string)
| EvMount (source target fstype : string) (flags : Z) (data : string)
| EvMknod (path : string) (mode dev : Z)
| EvChroot (path : string)
| EvChdir (path : string)
| EvLookPath (file : string)
| EvExec (path : string) (argv env : list string).

(** The environment answers every request from the history of requests
    made so far.  [os_call] is the error (if any) of a request that
    yields nothing else; the other fields are the requests with a
    result. *)
Record Env := {
  os_pid : Z;
  os_now : list Event -> Z;
  os_random : list Event -> N;
  os_call : list Event -> Event -> option Errno;
  os_start : list Event -> Event -> Errno + Z;
  os_wait : list Event -> Z -> Errno + Z;
  os_lookpath : list Event -> string -> Errno + string;
  os_interface : list Event -> string -> option string
}.

Record World := {
  registry : gmap string ContainerInfo;
  environ : list string;
  trace : list Event
}.

Definition record (e : Event) (w : World) : World :=
  {| registry := registry w; environ := environ w; trace := trace w ++ [e] |}.

Definition with_registry (r : gmap string ContainerInfo) (w : World) : World :=
  {| registry := r; environ := environ w; trace := trace w |}.

(** A Go function either returns or panics. *)
Inductive Outcome (A : Type) :=
| Done (a : A)
| Panic.

Arguments Done {A} a.
Arguments Panic {A}.

Definition M (A : Type) : Type := World -> Outcome A * World.

Definition ret {A} (a : A) : M A := fun w => (Done a, w).

Definition bind {A B} (m : M A) (k : A -> M B) : M B :=
  fun w =>
    match m w with
    | (Done a, w') => k a w'
    | (Panic, w') => (Panic, w')
    end.

Definition panic {A} : M A := fun w => (Panic, w).

Notation "x <- c1 ;; c2" := (bind c1 (fun x => c2))
  (at level 100, c1 at next level, right associativity).

Notation "c1 ;;; c2" := (bind c1 (fun _ => c2))
  (at level 100, right associativity).

Definition get_registry : M (gmap string ContainerInfo) :=
  fun w => (Done (registry w), w).

Definition put_registry (r : gmap string ContainerInfo) : M unit :=
  fun w => (Done tt, with_registry r w).

Definition Printf (m : LogMsg) : M unit :=
  fun w => (Done tt, record (EvLog m) w).

(** [s[:n]] inside a function body. *)
Definition slice (n : nat) (s : string) : M string :=
  match slice_to n s with
  | Some p => ret p
  | None => panic
  end.

Definition with_Status (st : Status) (c : ContainerInfo) : ContainerInfo :=
  {| ci_ID := ci_ID c; ci_Name := ci_Name c; ci_Pid := ci_Pid c;
     ci_Image := ci_Image c; ci_Command := ci_Command c; ci_Status := st;
     ci_CreateTime := ci_CreateTime c; ci_Config := ci_Config c |}.

Definition with_Pid (pid : Z) (c : ContainerInfo) : ContainerInfo :=
  {| ci_ID := ci_ID c; ci_Name := ci_Name c; ci_Pid := pid;
     ci_Image := ci_Image c; ci_Command := ci_Command c;
     ci_Status := ci_Status c; ci_CreateTime := ci_CreateTime c;
     ci_Config := ci_Config c |}.

Definition with_Name (name : string) (c : Config) : Config :=
  {| cfg_Name := name; cfg_Image := cfg_Image c; cfg_Command := cfg_Command c;
     cfg_Tty := cfg_Tty c; cfg_Detach := cfg_Detach c;
     cfg_Network := cfg_Network c; cfg_Volumes := cfg_Volumes c;
     cfg_Resource := cfg_Resource c |}.

(** [container.Status = st] through the pointer stored in the registry
    under [id]. *)
Definition set_Status (id : string) (c : ContainerInfo) (st : Status) : M unit :=
  fun w => (Done tt, with_registry (<[id := with_Status st c]> (registry w)) w).

(** ** github.com/google/uuid: a random version-4 identifier as text *)

Definition hex_digit (n : N) : ascii :=
  ascii_of_N (if (n <? 10)%N then 48 + n else 87 + n).

Definition uuid_byte (r : N) (i : N) : N :=
  let b := N.land (N.shiftr r (8 * (15 - i))) 255 in
  if (i =? 6)%N then N.lor (N.land b 15) 64
  else if (i =? 8)%N then N.lor (N.land b 63) 128
  else b.

Definition hex_byte (r : N) (i : N) (rest : string) : string :=
  let b := uuid_byte r i in
  String (hex_digit (N.shiftr b 4)) (String (hex_digit (N.land b 15)) rest).

Definition uuid_String (r : N) : string :=
  hex_byte r 0 (hex_byte r 1 (hex_byte r 2 (hex_byte r 3 (String "-"
  (hex_byte r 4 (hex_byte r 5 (String "-"
  (hex_byte r 6 (hex_byte r 7 (String "-"
  (hex_byte r 8 (hex_byte r 9 (String "-"
  (hex_byte r 10 (hex_byte r 11 (hex_byte r 12 (hex_byte r 13
  (hex_byte r 14 (hex_byte r 15 ""))))))))))))))))))).

(** ** The process environment, [os.Getenv] *)

Fixpoint env_entry (key entry : string) : option string :=
  match key, entry with
  | EmptyString, String c v => if Ascii.eqb c "=" then Some v else None
  | String k key', String c entry' =>
      if Ascii.eqb c "=" then None
      else if Ascii.eqb k c then env_entry key' entry' else None
  | _, EmptyString => None
  end.

(** [os.LookupEnv]: the first entry [key=value] decides. *)
Fixpoint LookupEnv (key : string) (envs : list string) : option string :=
  match envs with
  | [] => None
  | e :: r =>
      match env_entry key e with
      | Some v => Some v
      | None => LookupEnv key r
      end
  end.

(** [os.Getenv]: the value, empty when the variable is not present. *)
Definition Getenv (key : string) : M string :=
  fun w => (Done (default "" (LookupEnv key (environ w))), w).

Definition Environ : M (list string) :=
  fun w => (Done (environ w), w).

(* ===================================================================== *)
(** * Part IV: the operations of the runtime                             *)
(* ===================================================================== *)

Definition DefaultContainerRoot : string := "/var/lib/godocker".

Definition cgroupMemoryPath : string := "/sys/fs/cgroup/memory".
Definition cgroupCpuPath : string := "/sys/fs/cgroup/cpu".
Definition cgroupCpusetPath : string := "/sys/fs/cgroup/cpuset".

Definition BridgeMode : string := "bridge".
Definition HostMode : string := "host".
Definition NoneMode : string := "none".
Definition DefaultBridge : string := "godocker0".
Definition DefaultSubnet : string := "172.17.0.0/16".
Definition DefaultGateway : string := "172.17.0.1".
Definition DefaultIPPrefix : string := "172.17.0.".

Definition SIGTERM : Z := 15.

(** The permission bits [0755] and [0644]. *)
Definition mode_0755 : Z := 7 * 64 + 5 * 8 + 5.
Definition mode_0644 : Z := 6 * 64 + 4 * 8 + 4.

Definition CLONE_NEWNS : Z := 0x00020000.
Definition CLONE_NEWUTS : Z := 0x04000000.
Definition CLONE_NEWPID : Z := 0x20000000.
Definition CLONE_NEWNET : Z := 0x40000000.

(** [os.IsExist]: the error says that the target exists already. *)
Definition IsExist (e : Errno) : bool := ((e =? EEXIST) || (e =? 39))%Z.

Section Runtime.

Variable unicode_lower : string -> string.
Variable E : Env.

(** A request whose only result is its error. *)
Definition call (c : Event) : M (option Errno) :=
  fun w => (Done (os_call E (trace w) c), record c w).

(** [exec.Command(argv...).Output()], output discarded. *)
Definition Output (argv : list string) : M (option Errno) :=
  call (EvCommand argv).

(** Run [body] unless [r] is an error, which is returned as [wrap]
    renders it: the [if err := ...; err != nil { return ... }] idiom. *)
Definition check (r : M (option Errno)) (wrap : Error -> Error)
    (body : M (option Error)) : M (option Error) :=
  e <- r ;;
  match e with
  | Some errno => ret (Some (wrap (OsError errno)))
  | None => body
  end.

(** ** resources/resource.go *)

Definition same (e : Error) : Error := e.

Definition setupMemoryLimit (cgroupName : string) (pid : Z)
    (memoryLimit : string) : M (option Error) :=
  match parseMemoryLimit unicode_lower memoryLimit with
  | Err e => ret (Some e)
  | Ok memoryBytes =>
      let memoryPath := filepath_Join cgroupMemoryPath cgroupName in
      check (call (EvMkdirAll memoryPath mode_0755)) same (
      check (call (EvWriteFile (filepath_Join memoryPath "memory.limit_in_bytes")
                               (FormatInt memoryBytes) mode_0644)) same (
      check (call (EvWriteFile (filepath_Join memoryPath "memory.swappiness")
                               "0" mode_0644)) same (
      check (call (EvWriteFile (filepath_Join memoryPath "tasks")
                               (Itoa pid) mode_0644)) same (
      ret None))))
  end.

Definition setupCpuSet (cgroupName : string) (pid : Z) (cpuSet : string)
    : M (option Error) :=
  let cpusetPath := filepath_Join cgroupCpusetPath cgroupName in
  check (call (EvMkdirAll cpusetPath mode_0755)) same (
  check (call (EvWriteFile (filepath_Join cpusetPath "cpuset.cpus") cpuSet mode_0644)) same (
  check (call (EvWriteFile (filepath_Join cpusetPath "cpuset.mems") "0" mode_0644)) same (
  check (call (EvWriteFile (filepath_Join cpusetPath "tasks") (Itoa pid) mode_0644)) same (
  ret None)))).

Definition setupCpuShare (cgroupName : string) (pid : Z) (cpuShare : Z)
    : M (option Error) :=
  let cpuPath := filepath_Join cgroupCpuPath cgroupName in
  check (call (EvMkdirAll cpuPath mode_0755)) same (
  check (call (EvWriteFile (filepath_Join cpuPath "cpu.shares") (Itoa cpuShare) mode_0644)) same (
  check (call (EvWriteFile (filepath_Join cpuPath "tasks") (Itoa pid) mode_0644)) same (
  ret None))).

(** Run [step] when [cond] holds; go on with [body] unless it failed. *)
Definition when_ok (cond : bool) (step : M (option Error))
    (wrap : Error -> Error) (body : M (option Error)) : M (option Error) :=
  if cond then
    e <- step ;;
    match e with
    | Some err => ret (Some (wrap err))
    | None => body
    end
  else body.

Definition ApplyResourceLimits (pid : Z) (config : ResourceConfig)
    : M (option Error) :=
  if (rc_MemoryLimit config =? "") && (rc_CpuSet config =? "")
     && (rc_CpuShare config =? 0)%Z
  then ret None
  else
    let cgroupName := "godocker-" +:+ Itoa pid in
    when_ok (negb (rc_MemoryLimit config =? ""))
            (setupMemoryLimit cgroupName pid (rc_MemoryLimit config))
            SetMemoryLimitFailed (
    when_ok (negb (rc_CpuSet config =? ""))
            (setupCpuSet cgroupName pid (rc_CpuSet config))
            SetCpuSetFailed (
    when_ok (0 <? rc_CpuShare config)%Z
            (setupCpuShare cgroupName pid (rc_CpuShare config))
            SetCpuShareFailed (
    ret None))).

(** ** network/network.go *)

Definition deviceExists (name : string) : M (bool * option Error) :=
  fun w =>
    let w' := record (EvInterfaceByName name) w in
    match os_interface E (trace w) name with
    | Some text =>
        if Contains text "no such network interface"
        then (Done (false, None), w')
        else (Done (false, Some (InterfaceError text)), w')
    | None => (Done (true, None), w')
    end.

Definition setupBridge : M (option Error) :=
  r <- deviceExists DefaultBridge ;;
  if fst r then
    Printf (LogBridgeExists DefaultBridge) ;;;
    ret None
  else
    Printf (LogCreateBridge DefaultBridge) ;;;
    check (Output ["ip"; "link"; "add"; "name"; DefaultBridge; "type"; "bridge"])
          (NetworkStepFailed "create bridge") (
    check (Output ["ip"; "addr"; "add"; DefaultGateway +:+ "/16"; "dev"; DefaultBridge])
          (NetworkStepFailed "set bridge address") (
    check (Output ["ip"; "link"; "set"; "dev"; DefaultBridge; "up"])
          (NetworkStepFailed "bring bridge up") (
    ret None))).

Definition createVethPair (vethName peerName : string) : M (option Error) :=
  check (Output ["ip"; "link"; "add"; vethName; "type"; "veth"; "peer"; "name"; peerName])
        (NetworkStepFailed "create veth pair") (
  check (Output ["ip"; "link"; "set"; "dev"; vethName; "up"])
        (NetworkStepFailed "bring veth up") (
  ret None)).

Definition setupContainerNetns (vethName peerName : string) (pid : Z)
    (ipAddr : string) : M (option Error) :=
  let nsenter := ["nsenter"; "-t"; Itoa pid; "-n"] in
  check (Output ["ip"; "link"; "set"; peerName; "netns"; Itoa pid])
        (NetworkStepFailed "move peer into namespace") (
  check (Output (nsenter ++ ["ip"; "link"; "set"; "dev"; peerName; "name"; "eth0"]))
        (NetworkStepFailed "rename peer") (
  check (Output (nsenter ++ ["ip"; "addr"; "add"; ipAddr +:+ "/16"; "dev"; "eth0"]))
        (NetworkStepFailed "assign address") (
  check (Output (nsenter ++ ["ip"; "link"; "set"; "dev"; "eth0"; "up"]))
        (NetworkStepFailed "bring peer up") (
  check (Output (nsenter ++ ["ip"; "route"; "add"; "default"; "via"; DefaultGateway]))
        (NetworkStepFailed "default route") (
  ret None))))).

Definition connectVethToBridge (vethName bridge : string) : M (option Error) :=
  check (Output ["ip"; "link"; "set"; "dev"; vethName; "master"; bridge])
        (NetworkStepFailed "attach veth to bridge") (
  ret None).

Definition setupNAT (bridge subnet : string) : M (option Error) :=
  check (Output ["sysctl"; "-w"; "net.ipv4.ip_forward=1"])
        (NetworkStepFailed "enable forwarding") (
  r <- Output ["iptables"; "-t"; "nat"; "-A"; "POSTROUTING"; "-s"; subnet;
               "!"; "-o"; bridge; "-j"; "MASQUERADE"] ;;
  match r with
  | Some errno => Printf (LogNATWarning (OsError errno)) ;;; ret None
  | None => ret None
  end).

(** The last octet of the address.  Go's [%] truncates towards zero,
    as [Z.rem] does. *)
Definition lastOctet : Z :=
  let lastOctet := Z.rem (os_pid E) 254 in
  if (lastOctet <? 2)%Z then 100%Z else lastOctet.

Definition allocateIP : string := DefaultIPPrefix +:+ Itoa lastOctet.

(** Go on with [body] unless [step] failed. *)
Definition stage (step : M (option Error)) (wrap : Error -> Error)
    {A} (body : M (Res A)) : M (Res A) :=
  e <- step ;;
  match e with
  | Some err => ret (Err (wrap err))
  | None => body
  end.

Definition SetupNetwork (netMode containerID : string) (pid : Z)
    : M (Res NetworkConfig) :=
  let netConfig :=
    {| nc_Mode := netMode; nc_IPAddress := ""; nc_Gateway := "";
       nc_Subnet := ""; nc_MacAddr := "" |} in
  if netMode =? BridgeMode then
    stage setupBridge (NetworkSetupError "bridge") (
    id8 <- slice 8 containerID ;;
    let vethName := "veth-" +:+ id8 in
    let peerName := "eth0" in
    let ipAddr := allocateIP in
    let netConfig :=
      {| nc_Mode := netMode; nc_IPAddress := ipAddr;
         nc_Gateway := DefaultGateway; nc_Subnet := DefaultSubnet;
         nc_MacAddr := "" |} in
    stage (createVethPair vethName peerName) (NetworkSetupError "veth pair") (
    stage (setupContainerNetns vethName peerName pid ipAddr)
          (NetworkSetupError "container namespace") (
    stage (connectVethToBridge vethName DefaultBridge)
          (NetworkSetupError "bridge attachment") (
    stage (setupNAT DefaultBridge DefaultSubnet) (NetworkSetupError "NAT") (
    ret (Ok netConfig))))))
  else if netMode =? HostMode then
    Printf LogHostNetwork ;;;
    ret (Ok netConfig)
  else if netMode =? NoneMode then
    Printf LogNoNetwork ;;;
    ret (Ok netConfig)
  else
    ret (Err (UnsupportedNetworkMode netMode)).

(** ** container/container.go *)

Definition generateContainerId : M string :=
  fun w => (Done (uuid_String (os_random E (trace w))), record EvRandom w).

Definition time_Now : M Z := fun w => (Done (os_now E (trace w)), w).

Definition prepareRootfs (containerId imageName : string) : M (Res string) :=
  let containerRoot := filepath_Join DefaultContainerRoot containerId in
  e <- call (EvMkdirAll containerRoot mode_0755) ;;
  match e with
  | Some errno => ret (Err (OsError errno))
  | None =>
      Printf (LogRootfsPrepared containerRoot imageName) ;;;
      let marker := filepath_Join containerRoot ".rootfs_ready" in
      e <- call (EvWriteFile marker imageName mode_0644) ;;
      match e with
      | Some errno => ret (Err (OsError errno))
      | None => ret (Ok containerRoot)
      end
  end.

(** The namespace flags of the Linux build. *)
Definition setNamespaceFlags : Z :=
  Z.lor CLONE_NEWUTS (Z.lor CLONE_NEWPID (Z.lor CLONE_NEWNS CLONE_NEWNET)).

(** [cmd.Start()]: the process id of the child, or the error. *)
Definition cmd_Start (c : Event) : M (Errno + Z) :=
  fun w => (Done (os_start E (trace w) c), record c w).

Definition startContainer (container : ContainerInfo) (rootfs : string)
    : M (Res Z) :=
  let env : list string :=
    ([ "PATH=/bin:/usr/bin:/sbin:/usr/sbin";
       "TERM=xterm";
       "CONTAINER_ID=" +:+ ci_ID container;
       "CONTAINER_NAME=" +:+ ci_Name container ] ++
     [ "CONTAINER_CMD=" +:+ Join (ci_Command container) " ";
       "CONTAINER_ROOTFS=" +:+ rootfs ])%list in
  r <- cmd_Start (EvStart "/proc/self/exe" ["/proc/self/exe"; "init"] env
                          setNamespaceFlags (cfg_Tty (ci_Config container))) ;;
  match r with
  | inl errno => ret (Err (OsError errno))
  | inr pid =>
      Printf (LogProcessStarted pid) ;;;
      ret (Ok pid)
  end.

(** The loop over [runningContainers] that looks for a record of the
    requested name.  It returns at the first hit; the order of the
    iteration does not change its result. *)
Definition name_in_use (reg : gmap string ContainerInfo) (name : string) : bool :=
  existsb (fun kv => ci_Name (snd kv) =? name) (map_to_list reg).

(** [NewContainer] receives a pointer to the configuration and writes
    the default name into it; the record keeps a copy made after that
    write.  The caller's own view of the configuration is not part of
    the model. *)
Definition NewContainer (config : Config) : M (Res string) :=
  containerId <- generateContainerId ;;
  reg <- get_registry ;;
  if negb (cfg_Name config =? "") && name_in_use reg (cfg_Name config)
  then ret (Err (DuplicateName (cfg_Name config)))
  else
    config <- (if negb (cfg_Name config =? "") then ret config
               else id12 <- slice 12 containerId ;; ret (with_Name id12 config)) ;;
    r <- prepareRootfs containerId (cfg_Image config) ;;
    match r with
    | Err e => ret (Err (RootfsPreparationError e))
    | Ok containerRoot =>
        now <- time_Now ;;
        let container :=
          {| ci_ID := containerId; ci_Name := cfg_Name config; ci_Pid := 0;
             ci_Image := cfg_Image config; ci_Command := cfg_Command config;
             ci_Status := StatusRunning; ci_CreateTime := now;
             ci_Config := config |} in
        p <- startContainer container containerRoot ;;
        match p with
        | Err e => ret (Err (ProcessStartError e))
        | Ok pid =>
            let container := with_Pid pid container in
            reg <- get_registry ;;
            put_registry (<[containerId := container]> reg) ;;;
            e <- ApplyResourceLimits pid (cfg_Resource config) ;;
            match e with
            | Some err => Printf (LogResourceWarning err)
            | None => ret tt
            end ;;;
            (if negb (cfg_Network config =? "") && negb (cfg_Network config =? "none")
             then
               n <- SetupNetwork (cfg_Network config) containerId (ci_Pid container) ;;
               match n with
               | Err err => Printf (LogNetworkFailed err)
               | Ok _ => ret tt
               end
             else ret tt) ;;;
            ret (Ok containerId)
        end
    end.

Definition StopContainer (containerId : string) : M (option Error) :=
  reg <- get_registry ;;
  match reg !! containerId with
  | None => ret (Some (NotFound containerId))
  | Some container =>
      if Status_eqb (ci_Status container) StatusStopped then ret None
      else
        check (call (EvFindProcess (ci_Pid container))) ProcessLookupError (
        t <- call (EvSignal (ci_Pid container) SIGTERM) ;;
        k <- match t with
             | Some errno =>
                 Printf (LogSigtermFailed (OsError errno)) ;;;
                 call (EvKill (ci_Pid container))
             | None => ret None
             end ;;
        match k with
        | Some errno => ret (Some (KillFailed (OsError errno)))
        | None =>
            set_Status containerId container StatusStopped ;;;
            ret None
        end)
  end.

Definition RemoveContainer (containerId : string) : M (option Error) :=
  reg <- get_registry ;;
  match reg !! containerId with
  | None => ret (Some (NotFound containerId))
  | Some container =>
      s <- (if Status_eqb (ci_Status container) StatusRunning
            then StopContainer containerId else ret None) ;;
      match s with
      | Some err => ret (Some (StopFailed err))
      | None =>
          let containerRoot := filepath_Join DefaultContainerRoot containerId in
          e <- call (EvRemoveAll containerRoot) ;;
          match e with
          | Some errno => Printf (LogCleanupWarning (OsError errno))
          | None => ret tt
          end ;;;
          reg <- get_registry ;;
          put_registry (delete containerId reg) ;;;
          ret None
      end
  end.

Definition ListContainers : M (Res (list ContainerInfo)) :=
  reg <- get_registry ;;
  ret (Ok (map snd (map_to_list reg))).

(** [process.Wait()]: blocks until the process has terminated and
    yields the exit code of its final state, or an error. *)
Definition process_Wait (pid : Z) : M (Errno + Z) :=
  fun w => (Done (os_wait E (trace w) pid), record (EvWait pid) w).

Definition WaitContainer (containerId : string) : M (option Error) :=
  reg <- get_registry ;;
  match reg !! containerId with
  | None => ret (Some (NotFound containerId))
  | Some container =>
      if Status_eqb (ci_Status container) StatusStopped then ret None
      else
        check (call (EvFindProcess (ci_Pid container))) ProcessLookupError (
        state <- process_Wait (ci_Pid container) ;;
        match state with
        | inl errno => ret (Some (WaitFailed (OsError errno)))
        | inr exitCode =>
            set_Status containerId container StatusStopped ;;;
            id12 <- slice 12 containerId ;;
            Printf (LogExited id12 exitCode) ;;;
            ret None
        end)
  end.

(** ** package container: the init protocol and its Linux helpers *)

Definition setHostname (hostname : string) : M (option Errno) :=
  call (EvSethostname hostname).

Definition mountFilesystem (source target fstype : string) (flags : Z)
    (data : string) : M (option Errno) :=
  call (EvMount source target fstype flags data).

Fixpoint makeMountPoints (rootfs : string) (dirs : list string)
    (body : M (option Error)) : M (option Error) :=
  match dirs with
  | [] => body
  | dir :: rest =>
      let path := filepath_Join rootfs dir in
      check (call (EvMkdirAll path mode_0755)) (MkdirError path)
            (makeMountPoints rootfs rest body)
  end.

Definition S_IFCHR : Z := 0x2000.

Definition Mkdev (major minor : Z) : Z :=
  Z.lor (Z.lor (Z.shiftl (Z.land major 0x00000fff) 8)
               (Z.shiftl (Z.land major 0xfffff000) 32))
        (Z.lor (Z.land minor 0x000000ff)
               (Z.shiftl (Z.land minor 0xffffff00) 12)).

Definition setupContainerMounts (rootfs : string) : M (option Error) :=
  makeMountPoints rootfs ["/proc"; "/sys"; "/dev"; "/dev/pts"; "/tmp"] (
  check (mountFilesystem "proc" (filepath_Join rootfs "/proc") "proc" 0 "")
        (MountError "proc") (
  check (mountFilesystem "sysfs" (filepath_Join rootfs "/sys") "sysfs" 0 "")
        (MountError "sys") (
  check (mountFilesystem "tmpfs" (filepath_Join rootfs "/dev") "tmpfs" 0 "")
        (MountError "dev") (
  let ptsDir := filepath_Join rootfs "/dev/pts" in
  check (call (EvMkdirAll ptsDir mode_0755)) (MkdirError "/dev/pts") (
  check (mountFilesystem "devpts" (filepath_Join rootfs "/dev/pts") "devpts" 0
                         "newinstance,ptmxmode=0666,mode=0620")
        (MountError "dev/pts") (
  let devNull := filepath_Join rootfs "/dev/null" in
  e <- call (EvMknod devNull (Z.lor S_IFCHR (6 * 64 + 6 * 8 + 6)) (Mkdev 1 3)) ;;
  match e with
  | Some errno =>
      if negb (IsExist errno) then ret (Some (MknodError (OsError errno)))
      else ret None
  | None => ret None
  end)))))).

(** [exec.LookPath] *)
Definition LookPath (file : string) : M (Errno + string) :=
  fun w => (Done (os_lookpath E (trace w) file), record (EvLookPath file) w).

(** [InitContainer] returns an error, or does not return at all
    because [syscall.Exec] replaced the process image. *)
Inductive InitResult :=
| InitFailed (e : Error)
| ImageReplaced.

Definition lift (r : option Error) : InitResult :=
  match r with
  | Some e => InitFailed e
  | None => ImageReplaced
  end.

Definition InitContainer : M InitResult :=
  rootfs <- Getenv "CONTAINER_ROOTFS" ;;
  cmdString <- Getenv "CONTAINER_CMD" ;;
  containerName <- Getenv "CONTAINER_NAME" ;;
  if (rootfs =? "") || (cmdString =? "") then ret (InitFailed MissingConfiguration)
  else
    Printf (LogInit containerName rootfs) ;;;
    r <- check (setHostname containerName) HostnameError (
         m <- setupContainerMounts rootfs ;;
         match m with
         | Some err => ret (Some (MountsSetupError err))
         | None =>
             check (call (EvChroot rootfs)) ChrootError (
             check (call (EvChdir "/")) ChdirError (
             let cmdParts := Split cmdString " " in
             match cmdParts with
             | [] => ret (Some InvalidCommand)
             | cmd0 :: _ =>
                 p <- LookPath cmd0 ;;
                 match p with
                 | inl errno => ret (Some (ExecFailure cmd0 (OsError errno)))
                 | inr cmdPath =>
                     Printf (LogExecCommand cmdString) ;;;
                     env <- Environ ;;
                     check (call (EvExec cmdPath cmdParts env)) same (ret None)
                 end
             end))
         end) ;;
    ret (lift r).

End Runtime.

(* ===================================================================== *)
(** * Part V: vocabulary of the properties                               *)
(* ===================================================================== *)

(** ** Addresses *)

Definition octet (s : string) : option Z :=
  match ParseUint s with
  | NumOk n => if (n <=? 255)%Z then Some n else None
  | _ => None
  end.

(** The four octets of an IPv4 address in dotted-quad text. *)
Definition dotted_quad (s : string) : option (Z * Z * Z * Z) :=
  match Split s "." with
  | [a; b; c; d] =>
      match octet a, octet b, octet c, octet d with
      | Some a, Some b, Some c, Some d => Some (a, b, c, d)
      | _, _, _, _ => None
      end
  | _ => None
  end.

Definition ipv4_value (q : Z * Z * Z * Z) : Z :=
  let '(a, b, c, d) := q in
  Z.lor (Z.shiftl a 24) (Z.lor (Z.shiftl b 16) (Z.lor (Z.shiftl c 8) d)).

(** Membership of an address in the block [base/bits]. *)
Definition in_block (addr base : Z * Z * Z * Z) (bits : Z) : bool :=
  (Z.shiftr (ipv4_value addr) (32 - bits) =? Z.shiftr (ipv4_value base) (32 - bits))%Z.

(** ** Computations that only talk to the operating system *)

Definition extend (evs : list Event) (w : World) : World :=
  {| registry := registry w; environ := environ w; trace := trace w ++ evs |}.

(** [io_only m]: [m] returns (it does not panic) and leaves the
    registry and the process environment alone; all it does is add
    requests to the trace. *)
Definition io_only {A} (m : M A) : Prop :=
  forall w, exists a evs, m w = (Done a, extend evs w).

(** [never_yields e m]: whatever the environment answers, [m] does not
    end with the error [e]. *)
Definition never_yields (e : Error) (m : M (option Error)) : Prop :=
  forall w r w', m w = (r, w') -> r <> Done (Some e).

(** A variable of the process environment is absent, or present with
    an empty value. *)
Definition absent_or_empty (v : option string) : Prop :=
  v = None \/ v = Some "".

(** ** Creation, step by step *)

(** The identifier the next [NewContainer] draws. *)
Definition new_id (E : Env) (w : World) : string :=
  uuid_String (os_random E (trace w)).

(** The configuration after the default name has been filled in. *)
Definition effective_config (containerId : string) (config : Config) : Config :=
  if cfg_Name config =? "" then with_Name (String.substring 0 12 containerId) config
  else config.

(** The record [NewContainer] builds before the process is started. *)
Definition new_record (containerId : string) (config : Config) (now : Z)
    : ContainerInfo :=
  {| ci_ID := containerId; ci_Name := cfg_Name config; ci_Pid := 0;
     ci_Image := cfg_Image config; ci_Command := cfg_Command config;
     ci_Status := StatusRunning; ci_CreateTime := now; ci_Config := config |}.

(** What [NewContainer] does once the record is in the registry. *)
Definition post_spawn (ul : string -> string) (E : Env) (config : Config)
    (containerId : string) (pid : Z) : M (Res string) :=
  e <- ApplyResourceLimits ul E pid (cfg_Resource config) ;;
  match e with
  | Some err => Printf (LogResourceWarning err)
  | None => ret tt
  end ;;;
  (if negb (cfg_Network config =? "") && negb (cfg_Network config =? "none")
   then
     n <- SetupNetwork E (cfg_Network config) containerId pid ;;
     match n with
     | Err err => Printf (LogNetworkFailed err)
     | Ok _ => ret tt
     end
   else ret tt) ;;;
  ret (Ok containerId).

(** Some record of the registry bears the name. *)
Definition name_held (reg : gmap string ContainerInfo) (name : string) : Prop :=
  exists id c, reg !! id = Some c /\ ci_Name c = name.

(** The requested name collides with a record of the registry. *)
Definition name_collides (reg : gmap string ContainerInfo) (config : Config) : Prop :=
  cfg_Name config <> "" /\ name_held reg (cfg_Name config).

(** A sequence of [NewContainer] calls, results in order. *)
Fixpoint create_all (ul : string -> string) (E : Env) (configs : list Config)
    : M (list (Res string)) :=
  match configs with
  | [] => ret []
  | config :: rest =>
      r <- NewContainer ul E config ;;
      rs <- create_all ul E rest ;;
      ret (r :: rs)
  end.

Definition is_Ok {T} (r : Res T) : Prop :=
  match r with Ok _ => True | Err _ => False end.

Definition is_DuplicateName {T} (r : Res T) : Prop :=
  match r with Err (DuplicateName _) => True | _ => False end.

(** An environment in which preparing a root filesystem and starting a
    process never fail. *)
Definition healthy (E : Env) : Prop :=
  (forall h path perm, os_call E h (EvMkdirAll path perm) = None) /\
  (forall h path data perm, os_call E h (EvWriteFile path data perm) = None) /\
  (forall h c, exists pid, os_start E h c = inr pid).

(** ** Example environments and worlds *)

(** Every request succeeds; a started process has id [4242] and, when
    waited for, has exited with [code]. *)
Definition calm (code : Z) : Env :=
  {| os_pid := 700;
     os_now := fun _ => 0%Z;
     os_random := fun h => N.of_nat (length h);
     os_call := fun _ _ => None;
     os_start := fun _ _ => inr 4242%Z;
     os_wait := fun _ _ => inr code;
     os_lookpath := fun _ file => inr file;
     os_interface := fun _ _ => None |}.

(** As [calm 0], but creating a directory is refused. *)
Definition no_space : Env :=
  {| os_pid := 700;
     os_now := fun _ => 0%Z;
     os_random := fun h => N.of_nat (length h);
     os_call := fun _ c => match c with EvMkdirAll _ _ => Some 28%Z | _ => None end;
     os_start := fun _ _ => inr 4242%Z;
     os_wait := fun _ _ => inr 0%Z;
     os_lookpath := fun _ file => inr file;
     os_interface := fun _ _ => None |}.

(** As [calm 0], but no process can be started and no signal can be
    delivered. *)
Definition no_process : Env :=
  {| os_pid := 700;
     os_now := fun _ => 0%Z;
     os_random := fun h => N.of_nat (length h);
     os_call := fun _ c =>
       match c with
       | EvSignal _ _ | EvKill _ => Some 3%Z
       | _ => None
       end;
     os_start := fun _ _ => inl 11%Z;
     os_wait := fun _ _ => inr 0%Z;
     os_lookpath := fun _ file => inr file;
     os_interface := fun _ _ => None |}.

Definition sample_config (name network memory : string) : Config :=
  {| cfg_Name := name; cfg_Image := "alpine"; cfg_Command := ["/bin/sh"];
     cfg_Tty := false; cfg_Detach := true; cfg_Network := network;
     cfg_Volumes := [];
     cfg_Resource := {| rc_MemoryLimit := memory; rc_CpuSet := ""; rc_CpuShare := 0 |} |}.

Definition sample_id : string := "0f8fad5b-d9cb-469f-a165-70867728950e".

Definition sample_record (st : Status) : ContainerInfo :=
  with_Status st
    (with_Pid 4242 (new_record sample_id (sample_config "web" "none" "") 0)).

Definition fresh_world : World :=
  {| registry := ∅; environ := []; trace := [] |}.

(** A world whose registry holds one record, [sample_id], in the given
    status. *)
Definition one_container (st : Status) : World :=
  {| registry := {[ sample_id := sample_record st ]}; environ := []; trace := [] |}.

(** The world of an init process whose command string is present but
    empty, as [startContainer] hands it over for an empty command. *)
Definition empty_command_world : World :=
  {| registry := ∅;
     environ := ["PATH=/bin:/usr/bin:/sbin:/usr/sbin"; "TERM=xterm";
                 "CONTAINER_ID=" +:+ sample_id; "CONTAINER_NAME=web";
                 "CONTAINER_CMD="; "CONTAINER_ROOTFS=/var/lib/godocker/" +:+ sample_id];
     trace := [] |}.

(** The world of an init process that has no container name. *)
Definition nameless_world : World :=
  {| registry := ∅;
     environ := ["CONTAINER_CMD=/bin/sh"; "CONTAINER_ROOTFS=/rootfs"];
     trace := [] |}.

(** The first twelve bytes of the identifier that the second creation
    from [fresh_world] draws in [calm 0]. *)
Definition twin_name : string := "00000000-000".

(** The world after a creation under [twin_name] and one without a
    name, which takes the first twelve bytes of its identifier as its
    name unchecked: two records bear the same name. *)
Definition twin_world : World :=
  snd (create_all (fun s => s) (calm 0)
         [sample_config twin_name "none" ""; sample_config "" "none" ""] fresh_world).

(* ===================================================================== *)
(** * Part VI: vocabulary of the further properties                      *)
(* ===================================================================== *)

(** ** The registry *)

(** Every record is filed under its own identifier, and identifiers
    have the length of a UUID in text. *)
Definition wf_registry (reg : gmap string ContainerInfo) : Prop :=
  forall id c, reg !! id = Some c -> ci_ID c = id /\ String.length id = 36%nat.

(** No two records bear the same name. *)
Definition unique_names (reg : gmap string ContainerInfo) : Prop :=
  forall id1 c1 id2 c2,
    reg !! id1 = Some c1 -> reg !! id2 = Some c2 ->
    ci_Name c1 = ci_Name c2 -> id1 = id2.

(** The operations on an existing container. *)
Inductive Op :=
| OpStop (id : string)
| OpWait (id : string)
| OpRemove (id : string).

Definition run_op (E : Env) (o : Op) : M (option Error) :=
  match o with
  | OpStop id => StopContainer E id
  | OpWait id => WaitContainer E id
  | OpRemove id => RemoveContainer E id
  end.

Fixpoint run_ops (E : Env) (ops : list Op) : M (list (option Error)) :=
  match ops with
  | [] => ret []
  | o :: rest =>
      r <- run_op E o ;;
      rs <- run_ops E rest ;;
      ret (r :: rs)
  end.

(** The container an operation is about. *)
Definition op_id (o : Op) : string :=
  match o with
  | OpStop id | OpWait id | OpRemove id => id
  end.

(** The request removes a directory tree, or warns that it could
    not. *)
Definition is_cleanup (e : Event) : bool :=
  match e with
  | EvRemoveAll _ | EvLog (LogCleanupWarning _) => true
  | _ => false
  end.

Definition is_signal (e : Event) : bool :=
  match e with
  | EvSignal _ _ | EvKill _ => true
  | _ => false
  end.

Definition is_wait (e : Event) : bool :=
  match e with
  | EvWait _ => true
  | _ => false
  end.

(** What a client may ask of the orchestrator. *)
Inductive Request :=
| ReqCreate (config : Config)
| ReqOp (o : Op).

Definition serve (ul : string -> string) (E : Env) (q : Request) : M unit :=
  match q with
  | ReqCreate config => NewContainer ul E config ;;; ret tt
  | ReqOp o => run_op E o ;;; ret tt
  end.

Fixpoint serve_all (ul : string -> string) (E : Env) (qs : list Request) : M unit :=
  match qs with
  | [] => ret tt
  | q :: rest => serve ul E q ;;; serve_all ul E rest
  end.

(** ** The handoff from the orchestrator to the init process *)

Fixpoint has_byte (b : ascii) (s : string) : bool :=
  match s with
  | EmptyString => false
  | String c r => Ascii.eqb c b || has_byte b r
  end.

Fixpoint count_byte (b : ascii) (s : string) : nat :=
  match s with
  | EmptyString => 0
  | String c r => (if Ascii.eqb c b then 1 else 0) + count_byte b r
  end.

(** The environment [startContainer] gives to the process it starts. *)
Definition handoff_env (container : ContainerInfo) (rootfs : string) : list string :=
  [ "PATH=/bin:/usr/bin:/sbin:/usr/sbin";
    "TERM=xterm";
    "CONTAINER_ID=" +:+ ci_ID container;
    "CONTAINER_NAME=" +:+ ci_Name container;
    "CONTAINER_CMD=" +:+ Join (ci_Command container) " ";
    "CONTAINER_ROOTFS=" +:+ rootfs ].

(** The request that starts the init process of a container. *)
Definition start_request (container : ContainerInfo) (rootfs : string) : Event :=
  EvStart "/proc/self/exe" ["/proc/self/exe"; "init"] (handoff_env container rootfs)
          setNamespaceFlags (cfg_Tty (ci_Config container)).

(** ** Scripts of requests *)

(** A script: requests made one after the other, each with the
    rendering of its failure; the first request that is refused ends
    the script with that failure. *)
Fixpoint run_checked (E : Env) (steps : list (Event * (Error -> Error)))
    (body : M (option Error)) : M (option Error) :=
  match steps with
  | [] => body
  | (ev, wrap) :: rest => check (call E ev) wrap (run_checked E rest body)
  end.

(** Every request of [evs], made in this order after the history [h],
    is accepted. *)
Fixpoint all_accepted (E : Env) (h : list Event) (evs : list Event) : bool :=
  match evs with
  | [] => true
  | ev :: rest =>
      match os_call E h ev with
      | None => all_accepted E (h ++ [ev]) rest
      | Some _ => false
      end
  end.

(** The mount points and the mounts of [setupContainerMounts], up to
    the device node. *)
Definition mount_steps (rootfs : string) : list (Event * (Error -> Error)) :=
  let dir d := filepath_Join rootfs d in
  let mkdir d := (EvMkdirAll (dir d) mode_0755, MkdirError (dir d)) in
  [ mkdir "/proc"; mkdir "/sys"; mkdir "/dev"; mkdir "/dev/pts"; mkdir "/tmp";
    (EvMount "proc" (dir "/proc") "proc" 0 "", MountError "proc");
    (EvMount "sysfs" (dir "/sys") "sysfs" 0 "", MountError "sys");
    (EvMount "tmpfs" (dir "/dev") "tmpfs" 0 "", MountError "dev");
    (EvMkdirAll (dir "/dev/pts") mode_0755, MkdirError "/dev/pts");
    (EvMount "devpts" (dir "/dev/pts") "devpts" 0 "newinstance,ptmxmode=0666,mode=0620",
     MountError "dev/pts") ].

(** The steps of the init process between the configuration check and
    the device node: hostname, mount points, mounts. *)
Definition init_mount_steps (containerName rootfs : string)
    : list (Event * (Error -> Error)) :=
  (EvSethostname containerName, HostnameError)
  :: map (fun s => (fst s, fun e => MountsSetupError (snd s e))) (mount_steps rootfs).

Definition init_mknod (rootfs : string) : Event :=
  EvMknod (filepath_Join rootfs "/dev/null") (Z.lor S_IFCHR (6 * 64 + 6 * 8 + 6)) (Mkdev 1 3).

(** The device node of [setupContainerMounts]: a refusal because the
    node exists is passed over. *)
Definition mknod_then (E : Env) (rootfs : string) (next : M (option Error))
    (wrap : Error -> Error) : M (option Error) :=
  e <- call E (init_mknod rootfs) ;;
  match e with
  | Some errno =>
      if negb (IsExist errno) then ret (Some (wrap (MknodError (OsError errno))))
      else next
  | None => next
  end.

(** The init process from the change of root to the new image. *)
Definition init_exec (E : Env) (rootfs cmdString : string) : M (option Error) :=
  check (call E (EvChroot rootfs)) ChrootError (
  check (call E (EvChdir "/")) ChdirError (
  match Split cmdString " " with
  | [] => ret (Some InvalidCommand)
  | cmd0 :: _ =>
      p <- LookPath E cmd0 ;;
      match p with
      | inl errno => ret (Some (ExecFailure cmd0 (OsError errno)))
      | inr cmdPath =>
          Printf (LogExecCommand cmdString) ;;;
          env <- Environ ;;
          check (call E (EvExec cmdPath (Split cmdString " ") env)) same (ret None)
      end
  end)).

(** An environment that accepts every request and finds every
    program. *)
Definition accepting (E : Env) : Prop :=
  (forall h c, os_call E h c = None) /\
  (forall h file, exists path, os_lookpath E h file = inr path).

Definition is_mount (e : Event) : bool :=
  match e with
  | EvMount _ _ _ _ _ => true
  | _ => false
  end.

(** ** The resource limiter as a script *)

(** A script whose failures are rendered once more. *)
Definition rewrap (W : Error -> Error) (steps : list (Event * (Error -> Error)))
    : list (Event * (Error -> Error)) :=
  map (fun s => (fst s, fun e => W (snd s e))) steps.

Definition memory_steps (cgroupName : string) (pid memoryBytes : Z)
    : list (Event * (Error -> Error)) :=
  let memoryPath := filepath_Join cgroupMemoryPath cgroupName in
  [ (EvMkdirAll memoryPath mode_0755, same);
    (EvWriteFile (filepath_Join memoryPath "memory.limit_in_bytes")
                 (FormatInt memoryBytes) mode_0644, same);
    (EvWriteFile (filepath_Join memoryPath "memory.swappiness") "0" mode_0644, same);
    (EvWriteFile (filepath_Join memoryPath "tasks") (Itoa pid) mode_0644, same) ].

Definition cpuset_steps (cgroupName : string) (pid : Z) (cpuSet : string)
    : list (Event * (Error -> Error)) :=
  let cpusetPath := filepath_Join cgroupCpusetPath cgroupName in
  [ (EvMkdirAll cpusetPath mode_0755, same);
    (EvWriteFile (filepath_Join cpusetPath "cpuset.cpus") cpuSet mode_0644, same);
    (EvWriteFile (filepath_Join cpusetPath "cpuset.mems") "0" mode_0644, same);
    (EvWriteFile (filepath_Join cpusetPath "tasks") (Itoa pid) mode_0644, same) ].

Definition cpushare_steps (cgroupName : string) (pid cpuShare : Z)
    : list (Event * (Error -> Error)) :=
  let cpuPath := filepath_Join cgroupCpuPath cgroupName in
  [ (EvMkdirAll cpuPath mode_0755, same);
    (EvWriteFile (filepath_Join cpuPath "cpu.shares") (Itoa cpuShare) mode_0644, same);
    (EvWriteFile (filepath_Join cpuPath "tasks") (Itoa pid) mode_0644, same) ].

(** All the requests of [ApplyResourceLimits], in order, for a memory
    limit of [memoryBytes]. *)
Definition limit_steps (pid : Z) (config : ResourceConfig) (memoryBytes : Z)
    : list (Event * (Error -> Error)) :=
  let cgroupName := "godocker-" +:+ Itoa pid in
  (if negb (rc_MemoryLimit config =? "")
   then rewrap SetMemoryLimitFailed (memory_steps cgroupName pid memoryBytes) else [])
  ++ (if negb (rc_CpuSet config =? "")
      then rewrap SetCpuSetFailed (cpuset_steps cgroupName pid (rc_CpuSet config)) else [])
  ++ (if (0 <? rc_CpuShare config)%Z
      then rewrap SetCpuShareFailed (cpushare_steps cgroupName pid (rc_CpuShare config))
      else []).

(** The bytes of the memory limit, when there is one and it parses
    (zero stands for no limit to apply). *)
Definition parsed_bytes (ul : string -> string) (config : ResourceConfig) : option Z :=
  if rc_MemoryLimit config =? "" then Some 0%Z
  else match parseMemoryLimit ul (rc_MemoryLimit config) with
       | Ok b => Some b
       | Err _ => None
       end.

(** The control-group directories of a process. *)
Definition cgroup_dirs (pid : Z) : list string :=
  map (fun root => filepath_Join root ("godocker-" +:+ Itoa pid))
      [cgroupMemoryPath; cgroupCpusetPath; cgroupCpuPath].

(** The path is the directory or lies below it. *)
Definition under (dir p : string) : bool :=
  String.eqb dir p || String.prefix (dir +:+ "/") p.

(** The request makes or writes something at or below the directory. *)
Definition touches (dir : string) (e : Event) : bool :=
  match e with
  | EvMkdirAll p _ | EvWriteFile p _ _ => under dir p
  | _ => false
  end.

(** The request makes or writes something in a control-group directory
    of the process. *)
Definition in_own_cgroup (pid : Z) (e : Event) : bool :=
  existsb (fun d => touches d e) (cgroup_dirs pid).

(** ** container/container.go: the earlier init path *)

(** [setupMounts]: the proc file system only. *)
Definition setupMounts (E : Env) (rootfs : string) : M (option Error) :=
  let procPath := filepath_Join rootfs "proc" in
  check (call E (EvMkdirAll procPath mode_0755)) same (
  check (call E (EvMount "proc" procPath "proc" 0 "")) same (
  ret None)).

(** [containerInitProcess]: as [InitContainer], with the errors of the
    steps returned as they are. *)
Definition containerInitProcess (E : Env) : M InitResult :=
  rootfs <- Getenv "CONTAINER_ROOTFS" ;;
  cmdString <- Getenv "CONTAINER_CMD" ;;
  if (rootfs =? "") || (cmdString =? "") then ret (InitFailed MissingConfiguration)
  else
    r <- (containerName <- Getenv "CONTAINER_NAME" ;;
          check (call E (EvSethostname containerName)) same (
          m <- setupMounts E rootfs ;;
          match m with
          | Some err => ret (Some err)
          | None =>
              check (call E (EvChroot rootfs)) same (
              check (call E (EvChdir "/")) same (
              let cmdParts := Split cmdString " " in
              match cmdParts with
              | [] => ret (Some InvalidCommand)
              | cmd0 :: _ =>
                  p <- LookPath E cmd0 ;;
                  match p with
                  | inl errno => ret (Some (OsError errno))
                  | inr cmdPath =>
                      env <- Environ ;;
                      check (call E (EvExec cmdPath cmdParts env)) same (ret None)
                  end
              end))
          end)) ;;
    ret (lift r).

(** What the earlier init path asks for when nothing is refused. *)
Definition earlier_init_requests (name rootfs cmdString path : string)
    (env : list string) : list Event :=
  [ EvSethostname name;
    EvMkdirAll (filepath_Join rootfs "proc") mode_0755;
    EvMount "proc" (filepath_Join rootfs "proc") "proc" 0 "";
    EvChroot rootfs;
    EvChdir "/";
    EvLookPath (hd "" (Split cmdString " "));
    EvExec path (Split cmdString " ") env ].

(** ** What creation does not look at *)

(** [m] neither reads nor writes the registry: on another registry it
    gives the same result and makes the same requests. *)
Definition registry_blind {A} (m : M A) : Prop :=
  forall w reg, m (with_registry reg w) = (fst (m w), with_registry reg (snd (m w))).

(** Two configurations that differ at most in their volumes and their
    detach flag. *)
Definition same_but_volumes (c1 c2 : Config) : Prop :=
  cfg_Name c1 = cfg_Name c2 /\ cfg_Image c1 = cfg_Image c2 /\
  cfg_Command c1 = cfg_Command c2 /\ cfg_Tty c1 = cfg_Tty c2 /\
  cfg_Network c1 = cfg_Network c2 /\ cfg_Resource c1 = cfg_Resource c2.

(** A record without the copy of the configuration it keeps. *)
Definition sans_config (c : ContainerInfo)
    : string * string * Z * string * list string * Status * Z :=
  (ci_ID c, ci_Name c, ci_Pid c, ci_Image c, ci_Command c, ci_Status c, ci_CreateTime c).

(** ** cmd/run.go: the command-line parsers *)

Definition set_MemoryLimit (v : string) (c : ResourceConfig) : ResourceConfig :=
  {| rc_MemoryLimit := v; rc_CpuSet := rc_CpuSet c; rc_CpuShare := rc_CpuShare c |}.

Definition set_CpuSet (v : string) (c : ResourceConfig) : ResourceConfig :=
  {| rc_MemoryLimit := rc_MemoryLimit c; rc_CpuSet := v; rc_CpuShare := rc_CpuShare c |}.

(** [parseResourceConfig]: the zero value of the configuration with the
    two strings of the command line copied in. *)
Definition parseResourceConfig (memoryLimit cpuSet : string) : ResourceConfig :=
  let config := {| rc_MemoryLimit := ""; rc_CpuSet := ""; rc_CpuShare := 0 |} in
  let config := if negb (memoryLimit =? "") then set_MemoryLimit memoryLimit config
                else config in
  let config := if negb (cpuSet =? "") then set_CpuSet cpuSet config else config in
  config.

Section ParseVolumes.

(** [filepath.Abs] joins a relative path to the working directory of
    the process, which the program never changes before it parses its
    command line; the error is dropped by the caller, and the path
    [Abs] returns with it is the empty string.  The function is a
    parameter. *)
Variable Abs : string -> string.

(** [parseVolumes].  The nil slice Go returns for the empty string and
    the empty slice are both the empty list. *)
Definition parseVolumes (volumeStr : string) : list VolumeMapping :=
  if volumeStr =? "" then []
  else
    fold_left
      (fun volumeMappings v =>
         match Split v ":" with
         | [hostPart; containerPath] =>
             volumeMappings ++
             [{| vm_HostPath := Abs hostPart; vm_ContainerPath := containerPath |}]
         | _ => volumeMappings
         end)
      (Split volumeStr ",") [].

(** What one piece of the volume string contributes. *)
Definition volume_of (v : string) : list VolumeMapping :=
  match Split v ":" with
  | [hostPart; containerPath] =>
      [{| vm_HostPath := Abs hostPart; vm_ContainerPath := containerPath |}]
  | _ => []
  end.

End ParseVolumes.

(** A mapping as it is written on the command line. *)
Definition render_volume (m : VolumeMapping) : string :=
  vm_HostPath m +:+ ":" +:+ vm_ContainerPath m.

Definition clean_volume (m : VolumeMapping) : bool :=
  negb (has_byte ":" (vm_HostPath m)) && negb (has_byte "," (vm_HostPath m))
  && negb (has_byte ":" (vm_ContainerPath m)) && negb (has_byte "," (vm_ContainerPath m)).

(** ** image package: the name of an image *)

(** [parseImageName]: the parts before and after the first colon; an
    index out of range would panic, which is [None] here. *)
Definition parseImageName (imageName : string) : option (string * string) :=
  let parts := Split imageName ":" in
  if (length parts =? 1)%nat then
    match parts with
    | p0 :: _ => Some (p0, "")
    | [] => None
    end
  else
    match parts with
    | p0 :: p1 :: _ => Some (p0, p1)
    | _ => None
    end.

(** ** Bridge mode as a script *)

(** As [run_checked], for a function that returns a value. *)
Fixpoint run_staged {A} (E : Env) (steps : list (Event * (Error -> Error)))
    (body : M (Res A)) : M (Res A) :=
  match steps with
  | [] => body
  | (ev, wrap) :: rest =>
      e <- call E ev ;;
      match e with
      | Some errno => ret (Err (wrap (OsError errno)))
      | None => run_staged E rest body
      end
  end.

Definition bridge_steps : list (Event * (Error -> Error)) :=
  [ (EvCommand ["ip"; "link"; "add"; "name"; DefaultBridge; "type"; "bridge"],
     NetworkStepFailed "create bridge");
    (EvCommand ["ip"; "addr"; "add"; DefaultGateway +:+ "/16"; "dev"; DefaultBridge],
     NetworkStepFailed "set bridge address");
    (EvCommand ["ip"; "link"; "set"; "dev"; DefaultBridge; "up"],
     NetworkStepFailed "bring bridge up") ].

Definition veth_steps (vethName peerName : string) : list (Event * (Error -> Error)) :=
  [ (EvCommand ["ip"; "link"; "add"; vethName; "type"; "veth"; "peer"; "name"; peerName],
     NetworkStepFailed "create veth pair");
    (EvCommand ["ip"; "link"; "set"; "dev"; vethName; "up"],
     NetworkStepFailed "bring veth up") ].

Definition netns_steps (peerName : string) (pid : Z) (ipAddr : string)
    : list (Event * (Error -> Error)) :=
  let nsenter := ["nsenter"; "-t"; Itoa pid; "-n"] in
  [ (EvCommand ["ip"; "link"; "set"; peerName; "netns"; Itoa pid],
     NetworkStepFailed "move peer into namespace");
    (EvCommand (nsenter ++ ["ip"; "link"; "set"; "dev"; peerName; "name"; "eth0"]),
     NetworkStepFailed "rename peer");
    (EvCommand (nsenter ++ ["ip"; "addr"; "add"; ipAddr +:+ "/16"; "dev"; "eth0"]),
     NetworkStepFailed "assign address");
    (EvCommand (nsenter ++ ["ip"; "link"; "set"; "dev"; "eth0"; "up"]),
     NetworkStepFailed "bring peer up");
    (EvCommand (nsenter ++ ["ip"; "route"; "add"; "default"; "via"; DefaultGateway]),
     NetworkStepFailed "default route") ].

Definition attach_steps (vethName bridge : string) : list (Event * (Error -> Error)) :=
  [ (EvCommand ["ip"; "link"; "set"; "dev"; vethName; "master"; bridge],
     NetworkStepFailed "attach veth to bridge") ].

Definition forward_steps : list (Event * (Error -> Error)) :=
  [ (EvCommand ["sysctl"; "-w"; "net.ipv4.ip_forward=1"],
     NetworkStepFailed "enable forwarding") ].

(** The address-translation rule, the last request of bridge mode. *)
Definition nat_rule (bridge subnet : string) : Event :=
  EvCommand ["iptables"; "-t"; "nat"; "-A"; "POSTROUTING"; "-s"; subnet;
             "!"; "-o"; bridge; "-j"; "MASQUERADE"].

(** The bridge is there when the lookup of its interface succeeds. *)
Definition bridge_present (E : Env) (h : list Event) : bool :=
  match os_interface E h DefaultBridge with
  | None => true
  | Some _ => false
  end.

(** What [setupBridge] does before its first command. *)
Definition bridge_prelude (E : Env) (h : list Event) : list Event :=
  [ EvInterfaceByName DefaultBridge;
    EvLog (if bridge_present E h then LogBridgeExists DefaultBridge
           else LogCreateBridge DefaultBridge) ].

(** The commands of bridge mode that must all succeed, in order. *)
Definition bridge_mode_steps (E : Env) (h : list Event) (id8 : string) (pid : Z)
    : list (Event * (Error -> Error)) :=
  let vethName := "veth-" +:+ id8 in
  (if bridge_present E h then [] else rewrap (NetworkSetupError "bridge") bridge_steps)
  ++ rewrap (NetworkSetupError "veth pair") (veth_steps vethName "eth0")
  ++ rewrap (NetworkSetupError "container namespace")
            (netns_steps "eth0" pid (allocateIP E))
  ++ rewrap (NetworkSetupError "bridge attachment") (attach_steps vethName DefaultBridge)
  ++ rewrap (NetworkSetupError "NAT") forward_steps.

Definition bridge_config (E : Env) : NetworkConfig :=
  {| nc_Mode := BridgeMode; nc_IPAddress := allocateIP E;
     nc_Gateway := DefaultGateway; nc_Subnet := DefaultSubnet; nc_MacAddr := "" |}.

(** The end of bridge mode: the address-translation rule, whose
    refusal is only logged. *)
Definition nat_tail (E : Env) : M (Res NetworkConfig) :=
  r <- call E (nat_rule DefaultBridge DefaultSubnet) ;;
  match r with
  | Some errno =>
      Printf (LogNATWarning (OsError errno)) ;;; ret (Ok (bridge_config E))
  | None => ret (Ok (bridge_config E))
  end.

(** What the refusal of the address-translation rule adds to the
    trace. *)
Definition nat_warning (E : Env) (h : list Event) : list Event :=
  match os_call E h (nat_rule DefaultBridge DefaultSubnet) with
  | Some errno => [EvLog (LogNATWarning (OsError errno))]
  | None => []
  end.

Definition is_command (e : Event) : bool :=
  match e with
  | EvCommand _ => true
  | _ => false
  end.

(** ** Further example environments and worlds *)

Definition other_id : string := "7c9e6679-7425-40de-944b-e07fc1f90ae7".

Definition other_record : ContainerInfo :=
  with_Status StatusStopped
    (with_Pid 4343 (new_record other_id (sample_config "db" "none" "") 0)).

(** A registry of two: the sample container, Running, and a Stopped
    one. *)
Definition two_containers : World :=
  {| registry := <[other_id := other_record]> {[ sample_id := sample_record StatusRunning ]};
     environ := []; trace := [] |}.

(** As [calm 0], but the termination signal is refused; the kill is
    not. *)
Definition stubborn : Env :=
  {| os_pid := 700;
     os_now := fun _ => 0%Z;
     os_random := fun h => N.of_nat (length h);
     os_call := fun _ c => match c with EvSignal _ _ => Some 1%Z | _ => None end;
     os_start := fun _ _ => inr 4242%Z;
     os_wait := fun _ _ => inr 0%Z;
     os_lookpath := fun _ file => inr file;
     os_interface := fun _ _ => None |}.

(** As [calm 0], but the process waited for is not a child of the
    caller. *)
Definition not_child : Env :=
  {| os_pid := 700;
     os_now := fun _ => 0%Z;
     os_random := fun h => N.of_nat (length h);
     os_call := fun _ _ => None;
     os_start := fun _ _ => inr 4242%Z;
     os_wait := fun _ _ => inl 10%Z;
     os_lookpath := fun _ file => inr file;
     os_interface := fun _ _ => None |}.

(** The world of the init process of the sample container, as the
    orchestrator starts it. *)
Definition sample_rootfs : string := "/var/lib/godocker/" +:+ sample_id.

Definition init_world : World :=
  {| registry := ∅;
     environ := handoff_env (sample_record StatusRunning) sample_rootfs;
     trace := [] |}.

(** As [calm 0], but the device node of the root filesystem exists
    (errno 17) and the root cannot be changed. *)
Definition node_exists : Env :=
  {| os_pid := 700;
     os_now := fun _ => 0%Z;
     os_random := fun h => N.of_nat (length h);
     os_call := fun _ c =>
       match c with
       | EvMknod _ _ _ => Some 17%Z
       | EvChroot _ => Some 1%Z
       | _ => None
       end;
     os_start := fun _ _ => inr 4242%Z;
     os_wait := fun _ _ => inr 0%Z;
     os_lookpath := fun _ file => inr file;
     os_interface := fun _ _ => None |}.

(** A configuration with all three limits. *)
Definition sample_limits : ResourceConfig :=
  {| rc_MemoryLimit := "64m"; rc_CpuSet := "0-1"; rc_CpuShare := 512 |}.

(** As [calm 0], but nothing can be written into the cpuset
    controller. *)
Definition no_cpuset : Env :=
  {| os_pid := 700;
     os_now := fun _ => 0%Z;
     os_random := fun h => N.of_nat (length h);
     os_call := fun _ c =>
       match c with
       | EvWriteFile p _ _ => if under cgroupCpusetPath p then Some 13%Z else None
       | _ => None
       end;
     os_start := fun _ _ => inr 4242%Z;
     os_wait := fun _ _ => inr 0%Z;
     os_lookpath := fun _ file => inr file;
     os_interface := fun _ _ => None |}.

(** As [calm 0], but the bridge is missing and the peer cannot be moved
    into another namespace. *)
Definition no_netns : Env :=
  {| os_pid := 700;
     os_now := fun _ => 0%Z;
     os_random := fun h => N.of_nat (length h);
     os_call := fun _ c =>
       match c with
       | EvCommand ("ip" :: "link" :: "set" :: _ :: "netns" :: _) => Some 1%Z
       | _ => None
       end;
     os_start := fun _ _ => inr 4242%Z;
     os_wait := fun _ _ => inr 0%Z;
     os_lookpath := fun _ file => inr file;
     os_interface := fun _ _ => Some "route ip+net: no such network interface" |}.

(** As [calm 0], but the interfaces cannot be listed and the
    address-translation rule is refused. *)
Definition no_iptables : Env :=
  {| os_pid := 700;
     os_now := fun _ => 0%Z;
     os_random := fun h => N.of_nat (length h);
     os_call := fun _ c =>
       match c with
       | EvCommand ("iptables" :: _) => Some 2%Z
       | _ => None
       end;
     os_start := fun _ _ => inr 4242%Z;
     os_wait := fun _ _ => inr 0%Z;
     os_lookpath := fun _ file => inr file;
     os_interface := fun _ _ => Some "permission denied" |}.

(** The sample configuration with two volumes, not detached. *)
Definition with_volumes : Config :=
  {| cfg_Name := "web"; cfg_Image := "alpine"; cfg_Command := ["/bin/sh"];
     cfg_Tty := false; cfg_Detach := false; cfg_Network := "bridge";
     cfg_Volumes := [ {| vm_HostPath := "/srv/data"; vm_ContainerPath := "/data" |};
                      {| vm_HostPath := "/srv/logs"; vm_ContainerPath := "/var/log" |} ];
     cfg_Resource := {| rc_MemoryLimit := "64m"; rc_CpuSet := ""; rc_CpuShare := 0 |} |}.

(** As [calm 0], but the marker file of a root filesystem cannot be
    written. *)
Definition no_marker : Env :=
  {| os_pid := 700;
     os_now := fun _ => 0%Z;
     os_random := fun h => N.of_nat (length h);
     os_call := fun _ c => match c with EvWriteFile _ _ _ => Some 30%Z | _ => None end;
     os_start := fun _ _ => inr 4242%Z;
     os_wait := fun _ _ => inr 0%Z;
     os_lookpath := fun _ file => inr file;
     os_interface := fun _ _ => None |}.

(* ===================================================================== *)
(** * Part V: properties                                                  *)
(* ===================================================================== *)

(** ** Byte strings *)

Lemma rev_string_app (p s acc : string) :
  rev_string acc (p +:+ s) = rev_string (rev_string acc p) s.
Proof.
  revert acc. induction p as [|c p IH]; intros acc; simpl; [reflexivity|].
  apply IH.
Qed.

Lemma reverse_snoc (p : string) (c : ascii) :
  reverse (p +:+ String c "") = String c (reverse p).
Proof. unfold reverse. rewrite rev_string_app. reflexivity. Qed.

Lemma last_split (s : string) :
  s = "" \/ exists p c, s = p +:+ String c "".
Proof.
  induction s as [|a s IH]; [left; reflexivity|right].
  destruct IH as [->|(p & c & ->)].
  - exists "", a. reflexivity.
  - exists (String a p), c. reflexivity.
Qed.

Lemma HasSuffix_snoc (p : string) (c k : ascii) :
  HasSuffix (p +:+ String c "") (String k "") = true <-> k = c.
Proof.
  unfold HasSuffix. rewrite reverse_snoc.
  change (reverse (String k "")) with (String k "").
  cbn [String.prefix].
  destruct (Ascii.ascii_dec k c) as [->|Hne].
  - split; [reflexivity|]. intros _. destruct (reverse p); reflexivity.
  - split; [discriminate|congruence].
Qed.

Lemma append_empty_r (s : string) : s +:+ "" = s.
Proof.
  induction s as [|a s IH]; [reflexivity|].
  change (String a (s +:+ "") = String a s). now rewrite IH.
Qed.

Lemma length_snoc (p : string) (c : ascii) :
  String.length (p +:+ String c "") = S (String.length p).
Proof. induction p; simpl; congruence. Qed.

Lemma substring_prefix (p q : string) :
  String.substring 0 (String.length p) (p +:+ q) = p.
Proof.
  induction p as [|a p IH]; simpl.
  - destruct q; reflexivity.
  - now rewrite IH.
Qed.

Lemma TrimSuffix_snoc (p : string) (c : ascii) :
  TrimSuffix (p +:+ String c "") (String c "") = p.
Proof.
  unfold TrimSuffix.
  rewrite (proj2 (HasSuffix_snoc p c c) eq_refl), length_snoc.
  cbn [String.length]. replace (S (String.length p) - 1)%nat with (String.length p) by lia.
  apply substring_prefix.
Qed.

Lemma all_digits_app (p q : string) :
  all_digits (p +:+ q) = all_digits p && all_digits q.
Proof.
  induction p as [|a p IH]; simpl; [reflexivity|].
  now rewrite IH, andb_assoc.
Qed.

Lemma is_digit_range (c : ascii) :
  is_digit c = true <-> (48 <= byte_val c <= 57)%Z.
Proof. unfold is_digit, in_range. rewrite andb_true_iff, !Z.leb_le. tauto. Qed.

Lemma digits_no_unit (d : string) (k : ascii) :
  all_digits d = true -> is_digit k = false -> HasSuffix d (String k "") = false.
Proof.
  intros Hd Hk. destruct (last_split d) as [->|(p & c & ->)]; [reflexivity|].
  destruct (HasSuffix (p +:+ String c "") (String k "")) eqn:Hs; [|reflexivity].
  apply HasSuffix_snoc in Hs. subst k.
  rewrite all_digits_app, andb_true_iff in Hd. simpl in Hd.
  rewrite andb_true_r in Hd. destruct Hd. congruence.
Qed.

Lemma isASCII_app (p q : string) : isASCII (p +:+ q) = isASCII p && isASCII q.
Proof.
  induction p as [|a p IH]; simpl; [reflexivity|].
  now rewrite IH, andb_assoc.
Qed.

Lemma map_bytes_app (f : ascii -> ascii) (p q : string) :
  map_bytes f (p +:+ q) = map_bytes f p +:+ map_bytes f q.
Proof. induction p as [|a p IH]; simpl; [reflexivity|]. now rewrite IH. Qed.

Lemma digits_lower (d : string) :
  all_digits d = true -> isASCII d = true /\ map_bytes lower_byte d = d.
Proof.
  induction d as [|c d IH]; simpl; [auto|].
  rewrite andb_true_iff. intros [Hc Hd]. destruct (IH Hd) as [-> ->].
  apply is_digit_range in Hc.
  split.
  - rewrite andb_true_r. apply Z.ltb_lt. lia.
  - unfold lower_byte, is_upper, in_range.
    replace (65 <=? byte_val c)%Z with false; [reflexivity|].
    symmetry. apply Z.leb_gt. lia.
Qed.


(** ** The number parser *)

Lemma maxUint64_val : maxUint64 = 18446744073709551615%Z.
Proof. reflexivity. Qed.

Lemma decimal_from_ge (d : string) :
  forall n, all_digits d = true -> (0 <= n)%Z -> (n <= decimal_from n d)%Z.
Proof.
  induction d as [|c d IH]; intros n Hd Hn; simpl in *; [lia|].
  apply andb_true_iff in Hd as [Hc Hd]. apply is_digit_range in Hc.
  specialize (IH (n * 10 + (byte_val c - 48))%Z Hd). lia.
Qed.

Lemma digit_of_digit (c : ascii) :
  is_digit c = true -> digit_of c = Some (byte_val c - 48)%Z.
Proof. intros H. unfold digit_of. now rewrite H. Qed.

Lemma ParseUint_loop_digits (d : string) :
  forall n, all_digits d = true -> (0 <= n)%Z ->
    (decimal_from n d <= maxUint64)%Z ->
    ParseUint_loop d n = NumOk (decimal_from n d).
Proof.
  induction d as [|c d IH]; intros n Hd Hn Hmax; simpl in *; [reflexivity|].
  apply andb_true_iff in Hd as [Hc Hd].
  rewrite (digit_of_digit c Hc). apply is_digit_range in Hc.
  pose proof (decimal_from_ge d (n * 10 + (byte_val c - 48))%Z Hd ltac:(lia)) as Hge.
  rewrite maxUint64_val in *.
  change (2 ^ 64)%Z with 18446744073709551616%Z.
  change (18446744073709551615 / 10 + 1)%Z with 1844674407370955162%Z.
  destruct (Z.leb_spec 10 (byte_val c - 48)); [lia|].
  destruct (Z.leb_spec 1844674407370955162 n); [lia|].
  rewrite Z.mod_small by lia.
  destruct (Z.ltb_spec (n * 10 + (byte_val c - 48)) (n * 10)); [lia|].
  destruct (Z.ltb_spec 18446744073709551615 (n * 10 + (byte_val c - 48))); [lia|].
  simpl. apply IH; [assumption|lia|assumption].
Qed.

Lemma ParseInt_digits (d : string) :
  nonempty d = true -> all_digits d = true -> (decimal_value d < 2 ^ 63)%Z ->
  ParseInt d = NumOk (decimal_value d).
Proof.
  intros Hne Hd Hlt. destruct d as [|c d]; [discriminate|].
  unfold ParseInt.
  assert (Hc : is_digit c = true) by (simpl in Hd; now apply andb_true_iff in Hd).
  apply is_digit_range in Hc.
  assert (Hplus : Ascii.eqb c "+" = false).
  { apply Ascii.eqb_neq. intros ->. vm_compute in Hc. destruct Hc as [Hc _]. now apply Hc. }
  assert (Hminus : Ascii.eqb c "-" = false).
  { apply Ascii.eqb_neq. intros ->. vm_compute in Hc. destruct Hc as [Hc _]. now apply Hc. }
  rewrite Hplus, Hminus. cbn [orb negb andb].
  unfold ParseUint. rewrite ParseUint_loop_digits; try assumption; try lia.
  - fold (decimal_value (String c d)).
    destruct (Z.leb_spec (2 ^ 63) (decimal_value (String c d))); [lia|reflexivity].
  - fold (decimal_value (String c d)). rewrite maxUint64_val.
    change (2 ^ 63)%Z with 9223372036854775808%Z in Hlt. lia.
Qed.





(** ** The memory-limit parser *)

Lemma parseMemoryLimit_numeric (ul : string -> string) (s : string) :
  parseMemoryLimit ul s =
  match ParseInt (numeric_part ul s) with
  | NumOk value =>
      let t := ToLower ul s in
      Ok (wrap64 (value *
                  (if HasSuffix t "k" then 1024
                   else if HasSuffix t "m" then 1024 * 1024
                   else if HasSuffix t "g" then 1024 * 1024 * 1024
                   else 1)))
  | _ => Err (InvalidMemorySpec (numeric_part ul s))
  end.
Proof.
  unfold parseMemoryLimit, numeric_part, TrimSuffix.
  destruct (HasSuffix (ToLower ul s) "k"); [reflexivity|].
  destruct (HasSuffix (ToLower ul s) "m"); [reflexivity|].
  destruct (HasSuffix (ToLower ul s) "g"); reflexivity.
Qed.




(** ** network/network.go *)

Lemma lastOctet_range (E : Env) : (2 <= lastOctet E <= 253)%Z.
Proof.
  unfold lastOctet.
  pose proof (Z.rem_bound_abs (os_pid E) 254 ltac:(discriminate)) as Hb.
  destruct (Z.ltb_spec (Z.rem (os_pid E) 254) 2); lia.
Qed.

Lemma dotted_quad_prefix (o : Z) :
  (2 <= o <= 253)%Z -> dotted_quad (DefaultIPPrefix +:+ Itoa o) = Some (172, 17, 0, o)%Z.
Proof.
  intros Ho.
  assert (Hall : forallb (fun n : nat =>
             bool_decide (dotted_quad (DefaultIPPrefix +:+ Itoa (Z.of_nat n))
                          = Some (172, 17, 0, Z.of_nat n)%Z))
           (seq 2 252) = true) by (vm_compute; reflexivity).
  rewrite forallb_forall in Hall.
  assert (Hin : In (Z.to_nat o) (seq 2 252)) by (apply in_seq; lia).
  specialize (Hall _ Hin). rewrite Z2Nat.id in Hall by lia.
  now apply bool_decide_eq_true in Hall.
Qed.

(** C9.  The address the bridge-mode allocator produces is
    172.17.0.<o>, inside the block 172.17.0.0/16, where the last octet
    <o> (the process id modulo 254, or 100 when that is below 2) lies
    between 2 and 253: 0 and 1 are never allocated. *)
Theorem C9_allocateIP_range (E : Env) :
  exists o : Z,
    (2 <= o <= 253)%Z /\
    o = lastOctet E /\
    (o = Z.rem (os_pid E) 254 \/ o = 100%Z) /\
    allocateIP E = "172.17.0." +:+ Itoa o /\
    dotted_quad (allocateIP E) = Some (172, 17, 0, o)%Z /\
    in_block (172, 17, 0, o)%Z (172, 17, 0, 0)%Z 16 = true.
Proof.
  exists (lastOctet E). pose proof (lastOctet_range E) as Hr.
  split; [exact Hr|]. split; [reflexivity|]. split.
  { unfold lastOctet. destruct (Z.rem (os_pid E) 254 <? 2)%Z; auto. }
  split; [reflexivity|]. split.
  - unfold allocateIP. now apply dotted_quad_prefix.
  - unfold in_block, ipv4_value. apply Z.eqb_eq.
    change (32 - 16)%Z with 16%Z.
    rewrite !Z.shiftr_lor.
    rewrite (Z.shiftr_div_pow2 (lastOctet E)) by lia.
    rewrite (Z.div_small (lastOctet E)) by (change (2 ^ 16)%Z with 65536%Z; lia).
    reflexivity.
Qed.

Lemma eqb_ne (a b : string) : a <> b -> (a =? b) = false.
Proof. apply String.eqb_neq. Qed.

(** C10.  For every network mode other than "bridge", "host" and
    "none", SetupNetwork returns the unsupported-mode error and no
    attachment record, and does nothing at all: the world, with its
    trace of requests, is as before. *)
Theorem C10_unsupported_mode (E : Env) (netMode containerID : string) (pid : Z)
    (w : World) :
  netMode <> "bridge" -> netMode <> "host" -> netMode <> "none" ->
  SetupNetwork E netMode containerID pid w
  = (Done (Err (UnsupportedNetworkMode netMode)), w).
Proof.
  intros Hb Hh Hn. unfold SetupNetwork, BridgeMode, HostMode, NoneMode.
  rewrite (eqb_ne _ _ Hb), (eqb_ne _ _ Hh), (eqb_ne _ _ Hn). reflexivity.
Qed.

Lemma C10_unsupported_mode_witness :
  SetupNetwork (calm 0) "overlay" sample_id 4242 (one_container StatusRunning)
  = (Done (Err (UnsupportedNetworkMode "overlay")), one_container StatusRunning).
Proof. apply C10_unsupported_mode; discriminate. Defined.

(** ** Computations that only talk to the operating system *)

Lemma extend_nil (w : World) : extend [] w = w.
Proof. destruct w. unfold extend. simpl. now rewrite app_nil_r. Qed.

Lemma extend_extend (evs1 evs2 : list Event) (w : World) :
  extend evs2 (extend evs1 w) = extend (evs1 ++ evs2) w.
Proof. unfold extend. simpl. now rewrite app_assoc. Qed.

Lemma io_ret {A} (a : A) : io_only (ret a).
Proof. intros w. exists a, []. now rewrite extend_nil. Qed.

Lemma io_bind {A B} (m : M A) (k : A -> M B) :
  io_only m -> (forall a, io_only (k a)) -> io_only (bind m k).
Proof.
  intros Hm Hk w. destruct (Hm w) as (a & evs1 & Ha).
  destruct (Hk a (extend evs1 w)) as (b & evs2 & Hb).
  exists b, (evs1 ++ evs2). unfold bind. now rewrite Ha, Hb, extend_extend.
Qed.

Lemma io_Printf (m : LogMsg) : io_only (Printf m).
Proof. intros w. now exists tt, [EvLog m]. Qed.

Lemma io_slice (n : nat) (s : string) : (n <= String.length s)%nat -> io_only (slice n s).
Proof.
  intros H. unfold slice, slice_to.
  destruct (Nat.leb_spec n (String.length s)); [apply io_ret|lia].
Qed.

Lemma io_check (r : M (option Errno)) (wrap : Error -> Error) (body : M (option Error)) :
  io_only r -> io_only body -> io_only (check r wrap body).
Proof.
  intros Hr Hb. unfold check. apply io_bind; [exact Hr|].
  intros [errno|]; [apply io_ret|exact Hb].
Qed.

Lemma io_when_ok (cond : bool) (step : M (option Error)) (wrap : Error -> Error)
    (body : M (option Error)) :
  io_only step -> io_only body -> io_only (when_ok cond step wrap body).
Proof.
  intros Hs Hb. unfold when_ok. destruct cond; [|exact Hb].
  apply io_bind; [exact Hs|]. intros [err|]; [apply io_ret|exact Hb].
Qed.

Lemma io_stage {A} (step : M (option Error)) (wrap : Error -> Error) (body : M (Res A)) :
  io_only step -> io_only body -> io_only (stage step wrap body).
Proof.
  intros Hs Hb. unfold stage. apply io_bind; [exact Hs|].
  intros [err|]; [apply io_ret|exact Hb].
Qed.

Lemma io_then {A B} (m : M A) (k : A -> M B) (b : B) :
  io_only m ->
  (forall a w, exists evs, k a w = (Done b, extend evs w)) ->
  forall w, exists evs, bind m k w = (Done b, extend evs w).
Proof.
  intros Hm Hk w. destruct (Hm w) as (a & evs1 & Ha).
  destruct (Hk a (extend evs1 w)) as (evs2 & Hb).
  exists (evs1 ++ evs2). unfold bind. now rewrite Ha, Hb, extend_extend.
Qed.

Section Effects.

Variable ul : string -> string.
Variable E : Env.

Lemma io_call (c : Event) : io_only (call E c).
Proof. intros w. now exists (os_call E (trace w) c), [c]. Qed.

Lemma io_Output (argv : list string) : io_only (Output E argv).
Proof. apply io_call. Qed.

Ltac io_step :=
  lazymatch goal with
  | |- io_only (ret _) => apply io_ret
  | |- io_only (Printf _) => apply io_Printf
  | |- io_only (call _ _) => apply io_call
  | |- io_only (Output _ _) => apply io_Output
  | |- io_only (check _ _ _) => apply io_check
  | |- io_only (when_ok _ _ _ _) => apply io_when_ok
  | |- io_only (stage _ _ _) => apply io_stage
  | |- io_only (bind _ _) => apply io_bind; [|intros ?]
  | |- io_only (match ?x with _ => _ end) => destruct x
  end.

Ltac io := repeat io_step.

Lemma io_setupMemoryLimit (cgroupName : string) (pid : Z) (memoryLimit : string) :
  io_only (setupMemoryLimit ul E cgroupName pid memoryLimit).
Proof. unfold setupMemoryLimit. io. Qed.

Lemma io_setupCpuSet (cgroupName : string) (pid : Z) (cpuSet : string) :
  io_only (setupCpuSet E cgroupName pid cpuSet).
Proof. unfold setupCpuSet. io. Qed.

Lemma io_setupCpuShare (cgroupName : string) (pid cpuShare : Z) :
  io_only (setupCpuShare E cgroupName pid cpuShare).
Proof. unfold setupCpuShare. io. Qed.

Lemma io_ApplyResourceLimits (pid : Z) (config : ResourceConfig) :
  io_only (ApplyResourceLimits ul E pid config).
Proof.
  unfold ApplyResourceLimits. io;
    auto using io_setupMemoryLimit, io_setupCpuSet, io_setupCpuShare.
Qed.

Lemma io_deviceExists (name : string) : io_only (deviceExists E name).
Proof.
  intros w. unfold deviceExists.
  destruct (os_interface E (trace w) name) as [text|].
  - destruct (Contains text "no such network interface"); eexists _, [_]; reflexivity.
  - eexists _, [_]; reflexivity.
Qed.

Lemma io_setupBridge : io_only (setupBridge E).
Proof. unfold setupBridge. io. apply io_deviceExists. Qed.

Lemma io_createVethPair (vethName peerName : string) :
  io_only (createVethPair E vethName peerName).
Proof. unfold createVethPair. io. Qed.

Lemma io_setupContainerNetns (vethName peerName : string) (pid : Z) (ipAddr : string) :
  io_only (setupContainerNetns E vethName peerName pid ipAddr).
Proof. unfold setupContainerNetns. io. Qed.

Lemma io_connectVethToBridge (vethName bridge : string) :
  io_only (connectVethToBridge E vethName bridge).
Proof. unfold connectVethToBridge. io. Qed.

Lemma io_setupNAT (bridge subnet : string) : io_only (setupNAT E bridge subnet).
Proof. unfold setupNAT. io. Qed.

(** Attaching the network never panics for an identifier of at least
    eight bytes, and never touches the registry. *)
Lemma io_SetupNetwork (netMode containerID : string) (pid : Z) :
  (8 <= String.length containerID)%nat ->
  io_only (SetupNetwork E netMode containerID pid).
Proof.
  intros Hlen. unfold SetupNetwork. io;
    auto using io_setupBridge, io_slice, io_createVethPair,
      io_setupContainerNetns, io_connectVethToBridge, io_setupNAT.
Qed.

Lemma io_prepareRootfs (containerId imageName : string) :
  io_only (prepareRootfs E containerId imageName).
Proof. unfold prepareRootfs. io. Qed.

Lemma io_startContainer (container : ContainerInfo) (rootfs : string) :
  io_only (startContainer E container rootfs).
Proof.
  unfold startContainer. io.
  intros w. unfold cmd_Start. eexists _, [_]. reflexivity.
Qed.

Lemma uuid_String_length (r : N) : String.length (uuid_String r) = 36%nat.
Proof. reflexivity. Qed.

Lemma slice_uuid (r : N) :
  slice 12 (uuid_String r) = ret (String.substring 0 12 (uuid_String r)).
Proof. reflexivity. Qed.

Lemma post_spawn_spec (config : Config) (containerId : string) (pid : Z) (w : World) :
  (8 <= String.length containerId)%nat ->
  exists evs, post_spawn ul E config containerId pid w = (Done (Ok containerId), extend evs w).
Proof.
  intros Hlen. unfold post_spawn. revert w.
  apply io_then; [apply io_ApplyResourceLimits|]. intros e.
  apply io_then; [destruct e; io|]. intros _.
  apply io_then; [io; now apply io_SetupNetwork|]. intros _ w.
  exists []. now rewrite extend_nil.
Qed.

End Effects.

(** ** container/container.go: creation *)

Lemma bind_eq {A B} (m : M A) (k : A -> M B) (w : World) :
  bind m k w = match m w with
               | (Done a, w') => k a w'
               | (Panic, w') => (Panic, w')
               end.
Proof. reflexivity. Qed.

Lemma ret_eq {A} (a : A) (w : World) : ret a w = (Done a, w).
Proof. reflexivity. Qed.

Lemma name_in_use_spec (reg : gmap string ContainerInfo) (name : string) :
  name_in_use reg name = true <-> name_held reg name.
Proof.
  unfold name_in_use, name_held. rewrite existsb_exists. split.
  - intros ([id c] & Hin & Heq). exists id, c.
    apply list_elem_of_In, elem_of_map_to_list in Hin.
    apply String.eqb_eq in Heq. auto.
  - intros (id & c & Hl & Hn). exists (id, c). split.
    + now apply list_elem_of_In, elem_of_map_to_list.
    + now apply String.eqb_eq.
Qed.

Lemma name_check_spec (reg : gmap string ContainerInfo) (config : Config) :
  negb (cfg_Name config =? "") && name_in_use reg (cfg_Name config) = true
  <-> name_collides reg config.
Proof.
  unfold name_collides. rewrite andb_true_iff, negb_true_iff, name_in_use_spec.
  now rewrite String.eqb_neq.
Qed.

Section Create.

Variable ul : string -> string.
Variable E : Env.

Lemma NewContainer_eq (config : Config) (w : World) :
  NewContainer ul E config w =
  let id := new_id E w in
  let w1 := record EvRandom w in
  if negb (cfg_Name config =? "") && name_in_use (registry w) (cfg_Name config)
  then (Done (Err (DuplicateName (cfg_Name config))), w1)
  else
    let cfg' := effective_config id config in
    match prepareRootfs E id (cfg_Image cfg') w1 with
    | (Done (Err e), w2) => (Done (Err (RootfsPreparationError e)), w2)
    | (Done (Ok root), w2) =>
        let rec := new_record id cfg' (os_now E (trace w2)) in
        match startContainer E rec root w2 with
        | (Done (Err e), w3) => (Done (Err (ProcessStartError e)), w3)
        | (Done (Ok pid), w3) =>
            post_spawn ul E cfg' id pid
              (with_registry (<[id := with_Pid pid rec]> (registry w3)) w3)
        | (Panic, w3) => (Panic, w3)
        end
    | (Panic, w2) => (Panic, w2)
    end.
Proof.
  unfold NewContainer. rewrite bind_eq. cbn [generateContainerId].
  fold (new_id E w). rewrite bind_eq. cbn [get_registry record registry].
  cbv zeta.
  destruct (negb (cfg_Name config =? "") && name_in_use (registry w) (cfg_Name config));
    [reflexivity|].
  rewrite bind_eq.
  assert (Hcfg : (if negb (cfg_Name config =? "") then ret config
                  else id12 <- slice 12 (new_id E w) ;; ret (with_Name id12 config))
                   (record EvRandom w)
                 = (Done (effective_config (new_id E w) config), record EvRandom w)).
  { unfold effective_config. destruct (cfg_Name config =? ""); [|reflexivity].
    cbn [negb]. unfold new_id. now rewrite slice_uuid. }
  rewrite Hcfg. clear Hcfg. rewrite bind_eq.
  destruct (prepareRootfs E (new_id E w) (cfg_Image (effective_config (new_id E w) config))
              (record EvRandom w)) as [[[root|e]|] w2]; try reflexivity.
  rewrite bind_eq. cbn [time_Now]. rewrite bind_eq.
  fold (new_record (new_id E w) (effective_config (new_id E w) config) (os_now E (trace w2))).
  destruct (startContainer E
              (new_record (new_id E w) (effective_config (new_id E w) config)
                          (os_now E (trace w2))) root w2) as [[[pid|e]|] w3];
    reflexivity.
Qed.

(** Preparing the root filesystem and starting the process leave the
    registry alone and do not panic. *)
Lemma prepareRootfs_registry (id image : string) (w w2 : World) (r : Outcome (Res string)) :
  prepareRootfs E id image w = (r, w2) ->
  (exists a, r = Done a) /\ registry w2 = registry w /\
  exists evs, trace w2 = trace w ++ evs.
Proof.
  intros H. destruct (io_prepareRootfs E id image w) as (a & evs & Ha).
  rewrite Ha in H. injection H as <- <-. eauto.
Qed.

Lemma startContainer_registry (c : ContainerInfo) (root : string) (w w2 : World)
    (r : Outcome (Res Z)) :
  startContainer E c root w = (r, w2) ->
  (exists a, r = Done a) /\ registry w2 = registry w /\
  exists evs, trace w2 = trace w ++ evs.
Proof.
  intros H. destruct (io_startContainer E c root w) as (a & evs & Ha).
  rewrite Ha in H. injection H as <- <-. eauto.
Qed.

Lemma new_id_length (w : World) : String.length (new_id E w) = 36%nat.
Proof. apply uuid_String_length. Qed.

(** The ways [NewContainer] can end. *)
Lemma NewContainer_cases (config : Config) (w : World) :
  let id := new_id E w in
  let cfg' := effective_config id config in
  exists r w',
    NewContainer ul E config w = (Done r, w') /\
    (exists evs, trace w' = trace w ++ evs) /\
    ((name_collides (registry w) config /\
      r = Err (DuplicateName (cfg_Name config)) /\ registry w' = registry w) \/
     (~ name_collides (registry w) config /\ registry w' = registry w /\
      exists e w2, prepareRootfs E id (cfg_Image cfg') (record EvRandom w) = (Done (Err e), w2) /\
                   r = Err (RootfsPreparationError e) /\ w' = w2) \/
     (~ name_collides (registry w) config /\ registry w' = registry w /\
      exists root w2 e,
        prepareRootfs E id (cfg_Image cfg') (record EvRandom w) = (Done (Ok root), w2) /\
        startContainer E (new_record id cfg' (os_now E (trace w2))) root w2 = (Done (Err e), w') /\
        r = Err (ProcessStartError e)) \/
     (~ name_collides (registry w) config /\
      exists root w2 pid w3,
        prepareRootfs E id (cfg_Image cfg') (record EvRandom w) = (Done (Ok root), w2) /\
        startContainer E (new_record id cfg' (os_now E (trace w2))) root w2 = (Done (Ok pid), w3) /\
        r = Ok id /\
        (exists evs, trace w' = trace w3 ++ evs) /\
        registry w' = <[id := with_Pid pid (new_record id cfg' (os_now E (trace w2)))]> (registry w))).
Proof.
  intros id cfg'. rewrite NewContainer_eq. cbv zeta. fold id. fold cfg'.
  destruct (negb (cfg_Name config =? "") && name_in_use (registry w) (cfg_Name config)) eqn:Hdup.
  { apply name_check_spec in Hdup. eexists _, _. split; [reflexivity|].
    split; [now exists [EvRandom]|]. left. auto. }
  assert (Hfree : ~ name_collides (registry w) config).
  { rewrite <- name_check_spec. congruence. }
  destruct (prepareRootfs E id (cfg_Image cfg') (record EvRandom w)) as [r2 w2] eqn:Hprep.
  destruct (prepareRootfs_registry _ _ _ _ _ Hprep) as ([a ->] & Hreg2 & evs2 & Htr2).
  cbn [record registry trace] in Hreg2, Htr2.
  destruct a as [root|e].
  2:{ eexists _, _. split; [reflexivity|]. split.
      { exists (EvRandom :: evs2). rewrite Htr2. now rewrite <- app_assoc. }
      right; left. split; [assumption|]. split; [assumption|]. eauto. }
  destruct (startContainer E (new_record id cfg' (os_now E (trace w2))) root w2)
    as [r3 w3] eqn:Hstart.
  destruct (startContainer_registry _ _ _ _ _ Hstart) as ([a ->] & Hreg3 & evs3 & Htr3).
  destruct a as [pid|e].
  2:{ eexists _, _. split; [reflexivity|]. split.
      { exists (EvRandom :: evs2 ++ evs3). rewrite Htr3, Htr2.
        now rewrite <- !app_assoc. }
      right; right; left. split; [assumption|]. split; [congruence|].
      exists root, w2, e. auto. }
  destruct (post_spawn_spec ul E cfg' id pid
              (with_registry (<[id := with_Pid pid (new_record id cfg' (os_now E (trace w2)))]>
                                (registry w3)) w3)) as (evs & ->).
  { unfold id. rewrite new_id_length. lia. }
  eexists _, _. split; [reflexivity|]. split.
  { exists (EvRandom :: evs2 ++ evs3 ++ evs). cbn [extend with_registry trace].
    rewrite Htr3, Htr2. now rewrite <- !app_assoc. }
  right; right; right. split; [assumption|].
  exists root, w2, pid, w3. split; [reflexivity|]. split; [assumption|].
  split; [reflexivity|]. split; [now exists evs|]. cbn. congruence.
Qed.

(** C2.  When Create ends because the root filesystem could not be
    prepared (RootfsPreparationError) or because the isolated process
    could not be started (ProcessStartError), it returns that error and
    the registry is exactly as it was: no record has been inserted.
    Both failures do end Create in this way whenever the requested name
    is free. *)
Theorem C2_failed_create_leaves_registry (config : Config) (w : World) :
  let id := new_id E w in
  let cfg' := effective_config id config in
  (forall r w' e,
      NewContainer ul E config w = (r, w') ->
      r = Done (Err (RootfsPreparationError e)) \/ r = Done (Err (ProcessStartError e)) ->
      registry w' = registry w) /\
  (forall e w2,
      ~ name_collides (registry w) config ->
      prepareRootfs E id (cfg_Image cfg') (record EvRandom w) = (Done (Err e), w2) ->
      NewContainer ul E config w = (Done (Err (RootfsPreparationError e)), w2) /\
      registry w2 = registry w) /\
  (forall root w2 e w3,
      ~ name_collides (registry w) config ->
      prepareRootfs E id (cfg_Image cfg') (record EvRandom w) = (Done (Ok root), w2) ->
      startContainer E (new_record id cfg' (os_now E (trace w2))) root w2 = (Done (Err e), w3) ->
      NewContainer ul E config w = (Done (Err (ProcessStartError e)), w3) /\
      registry w3 = registry w).
Proof.
  intros id cfg'.
  destruct (NewContainer_cases config w) as (r0 & w0 & Hrun & _ & Hcases).
  fold id in Hcases. fold cfg' in Hcases.
  split; [|split].
  - intros r w' e Hnew Hr. rewrite Hrun in Hnew. injection Hnew as <- <-.
    destruct Hcases as [(_ & _ & Hreg)|[(_ & Hreg & _)|[(_ & Hreg & _)|(_ & Hok)]]];
      try assumption.
    destruct Hok as (root & w2 & pid & w3 & _ & _ & -> & _).
    destruct Hr as [Hr|Hr]; discriminate Hr.
  - intros e w2 Hfree Hprep. rewrite Hrun.
    destruct Hcases as [(Hdup & _)|[(_ & Hreg & e' & w2' & Hp & -> & ->)|
                        [(_ & _ & root & w2' & e' & Hp & _)|
                         (_ & root & w2' & pid & w3 & Hp & _)]]];
      try contradiction; rewrite Hprep in Hp; try discriminate Hp.
    injection Hp as <- <-. auto.
  - intros root w2 e w3 Hfree Hprep Hstart. rewrite Hrun.
    destruct Hcases as [(Hdup & _)|[(_ & _ & e' & w2' & Hp & _)|
                        [(_ & Hreg & root' & w2' & e' & Hp & Hs & ->)|
                         (_ & root' & w2' & pid & w3' & Hp & Hs & _)]]];
      try contradiction; rewrite Hprep in Hp; try discriminate Hp;
      injection Hp as <- <-; rewrite Hstart in Hs; try discriminate Hs.
    injection Hs as <- <-. auto.
Qed.

(** C6.  Once the isolated process has been started, Create returns the
    new identifier and the registry holds, under it, the record with
    status Running and the process id of the started process.  This is
    so for every environment, hence also when applying the resource
    limits or attaching the network fails afterwards: such a failure
    only adds a line to the console. *)
Theorem C6_spawned_container_is_registered (config : Config) (w : World)
    (root : string) (w2 : World) (pid : Z) (w3 : World) :
  let id := new_id E w in
  let cfg' := effective_config id config in
  let rec := new_record id cfg' (os_now E (trace w2)) in
  ~ name_collides (registry w) config ->
  prepareRootfs E id (cfg_Image cfg') (record EvRandom w) = (Done (Ok root), w2) ->
  startContainer E rec root w2 = (Done (Ok pid), w3) ->
  exists w',
    NewContainer ul E config w = (Done (Ok id), w') /\
    registry w' = <[id := with_Pid pid rec]> (registry w) /\
    (exists c, registry w' !! id = Some c /\
               ci_Status c = StatusRunning /\ ci_Pid c = pid) /\
    (exists evs, trace w' = trace w3 ++ evs).
Proof.
  intros id cfg' rec Hfree Hprep Hstart.
  destruct (NewContainer_cases config w) as (r0 & w0 & Hrun & _ & Hcases).
  fold id in Hcases. fold cfg' in Hcases. exists w0.
  destruct Hcases as [(Hdup & _)|[(_ & _ & e' & w2' & Hp & _)|
                      [(_ & _ & root' & w2' & e' & Hp & Hs & _)|
                       (_ & root' & w2' & pid' & w3' & Hp & Hs & -> & Htr & Hreg)]]];
    try contradiction; rewrite Hprep in Hp; try discriminate Hp;
    injection Hp as <- <-; fold rec in Hs; rewrite Hstart in Hs; try discriminate Hs.
  injection Hs as <- <-. fold rec in Hreg.
  split; [assumption|]. split; [assumption|]. split; [|assumption].
  exists (with_Pid pid rec). rewrite Hreg, lookup_insert_eq. auto.
Qed.

End Create.

(** ** container/container.go: stop, remove, wait *)

Section Lifecycle.

Variable E : Env.

Lemma call_eq (c : Event) (w : World) :
  call E c w = (Done (os_call E (trace w) c), record c w).
Proof. reflexivity. Qed.

(** Two worlds built from the same one by recording requests. *)
Ltac world :=
  unfold record, extend, with_registry; cbn [registry environ trace];
  rewrite <- ?app_assoc; cbn [app]; reflexivity.

(** What [StopContainer] does, case by case. *)
Lemma StopContainer_absent (id : string) (w : World) :
  registry w !! id = None ->
  StopContainer E id w = (Done (Some (NotFound id)), w).
Proof. intros H. unfold StopContainer. rewrite bind_eq. cbn [get_registry]. now rewrite H. Qed.

Lemma StopContainer_stopped (id : string) (c : ContainerInfo) (w : World) :
  registry w !! id = Some c -> ci_Status c = StatusStopped ->
  StopContainer E id w = (Done None, w).
Proof.
  intros H Hs. unfold StopContainer. rewrite bind_eq. cbn [get_registry].
  now rewrite H, Hs.
Qed.

Lemma StopContainer_running (id : string) (c : ContainerInfo) (w : World) :
  registry w !! id = Some c -> ci_Status c = StatusRunning ->
  exists evs,
    (exists err, StopContainer E id w = (Done (Some err), extend evs w)) \/
    StopContainer E id w
    = (Done None,
       with_registry (<[id := with_Status StatusStopped c]> (registry w)) (extend evs w)).
Proof.
  intros H Hs. unfold StopContainer, check. rewrite bind_eq. cbn [get_registry].
  rewrite H, Hs. cbn [Status_eqb]. rewrite bind_eq, call_eq.
  destruct (os_call E (trace w) (EvFindProcess (ci_Pid c))) as [e1|].
  { exists [EvFindProcess (ci_Pid c)]. left. eexists. reflexivity. }
  rewrite bind_eq, call_eq.
  destruct (os_call E (trace (record (EvFindProcess (ci_Pid c)) w))
              (EvSignal (ci_Pid c) SIGTERM)) as [e2|].
  - exists [EvFindProcess (ci_Pid c); EvSignal (ci_Pid c) SIGTERM;
            EvLog (LogSigtermFailed (OsError e2)); EvKill (ci_Pid c)].
    rewrite !bind_eq. cbn [Printf]. rewrite call_eq.
    match goal with |- context [os_call E ?h (EvKill ?p)] =>
      destruct (os_call E h (EvKill p)) as [e3|] end.
    + left. eexists. unfold ret. world.
    + right. unfold bind, set_Status, ret. world.
  - exists [EvFindProcess (ci_Pid c); EvSignal (ci_Pid c) SIGTERM].
    right. unfold bind, set_Status, ret. world.
Qed.

(** C7.  Stop on a record whose status is Stopped returns success and
    changes nothing: the registry, and the trace of requests to the
    operating system (so no signal is sent), are as before.  Hence,
    after a Stop that succeeded, a second Stop is a no-op. *)
Theorem C7_stop_stopped_is_noop (id : string) (w : World) :
  (forall c, registry w !! id = Some c -> ci_Status c = StatusStopped ->
             StopContainer E id w = (Done None, w)) /\
  (forall w', StopContainer E id w = (Done None, w') ->
              StopContainer E id w' = (Done None, w')).
Proof.
  split; [intros c; apply StopContainer_stopped|].
  intros w' Hstop.
  destruct (registry w !! id) as [c|] eqn:Hl.
  2:{ rewrite StopContainer_absent in Hstop by assumption. discriminate. }
  destruct (ci_Status c) eqn:Hs.
  - destruct (StopContainer_running id c w Hl Hs) as (evs & [[err Hr]|Hr]);
      rewrite Hr in Hstop; [discriminate|].
    injection Hstop as <-.
    apply (StopContainer_stopped id (with_Status StatusStopped c)); [|reflexivity].
    cbn [with_registry registry]. apply lookup_insert_eq.
  - rewrite (StopContainer_stopped id c w Hl Hs) in Hstop. injection Hstop as <-.
    now apply (StopContainer_stopped id c).
Qed.

Lemma RemoveContainer_absent (id : string) (w : World) :
  registry w !! id = None ->
  RemoveContainer E id w = (Done (Some (NotFound id)), w).
Proof. intros H. unfold RemoveContainer. rewrite bind_eq. cbn [get_registry]. now rewrite H. Qed.

(** Removal after the stop phase: clean up, then delete. *)
Lemma RemoveContainer_present (id : string) (c : ContainerInfo) (w : World) :
  registry w !! id = Some c ->
  RemoveContainer E id w =
  match (if Status_eqb (ci_Status c) StatusRunning then StopContainer E id else ret None) w with
  | (Done (Some err), w1) => (Done (Some (StopFailed err)), w1)
  | (Done None, w1) =>
      let clean := EvRemoveAll (filepath_Join DefaultContainerRoot id) in
      (Done None,
       with_registry (delete id (registry w1))
         (extend (clean :: match os_call E (trace w1) clean with
                           | Some errno => [EvLog (LogCleanupWarning (OsError errno))]
                           | None => []
                           end) w1))
  | (Panic, w1) => (Panic, w1)
  end.
Proof.
  intros H. unfold RemoveContainer. rewrite bind_eq. cbn [get_registry]. rewrite H.
  rewrite bind_eq.
  destruct ((if Status_eqb (ci_Status c) StatusRunning then StopContainer E id else ret None) w)
    as [[[err|]|] w1]; try reflexivity.
  rewrite bind_eq, call_eq. cbv zeta.
  destruct (os_call E (trace w1) (EvRemoveAll (filepath_Join DefaultContainerRoot id)))
    as [errno|]; unfold bind, Printf, ret, get_registry, put_registry; world.
Qed.

(** C5.  Remove on an absent id fails with NotFound (it does not
    panic) and changes nothing.  Remove on a Running record first runs
    the whole of Stop: when Stop fails, Remove returns that failure and
    the record stays in the registry; when Stop succeeds, the record
    reads Stopped before it is deleted.  Whenever Remove deletes a
    record, the registry it deletes it from holds the record with
    status Stopped. *)
Theorem C5_remove_stops_first (id : string) (w : World) :
  (registry w !! id = None ->
   RemoveContainer E id w = (Done (Some (NotFound id)), w)) /\
  (forall c, registry w !! id = Some c -> ci_Status c = StatusRunning ->
     match StopContainer E id w with
     | (Done (Some err), w1) =>
         RemoveContainer E id w = (Done (Some (StopFailed err)), w1) /\
         registry w1 !! id = Some c
     | (Done None, w1) =>
         ci_Status <$> (registry w1 !! id) = Some StatusStopped /\
         exists w2, RemoveContainer E id w = (Done None, w2) /\
                    registry w2 = delete id (registry w1) /\
                    exists evs, trace w2 = trace w1 ++ evs
     | (Panic, _) => False
     end) /\
  (forall c r w',
     registry w !! id = Some c -> RemoveContainer E id w = (r, w') ->
     registry w' !! id = None ->
     let w1 := snd ((if Status_eqb (ci_Status c) StatusRunning
                     then StopContainer E id else ret None) w) in
     r = Done None /\
     ci_Status <$> (registry w1 !! id) = Some StatusStopped /\
     registry w' = delete id (registry w1)).
Proof.
  split; [apply RemoveContainer_absent|]. split.
  - intros c Hl Hs. rewrite (RemoveContainer_present id c w Hl), Hs. cbn [Status_eqb].
    destruct (StopContainer_running id c w Hl Hs) as (evs & [[err Hr]|Hr]); rewrite Hr.
    + split; [reflexivity|]. exact Hl.
    + cbn [with_registry extend registry]. rewrite lookup_insert_eq.
      split; [reflexivity|]. eexists. split; [reflexivity|].
      split; [reflexivity|]. cbn [with_registry extend trace]. eauto.
  - intros c r w' Hl Hrm Hgone. rewrite (RemoveContainer_present id c w Hl) in Hrm.
    destruct (ci_Status c) eqn:Hs; cbn [Status_eqb] in *.
    + destruct (StopContainer_running id c w Hl Hs) as (evs & [[err Hr]|Hr]);
        rewrite Hr in *; injection Hrm as <- <-.
      * cbn [extend registry] in Hgone. congruence.
      * cbn [snd with_registry extend registry]. rewrite lookup_insert_eq. auto.
    + rewrite ret_eq in *. injection Hrm as <- <-.
      cbn [snd with_registry extend registry]. rewrite Hl. cbn. rewrite Hs. auto.
Qed.

(** A Remove that succeeds deletes exactly the record of [id]. *)
Lemma RemoveContainer_ok (id : string) (w w' : World) :
  RemoveContainer E id w = (Done None, w') ->
  registry w' = delete id (registry w).
Proof.
  intros Hrm. destruct (registry w !! id) as [c|] eqn:Hl.
  2:{ rewrite RemoveContainer_absent in Hrm by assumption. discriminate. }
  rewrite (RemoveContainer_present id c w Hl) in Hrm.
  destruct (ci_Status c) eqn:Hs; cbn [Status_eqb] in *.
  - destruct (StopContainer_running id c w Hl Hs) as (evs & [[err Hr]|Hr]);
      rewrite Hr in *; [discriminate|].
    injection Hrm as <-. cbn [with_registry extend registry].
    apply delete_insert_eq.
  - rewrite ret_eq in Hrm. now injection Hrm as <-.
Qed.

(** C1, as the code has it.  For a Running record (under an id of at
    least twelve bytes, as every generated id is) whose process can be
    looked up and waited for, Wait asks the operating system to wait
    for the process, then sets the status to Stopped, writes the exit
    code to the console next to the first twelve bytes of the id, and
    returns success: the exit code is on the console, not in the value
    returned. *)
Theorem C1_wait_reports_exit_code (id : string) (c : ContainerInfo) (w : World)
    (code : Z) :
  registry w !! id = Some c ->
  ci_Status c = StatusRunning ->
  (12 <= String.length id)%nat ->
  os_call E (trace w) (EvFindProcess (ci_Pid c)) = None ->
  os_wait E (trace w ++ [EvFindProcess (ci_Pid c)]) (ci_Pid c) = inr code ->
  WaitContainer E id w
  = (Done None,
     {| registry := <[id := with_Status StatusStopped c]> (registry w);
        environ := environ w;
        trace := trace w ++ [EvFindProcess (ci_Pid c); EvWait (ci_Pid c);
                             EvLog (LogExited (String.substring 0 12 id) code)] |}).
Proof.
  intros Hl Hs Hlen Hfind Hwait. unfold WaitContainer, check.
  rewrite bind_eq. cbn [get_registry]. rewrite Hl, Hs. cbn [Status_eqb].
  rewrite bind_eq, call_eq, Hfind, bind_eq. cbn [process_Wait record trace].
  rewrite Hwait, !bind_eq. cbn [set_Status].
  unfold slice, slice_to. destruct (Nat.leb_spec 12 (String.length id)); [|lia].
  unfold bind, ret, Printf. world.
Qed.

End Lifecycle.

(** ** Names *)

Lemma name_held_insert (reg : gmap string ContainerInfo) (id : string)
    (rec : ContainerInfo) (n : string) :
  name_held (<[id := rec]> reg) n -> name_held reg n \/ n = ci_Name rec.
Proof.
  intros (id' & c & Hl & Hn). apply lookup_insert_Some in Hl as [[_ <-]|[_ Hl]].
  - right. congruence.
  - left. now exists id', c.
Qed.

Lemma name_held_delete (reg : gmap string ContainerInfo) (id : string) (n : string) :
  name_held (delete id reg) n ->
  exists id' c, id' <> id /\ reg !! id' = Some c /\ ci_Name c = n.
Proof.
  intros (id' & c & Hl & Hn). apply lookup_delete_Some in Hl as [Hne Hl].
  exists id', c. auto.
Qed.

Lemma effective_config_named (id : string) (config : Config) :
  cfg_Name config <> "" -> effective_config id config = config.
Proof.
  intros H. unfold effective_config. now rewrite (proj2 (String.eqb_neq _ _) H).
Qed.

Section Names.

Variable ul : string -> string.
Variable E : Env.

Lemma prepareRootfs_healthy (id image : string) (w : World) :
  healthy E ->
  exists root w2, prepareRootfs E id image w = (Done (Ok root), w2).
Proof.
  intros (Hmk & Hwr & _). unfold prepareRootfs. cbv zeta.
  unfold bind, call, Printf, ret. rewrite Hmk, Hwr.
  eexists _, _. reflexivity.
Qed.

Lemma startContainer_healthy (c : ContainerInfo) (root : string) (w : World) :
  healthy E ->
  exists pid w3, startContainer E c root w = (Done (Ok pid), w3).
Proof.
  intros (_ & _ & Hst). unfold startContainer. cbv zeta.
  rewrite bind_eq. cbn [cmd_Start].
  match goal with |- context [os_start E ?h ?c] => destruct (Hst h c) as [pid ->] end.
  eexists _, _. reflexivity.
Qed.

Lemma NewContainer_duplicate_iff (config : Config) (w : World) :
  (exists n, fst (NewContainer ul E config w) = Done (Err (DuplicateName n)))
  <-> name_collides (registry w) config.
Proof.
  destruct (NewContainer_cases ul E config w) as (r & w' & Hrun & _ & Hcases).
  rewrite Hrun. cbn [fst].
  destruct Hcases as [(Hdup & -> & _)|[(Hfree & _ & e & w2 & _ & -> & _)|
                      [(Hfree & _ & root & w2 & e & _ & _ & ->)|
                       (Hfree & root & w2 & pid & w3 & _ & _ & -> & _)]]].
  - split; [auto|]. intros _. eexists. reflexivity.
  - split; [intros [n Hn]; discriminate Hn|contradiction].
  - split; [intros [n Hn]; discriminate Hn|contradiction].
  - split; [intros [n Hn]; discriminate Hn|contradiction].
Qed.

Lemma NewContainer_healthy (config : Config) (w : World) :
  healthy E -> ~ name_collides (registry w) config ->
  exists w', NewContainer ul E config w = (Done (Ok (new_id E w)), w').
Proof.
  intros Hh Hfree.
  destruct (NewContainer_cases ul E config w) as (r & w' & Hrun & _ & Hcases).
  exists w'. rewrite Hrun.
  destruct Hcases as [(Hdup & _)|[(_ & _ & e & w2 & Hp & _)|
                      [(_ & _ & root & w2 & e & _ & Hs & _)|
                       (_ & root & w2 & pid & w3 & _ & _ & -> & _)]]].
  - contradiction.
  - destruct (prepareRootfs_healthy (new_id E w)
                (cfg_Image (effective_config (new_id E w) config))
                (record EvRandom w) Hh) as (root & w2' & Hprep).
    rewrite Hprep in Hp. discriminate Hp.
  - destruct (startContainer_healthy
                (new_record (new_id E w) (effective_config (new_id E w) config)
                            (os_now E (trace w2))) root w2 Hh) as (pid & w3 & Hstart).
    rewrite Hstart in Hs. discriminate Hs.
  - reflexivity.
Qed.

(** One creation adds at most the requested name to the names held. *)
Lemma NewContainer_names (config : Config) (w w' : World) (r : Outcome (Res string)) :
  cfg_Name config <> "" ->
  NewContainer ul E config w = (r, w') ->
  (exists a, r = Done a) /\
  forall n, name_held (registry w') n -> name_held (registry w) n \/ n = cfg_Name config.
Proof.
  intros Hname Hnew.
  destruct (NewContainer_cases ul E config w) as (r0 & w0 & Hrun & _ & Hcases).
  rewrite Hrun in Hnew. injection Hnew as <- <-. split; [eauto|].
  rewrite (effective_config_named _ _ Hname) in Hcases.
  destruct Hcases as [(_ & _ & ->)|[(_ & -> & _)|[(_ & -> & _)|
                      (_ & root & w2 & pid & w3 & _ & _ & _ & _ & ->)]]]; auto.
  intros n Hn. now apply name_held_insert in Hn.
Qed.

Lemma create_all_distinct (configs : list Config) :
  forall w,
    NoDup (map cfg_Name configs) ->
    Forall (fun c => cfg_Name c <> "") configs ->
    Forall (fun c => ~ name_held (registry w) (cfg_Name c)) configs ->
    exists rs w',
      create_all ul E configs w = (Done rs, w') /\
      length rs = length configs /\
      Forall (fun r => ~ is_DuplicateName r) rs /\
      (healthy E -> Forall is_Ok rs).
Proof.
  induction configs as [|config rest IH]; intros w Hnd Hne Hfree.
  { exists [], w. cbn. auto. }
  cbn [map] in Hnd. apply NoDup_cons in Hnd as [Hnotin Hnd].
  apply Forall_cons in Hne as [Hname Hne].
  apply Forall_cons in Hfree as [Hfree0 Hfree].
  destruct (NewContainer ul E config w) as [r w1] eqn:Hnew.
  destruct (NewContainer_names config w w1 r Hname Hnew) as ([a ->] & Hnames).
  assert (Hnocoll : ~ name_collides (registry w) config) by (intros [_ H]; auto).
  destruct (IH w1 Hnd Hne) as (rs & w' & Hrest & Hlen & Hnodup & Hok).
  { apply Forall_forall. intros c Hc Hheld.
    apply Hnames in Hheld as [Hheld| Heq].
    - rewrite Forall_forall in Hfree. exact (Hfree c Hc Hheld).
    - apply Hnotin. rewrite <- Heq. apply list_elem_of_In, in_map, list_elem_of_In, Hc. }
  exists (a :: rs), w'. cbn [create_all]. rewrite bind_eq, Hnew, bind_eq, Hrest.
  split; [reflexivity|]. split; [cbn; congruence|]. split.
  - constructor; [|assumption]. intros Hdup.
    apply Hnocoll, NewContainer_duplicate_iff. rewrite Hnew. cbn [fst].
    destruct a as [v|[]]; try contradiction. eexists. reflexivity.
  - intros Hh. constructor; [|auto].
    destruct (NewContainer_healthy config w Hh Hnocoll) as (w0 & Hrun).
    rewrite Hrun in Hnew. injection Hnew as <- _. exact I.
Qed.

(** C3, as the code has it.  Create fails with DuplicateName exactly
    when the requested name is non-empty and some record of the
    registry bears it.  So a sequence of Create calls with pairwise
    distinct non-empty names, none of them held when the sequence
    starts, never meets DuplicateName, and every call succeeds when the
    environment prepares every root filesystem and starts every
    process.  After Remove has deleted the only record of a name, a
    Create asking for that name does not fail with DuplicateName (and
    succeeds in such an environment). *)
Theorem C3_duplicate_name :
  (forall config w,
      (exists n, fst (NewContainer ul E config w) = Done (Err (DuplicateName n)))
      <-> (cfg_Name config <> "" /\
           exists id c, registry w !! id = Some c /\ ci_Name c = cfg_Name config)) /\
  (forall configs w,
      NoDup (map cfg_Name configs) ->
      Forall (fun c => cfg_Name c <> "") configs ->
      Forall (fun c => ~ name_held (registry w) (cfg_Name c)) configs ->
      exists rs w',
        create_all ul E configs w = (Done rs, w') /\
        length rs = length configs /\
        Forall (fun r => ~ is_DuplicateName r) rs /\
        (healthy E -> Forall is_Ok rs)) /\
  (forall id c w w' config,
      registry w !! id = Some c ->
      (forall id' c', registry w !! id' = Some c' -> ci_Name c' = ci_Name c -> id' = id) ->
      RemoveContainer E id w = (Done None, w') ->
      cfg_Name config = ci_Name c ->
      (forall n, fst (NewContainer ul E config w') <> Done (Err (DuplicateName n))) /\
      (healthy E -> exists id' w'', NewContainer ul E config w' = (Done (Ok id'), w''))).
Proof.
  split; [exact NewContainer_duplicate_iff|]. split; [exact create_all_distinct|].
  intros id c w w' config Hl Huniq Hrm Hname.
  assert (Hfree : ~ name_collides (registry w') config).
  { intros [_ Hheld]. rewrite (RemoveContainer_ok E id w w' Hrm), Hname in Hheld.
    apply name_held_delete in Hheld as (id' & c' & Hne & Hl' & Hn').
    apply Hne. eauto. }
  split.
  - intros n Hn. apply Hfree, NewContainer_duplicate_iff. eauto.
  - intros Hh. destruct (NewContainer_healthy config w' Hh Hfree) as (w'' & Hrun). eauto.
Qed.

End Names.

(** ** The init protocol *)

Lemma ny_ret_None (e : Error) : never_yields e (ret None).
Proof. intros w r w' [= <- _]. discriminate. Qed.

Lemma ny_ret_Some (e e' : Error) : e' <> e -> never_yields e (ret (Some e')).
Proof. intros Hne w r w' [= <- _]. congruence. Qed.

Lemma ny_bind {A} (e : Error) (m : M A) (k : A -> M (option Error)) :
  (forall a, never_yields e (k a)) -> never_yields e (bind m k).
Proof.
  intros Hk w r w' H. rewrite bind_eq in H.
  destruct (m w) as [[a|] w1]; [exact (Hk a w1 r w' H)|].
  injection H as <- _. discriminate.
Qed.

Lemma ny_check (e : Error) (r : M (option Errno)) (wrap : Error -> Error)
    (body : M (option Error)) :
  (forall errno, wrap (OsError errno) <> e) -> never_yields e body ->
  never_yields e (check r wrap body).
Proof.
  intros Hw Hb. unfold check. apply ny_bind. intros [errno|]; [|exact Hb].
  apply ny_ret_Some, Hw.
Qed.

Ltac ny_step :=
  lazymatch goal with
  | |- never_yields _ (ret None) => apply ny_ret_None
  | |- never_yields _ (ret (Some _)) => apply ny_ret_Some; discriminate
  | |- never_yields _ (check _ _ _) =>
      apply ny_check; [intros ?; cbv [same]; discriminate|]
  | |- never_yields _ (bind _ _) => apply ny_bind; intros ?
  | |- never_yields _ (match ?x with _ => _ end) => destruct x
  end.

Lemma default_empty (v : option string) :
  default "" v = "" <-> absent_or_empty v.
Proof.
  unfold absent_or_empty. destruct v as [s|]; cbn.
  - split; [intros ->; auto|]. intros [H|[= ->]]; [discriminate|reflexivity].
  - split; auto.
Qed.

Lemma missing_check (rootfs cmd : option string) :
  (default "" rootfs =? "") || (default "" cmd =? "") = true
  <-> absent_or_empty rootfs \/ absent_or_empty cmd.
Proof. now rewrite orb_true_iff, !String.eqb_eq, !default_empty. Qed.

Section Init.

Variable E : Env.

(** The steps after the configuration check never end with
    MissingConfiguration. *)
Lemma InitContainer_eq (w : World) :
  let rootfs := default "" (LookupEnv "CONTAINER_ROOTFS" (environ w)) in
  let cmdString := default "" (LookupEnv "CONTAINER_CMD" (environ w)) in
  let containerName := default "" (LookupEnv "CONTAINER_NAME" (environ w)) in
  InitContainer E w =
  if (rootfs =? "") || (cmdString =? "")
  then (Done (InitFailed MissingConfiguration), w)
  else
    match
      check (setHostname E containerName) HostnameError (
        m <- setupContainerMounts E rootfs ;;
        match m with
        | Some err => ret (Some (MountsSetupError err))
        | None =>
            check (call E (EvChroot rootfs)) ChrootError (
            check (call E (EvChdir "/")) ChdirError (
            match Split cmdString " " with
            | [] => ret (Some InvalidCommand)
            | cmd0 :: _ =>
                p <- LookPath E cmd0 ;;
                match p with
                | inl errno => ret (Some (ExecFailure cmd0 (OsError errno)))
                | inr cmdPath =>
                    Printf (LogExecCommand cmdString) ;;;
                    env <- Environ ;;
                    check (call E (EvExec cmdPath (Split cmdString " ") env)) same (ret None)
                end
            end))
        end)
        (record (EvLog (LogInit containerName rootfs)) w)
    with
    | (Done r, w') => (Done (lift r), w')
    | (Panic, w') => (Panic, w')
    end.
Proof.
  cbv zeta. unfold InitContainer. do 3 (rewrite bind_eq; cbn [Getenv]).
  destruct ((default "" (LookupEnv "CONTAINER_ROOTFS" (environ w)) =? "")
            || (default "" (LookupEnv "CONTAINER_CMD" (environ w)) =? ""));
    [reflexivity|].
  rewrite bind_eq. cbn [Printf]. rewrite bind_eq. reflexivity.
Qed.

(** C8, as the code has it.  The Isolation Bootstrapper fails with
    MissingConfiguration exactly when the root-filesystem variable or
    the command-string variable is absent or empty, and it does so
    before any setup step: on that failure the world, with its trace
    of requests, is as before.  Whether the container-name variable is
    present plays no part. *)
Theorem C8_missing_configuration (w : World) :
  let rootfs := LookupEnv "CONTAINER_ROOTFS" (environ w) in
  let cmd := LookupEnv "CONTAINER_CMD" (environ w) in
  (absent_or_empty rootfs \/ absent_or_empty cmd ->
   InitContainer E w = (Done (InitFailed MissingConfiguration), w)) /\
  (fst (InitContainer E w) = Done (InitFailed MissingConfiguration) ->
   absent_or_empty rootfs \/ absent_or_empty cmd) /\
  (LookupEnv "CONTAINER_NAME" (environ w) = None ->
   ~ absent_or_empty rootfs -> ~ absent_or_empty cmd ->
   fst (InitContainer E w) <> Done (InitFailed MissingConfiguration)).
Proof.
  intros rootfs cmd.
  assert (Hback : fst (InitContainer E w) = Done (InitFailed MissingConfiguration) ->
                  absent_or_empty rootfs \/ absent_or_empty cmd).
  { rewrite InitContainer_eq. cbv zeta. fold rootfs. fold cmd. intros H.
    apply missing_check.
    destruct ((default "" rootfs =? "") || (default "" cmd =? "")); [reflexivity|].
    exfalso. revert H.
    match goal with |- context [match ?m ?w0 with _ => _ end] =>
      destruct (m w0) as [[r|] w'] eqn:Hrun;
      [assert (Hny : never_yields MissingConfiguration m)|] end.
    - repeat ny_step.
    - cbn [fst]. intros [= Hl]. destruct r as [e|]; [|discriminate].
      cbn in Hl. injection Hl as ->. exact (Hny _ _ _ Hrun eq_refl).
    - discriminate. }
  split; [|split].
  - intros H. apply missing_check in H. rewrite InitContainer_eq. cbv zeta.
    fold rootfs. fold cmd. now rewrite H.
  - exact Hback.
  - intros _ Hr Hc H. apply Hback in H. tauto.
Qed.

End Init.

(** ** The properties at work on example worlds *)

Ltac no_collision :=
  let H := fresh in
  intros H; apply name_check_spec in H; vm_compute in H; discriminate H.

(** Wait on the sample container whose process exits with code 3. *)
Lemma C1_wait_reports_exit_code_witness :
  WaitContainer (calm 3) sample_id (one_container StatusRunning)
  = (Done None,
     {| registry := <[sample_id := sample_record StatusStopped]>
                      (registry (one_container StatusRunning));
        environ := [];
        trace := [EvFindProcess 4242; EvWait 4242;
                  EvLog (LogExited "0f8fad5b-d9c" 3)] |}).
Proof.
  apply (C1_wait_reports_exit_code (calm 3) sample_id (sample_record StatusRunning)
           (one_container StatusRunning) 3).
  - vm_compute. reflexivity.
  - reflexivity.
  - vm_compute. lia.
  - reflexivity.
  - reflexivity.
Defined.

(** C1 as stated fails: whether the process of the sample container
    exits with code 0 or with code 3, Wait hands the same value to its
    caller, so no reading of that value yields the exit code. *)
Lemma C1_counterexample :
  ~ (exists decode : Outcome (option Error) -> Z,
       forall (E : Env) (code : Z),
         os_call E [] (EvFindProcess 4242) = None ->
         os_wait E [EvFindProcess 4242] 4242 = inr code ->
         decode (fst (WaitContainer E sample_id (one_container StatusRunning))) = code).
Proof.
  intros [decode H].
  pose proof (H (calm 0) 0%Z eq_refl eq_refl) as H0.
  pose proof (H (calm 3) 3%Z eq_refl eq_refl) as H3.
  vm_compute in H0, H3. rewrite H0 in H3. discriminate H3.
Qed.

(** A full disk, then a process table that refuses the new process:
    the registry keeps its one record in both cases. *)
Lemma C2_failed_create_leaves_registry_witness :
  let w := one_container StatusRunning in
  let config := sample_config "db" "bridge" "100m" in
  (exists w', NewContainer (fun s => s) no_space config w
              = (Done (Err (RootfsPreparationError (OsError 28%Z))), w') /\
              registry w' = registry w) /\
  (exists w', NewContainer (fun s => s) no_process config w
              = (Done (Err (ProcessStartError (OsError 11%Z))), w') /\
              registry w' = registry w).
Proof.
  intros w config. split.
  - pose proof (C2_failed_create_leaves_registry (fun s => s) no_space config w) as H.
    cbv zeta in H. destruct H as (_ & H & _).
    eexists. apply (H (OsError 28%Z)
      (snd (prepareRootfs no_space (new_id no_space w)
              (cfg_Image (effective_config (new_id no_space w) config))
              (record EvRandom w)))).
    + no_collision.
    + vm_compute. reflexivity.
  - pose proof (C2_failed_create_leaves_registry (fun s => s) no_process config w) as H.
    cbv zeta in H. destruct H as (_ & _ & H).
    set (id := new_id no_process w).
    set (w2 := snd (prepareRootfs no_process id (cfg_Image (effective_config id config))
                      (record EvRandom w))).
    eexists. apply (H (filepath_Join DefaultContainerRoot id) w2 (OsError 11%Z)
      (snd (startContainer no_process
              (new_record id (effective_config id config) (os_now no_process (trace w2)))
              (filepath_Join DefaultContainerRoot id) w2))).
    + no_collision.
    + vm_compute. reflexivity.
    + vm_compute. reflexivity.
Defined.

(** Two creations under distinct names in a fresh registry, and the
    name of the sample container after its removal. *)
Lemma C3_duplicate_name_witness :
  (exists rs w',
      create_all (fun s => s) (calm 0)
        [sample_config "web" "none" ""; sample_config "db" "none" ""] fresh_world
      = (Done rs, w') /\
      length rs = 2%nat /\
      Forall (fun r => ~ is_DuplicateName r) rs /\
      (healthy (calm 0) -> Forall is_Ok rs)) /\
  (forall n,
      fst (NewContainer (fun s => s) (calm 0) (sample_config "web" "none" "")
             (snd (RemoveContainer (calm 0) sample_id (one_container StatusRunning))))
      <> Done (Err (DuplicateName n))).
Proof.
  pose proof (C3_duplicate_name (fun s => s) (calm 0)) as (_ & Hseq & Hreuse).
  split.
  - apply (Hseq [sample_config "web" "none" ""; sample_config "db" "none" ""] fresh_world).
    + apply (bool_decide_unpack _). vm_compute. exact I.
    + repeat constructor; discriminate.
    + repeat constructor; intros (id & c & Hl & _); vm_compute in Hl; discriminate Hl.
  - apply (Hreuse sample_id (sample_record StatusRunning) (one_container StatusRunning)
             (snd (RemoveContainer (calm 0) sample_id (one_container StatusRunning)))
             (sample_config "web" "none" "")).
    + vm_compute. reflexivity.
    + intros id' c' Hl _. unfold one_container in Hl. cbn [registry] in Hl.
      apply lookup_singleton_Some in Hl as [Hid _]. now symmetry.
    + vm_compute. reflexivity.
    + reflexivity.
Defined.

(** C3 as stated fails, in each of its two consequences.  Distinct
    non-empty names do not make every Create succeed: on a full disk
    both creations of a sequence fail while the root filesystem is
    prepared, and in a calm kernel the first of two creations meets
    DuplicateName when its name is held by a record that was there
    before the sequence.  And a name is not always free after Remove
    has deleted a record that bears it: in [twin_world], which two
    creations make from the empty registry, the record created without
    a name took the name of the other one, and keeps it after the other
    one is removed. *)
Lemma C3_counterexample :
  ~ (forall (E : Env) (configs : list Config),
       NoDup (map cfg_Name configs) ->
       Forall (fun c => cfg_Name c <> "") configs ->
       exists rs w',
         create_all (fun s => s) E configs fresh_world = (Done rs, w') /\
         Forall is_Ok rs) /\
  ~ (forall (configs : list Config) (w : World),
       NoDup (map cfg_Name configs) ->
       Forall (fun c => cfg_Name c <> "") configs ->
       exists rs w',
         create_all (fun s => s) (calm 0) configs w = (Done rs, w') /\
         Forall (fun r => ~ is_DuplicateName r) rs) /\
  ~ (forall (id : string) (c : ContainerInfo) (w w' : World) (config : Config),
       registry w !! id = Some c ->
       RemoveContainer (calm 0) id w = (Done None, w') ->
       cfg_Name config = ci_Name c ->
       forall n, fst (NewContainer (fun s => s) (calm 0) config w')
                 <> Done (Err (DuplicateName n))).
Proof.
  assert (Hnd : NoDup (map cfg_Name [sample_config "web" "none" "";
                                     sample_config "db" "none" ""]))
    by (apply (bool_decide_unpack _); vm_compute; exact I).
  assert (Hne : Forall (fun c => cfg_Name c <> "")
                  [sample_config "web" "none" ""; sample_config "db" "none" ""])
    by (repeat constructor; discriminate).
  split; [|split].
  - intros H. destruct (H no_space _ Hnd Hne) as (rs & w' & Hrun & Hok).
    vm_compute in Hrun. injection Hrun as <- _.
    apply Forall_cons in Hok as [Hbad _]. exact Hbad.
  - intros H.
    destruct (H _ (one_container StatusRunning) Hnd Hne) as (rs & w' & Hrun & Hok).
    vm_compute in Hrun. injection Hrun as <- _.
    apply Forall_cons in Hok as [Hbad _]. apply Hbad. exact I.
  - intros H.
    destruct (registry twin_world !! new_id (calm 0) fresh_world) as [c|] eqn:Hl;
      [|vm_compute in Hl; discriminate Hl].
    apply (H (new_id (calm 0) fresh_world) c twin_world
             (snd (RemoveContainer (calm 0) (new_id (calm 0) fresh_world) twin_world))
             (sample_config twin_name "none" "") Hl) with (n := twin_name).
    + vm_compute. reflexivity.
    + vm_compute in Hl. injection Hl as <-. reflexivity.
    + vm_compute. reflexivity.
Qed.

(** No signal can be delivered: Stop fails, Remove passes the failure
    on and the record stays. *)
Lemma C5_remove_stops_first_witness :
  let w := one_container StatusRunning in
  let w1 := snd (StopContainer no_process sample_id w) in
  RemoveContainer no_process sample_id w
  = (Done (Some (StopFailed (KillFailed (OsError 3%Z)))), w1) /\
  registry w1 !! sample_id = Some (sample_record StatusRunning).
Proof.
  intros w w1.
  pose proof (proj1 (proj2 (C5_remove_stops_first no_process sample_id w))
                (sample_record StatusRunning)) as H.
  assert (Hstop : StopContainer no_process sample_id w
                  = (Done (Some (KillFailed (OsError 3%Z))), w1))
    by (vm_compute; reflexivity).
  rewrite Hstop in H. apply H.
  - vm_compute. reflexivity.
  - reflexivity.
Defined.

(** A memory limit that does not parse and a network mode that does
    not exist: the container is created and registered all the same,
    and the two failures are on the console. *)
Lemma C6_spawned_container_is_registered_witness :
  let config := sample_config "api" "overlay" "lots" in
  let id := new_id (calm 0) fresh_world in
  exists w',
    NewContainer (fun s => s) (calm 0) config fresh_world = (Done (Ok id), w') /\
    (exists c, registry w' !! id = Some c /\
               ci_Status c = StatusRunning /\ ci_Pid c = 4242%Z) /\
    In (EvLog (LogResourceWarning (SetMemoryLimitFailed (InvalidMemorySpec "lots"))))
       (trace w') /\
    In (EvLog (LogNetworkFailed (UnsupportedNetworkMode "overlay"))) (trace w').
Proof.
  intros config id.
  set (w2 := snd (prepareRootfs (calm 0) id (cfg_Image (effective_config id config))
                    (record EvRandom fresh_world))).
  set (rec := new_record id (effective_config id config) (os_now (calm 0) (trace w2))).
  set (root := filepath_Join DefaultContainerRoot id).
  destruct (C6_spawned_container_is_registered (fun s => s) (calm 0) config fresh_world
              root w2 4242%Z (snd (startContainer (calm 0) rec root w2)))
    as (w' & Hrun & _ & Hc & _).
  - no_collision.
  - vm_compute. reflexivity.
  - vm_compute. reflexivity.
  - exists w'. split; [exact Hrun|]. split; [exact Hc|].
    apply (f_equal snd) in Hrun. cbn [snd] in Hrun. subst w'.
    split; vm_compute; repeat (first [left; reflexivity | right]).
Defined.

(** Stop on the stopped sample container, and Stop twice on the
    running one. *)
Lemma C7_stop_stopped_is_noop_witness :
  StopContainer (calm 0) sample_id (one_container StatusStopped)
  = (Done None, one_container StatusStopped) /\
  (let w' := snd (StopContainer (calm 0) sample_id (one_container StatusRunning)) in
   StopContainer (calm 0) sample_id w' = (Done None, w')).
Proof.
  split.
  - apply (proj1 (C7_stop_stopped_is_noop (calm 0) sample_id (one_container StatusStopped))
             (sample_record StatusStopped)).
    + vm_compute. reflexivity.
    + reflexivity.
  - intros w'.
    apply (proj2 (C7_stop_stopped_is_noop (calm 0) sample_id (one_container StatusRunning))).
    vm_compute. reflexivity.
Defined.

(** C8 as stated fails: both variables are present in the environment
    of [empty_command_world] (the command string is empty), and the
    Bootstrapper fails with MissingConfiguration. *)
Lemma C8_counterexample :
  ~ (forall (E : Env) (w : World),
       fst (InitContainer E w) = Done (InitFailed MissingConfiguration)
       <-> (LookupEnv "CONTAINER_ROOTFS" (environ w) = None \/
            LookupEnv "CONTAINER_CMD" (environ w) = None)).
Proof.
  intros H.
  assert (Hfail : fst (InitContainer (calm 0) empty_command_world)
                  = Done (InitFailed MissingConfiguration))
    by (vm_compute; reflexivity).
  apply H in Hfail. vm_compute in Hfail. destruct Hfail as [Habs|Habs]; discriminate Habs.
Qed.

(** An empty command string stops the Bootstrapper before any step; a
    missing container name does not. *)
Lemma C8_missing_configuration_witness :
  InitContainer (calm 0) empty_command_world
  = (Done (InitFailed MissingConfiguration), empty_command_world) /\
  fst (InitContainer (calm 0) nameless_world) <> Done (InitFailed MissingConfiguration).
Proof.
  split.
  - apply (proj1 (C8_missing_configuration (calm 0) empty_command_world)).
    right. right. vm_compute. reflexivity.
  - apply (proj2 (proj2 (C8_missing_configuration (calm 0) nameless_world))).
    + vm_compute. reflexivity.
    + intros [H|H]; vm_compute in H; discriminate H.
    + intros [H|H]; vm_compute in H; discriminate H.
Defined.

(* ===================================================================== *)
(** * Part VII: further properties of the code                           *)
(* ===================================================================== *)

(** ** The registry under the lifecycle operations *)

Section Registry.

Variable ul : string -> string.
Variable E : Env.

Ltac world :=
  unfold record, extend, with_registry; cbn [registry environ trace];
  rewrite <- ?app_assoc; cbn [app]; reflexivity.

(** Stop on a Running record, request by request. *)
Lemma StopContainer_run (id : string) (c : ContainerInfo) (w : World) :
  registry w !! id = Some c -> ci_Status c = StatusRunning ->
  let pid := ci_Pid c in
  let stopped := with_registry (<[id := with_Status StatusStopped c]> (registry w)) in
  StopContainer E id w =
  match os_call E (trace w) (EvFindProcess pid) with
  | Some e => (Done (Some (ProcessLookupError (OsError e))), extend [EvFindProcess pid] w)
  | None =>
      match os_call E (trace w ++ [EvFindProcess pid]) (EvSignal pid SIGTERM) with
      | None => (Done None, stopped (extend [EvFindProcess pid; EvSignal pid SIGTERM] w))
      | Some e =>
          let evs := [EvFindProcess pid; EvSignal pid SIGTERM;
                      EvLog (LogSigtermFailed (OsError e)); EvKill pid] in
          match os_call E (trace w ++ [EvFindProcess pid; EvSignal pid SIGTERM;
                                       EvLog (LogSigtermFailed (OsError e))])
                        (EvKill pid) with
          | None => (Done None, stopped (extend evs w))
          | Some e' => (Done (Some (KillFailed (OsError e'))), extend evs w)
          end
      end
  end.
Proof.
  intros H Hs. cbv zeta. unfold StopContainer, check. rewrite bind_eq. cbn [get_registry].
  rewrite H, Hs. cbn [Status_eqb]. rewrite bind_eq, call_eq.
  destruct (os_call E (trace w) (EvFindProcess (ci_Pid c))) as [e1|]; [reflexivity|].
  rewrite bind_eq, call_eq. cbn [record trace].
  destruct (os_call E (trace w ++ [EvFindProcess (ci_Pid c)])
              (EvSignal (ci_Pid c) SIGTERM)) as [e2|].
  - rewrite !bind_eq. cbn [Printf]. rewrite call_eq. cbn [record trace].
    rewrite <- !app_assoc. cbn [app].
    destruct (os_call E (trace w ++ [EvFindProcess (ci_Pid c); EvSignal (ci_Pid c) SIGTERM;
                                     EvLog (LogSigtermFailed (OsError e2))])
                (EvKill (ci_Pid c))) as [e3|].
    + unfold ret. f_equal. world.
    + unfold bind, set_Status, ret. f_equal. world.
  - unfold bind, set_Status, ret. f_equal. world.
Qed.

(** Wait on a Running record, request by request. *)
Lemma WaitContainer_run (id : string) (c : ContainerInfo) (w : World) :
  registry w !! id = Some c -> ci_Status c = StatusRunning ->
  let pid := ci_Pid c in
  let stopped := with_registry (<[id := with_Status StatusStopped c]> (registry w)) in
  WaitContainer E id w =
  match os_call E (trace w) (EvFindProcess pid) with
  | Some e => (Done (Some (ProcessLookupError (OsError e))), extend [EvFindProcess pid] w)
  | None =>
      match os_wait E (trace w ++ [EvFindProcess pid]) pid with
      | inl e => (Done (Some (WaitFailed (OsError e))),
                  extend [EvFindProcess pid; EvWait pid] w)
      | inr code =>
          match slice_to 12 id with
          | Some id12 =>
              (Done None,
               stopped (extend [EvFindProcess pid; EvWait pid;
                                EvLog (LogExited id12 code)] w))
          | None => (Panic, stopped (extend [EvFindProcess pid; EvWait pid] w))
          end
      end
  end.
Proof.
  intros H Hs. cbv zeta. unfold WaitContainer, check. rewrite bind_eq. cbn [get_registry].
  rewrite H, Hs. cbn [Status_eqb]. rewrite bind_eq, call_eq.
  destruct (os_call E (trace w) (EvFindProcess (ci_Pid c))) as [e1|]; [reflexivity|].
  rewrite bind_eq. cbn [process_Wait record trace].
  destruct (os_wait E (trace w ++ [EvFindProcess (ci_Pid c)]) (ci_Pid c)) as [e2|code].
  - unfold ret. f_equal. world.
  - rewrite !bind_eq. cbn [set_Status]. unfold slice.
    destruct (slice_to 12 id) as [id12|].
    + unfold bind, ret, Printf. f_equal. world.
    + unfold panic. f_equal. world.
Qed.

Lemma WaitContainer_absent (id : string) (w : World) :
  registry w !! id = None ->
  WaitContainer E id w = (Done (Some (NotFound id)), w).
Proof. intros H. unfold WaitContainer. rewrite bind_eq. cbn [get_registry]. now rewrite H. Qed.

Lemma WaitContainer_stopped (id : string) (c : ContainerInfo) (w : World) :
  registry w !! id = Some c -> ci_Status c = StatusStopped ->
  WaitContainer E id w = (Done None, w).
Proof.
  intros H Hs. unfold WaitContainer. rewrite bind_eq. cbn [get_registry].
  now rewrite H, Hs.
Qed.

(** What each operation can do to the registry. *)
Lemma StopContainer_registry (id : string) (w w' : World) (r : Outcome (option Error)) :
  StopContainer E id w = (r, w') ->
  (exists e, r = Done e) /\
  (registry w' = registry w \/
   exists c, registry w !! id = Some c /\ ci_Status c = StatusRunning /\ r = Done None /\
             registry w' = <[id := with_Status StatusStopped c]> (registry w)).
Proof.
  intros Hrun. destruct (registry w !! id) as [c|] eqn:Hl.
  2:{ rewrite StopContainer_absent in Hrun by assumption. injection Hrun as <- <-. eauto. }
  destruct (ci_Status c) eqn:Hs.
  2:{ rewrite (StopContainer_stopped E id c) in Hrun by assumption.
      injection Hrun as <- <-. eauto. }
  rewrite (StopContainer_run id c w Hl Hs) in Hrun. cbv zeta in Hrun.
  repeat match type of Hrun with
         | context [match ?x with _ => _ end] => destruct x
         end; injection Hrun as <- <-; split; eauto; right; exists c; auto.
Qed.

Lemma WaitContainer_registry (id : string) (w w' : World) (r : Outcome (option Error)) :
  WaitContainer E id w = (r, w') ->
  registry w' = registry w \/
  exists c, registry w !! id = Some c /\ ci_Status c = StatusRunning /\
            (r = Done None \/ r = Panic) /\
            registry w' = <[id := with_Status StatusStopped c]> (registry w).
Proof.
  intros Hrun. destruct (registry w !! id) as [c|] eqn:Hl.
  2:{ rewrite WaitContainer_absent in Hrun by assumption. injection Hrun as <- <-. eauto. }
  destruct (ci_Status c) eqn:Hs.
  2:{ rewrite (WaitContainer_stopped id c) in Hrun by assumption.
      injection Hrun as <- <-. eauto. }
  rewrite (WaitContainer_run id c w Hl Hs) in Hrun. cbv zeta in Hrun.
  repeat match type of Hrun with
         | context [match ?x with _ => _ end] => destruct x
         end; injection Hrun as <- <-; eauto; right; exists c; auto.
Qed.

Lemma RemoveContainer_registry (id : string) (w w' : World) (r : Outcome (option Error)) :
  RemoveContainer E id w = (r, w') ->
  (exists e, r = Done e) /\
  ((r <> Done None /\ registry w' = registry w) \/
   (r = Done None /\ is_Some (registry w !! id) /\ registry w' = delete id (registry w))).
Proof.
  intros Hrun. destruct (registry w !! id) as [c|] eqn:Hl.
  2:{ rewrite RemoveContainer_absent in Hrun by assumption. injection Hrun as <- <-.
      split; [eauto|]. left. split; [discriminate|reflexivity]. }
  rewrite (RemoveContainer_present E id c w Hl) in Hrun.
  destruct ((if Status_eqb (ci_Status c) StatusRunning then StopContainer E id else ret None) w)
    as [r1 w1] eqn:Hstop.
  assert (Hreg : (exists e, r1 = Done e) /\
                 (r1 = Done None -> delete id (registry w1) = delete id (registry w)) /\
                 (r1 <> Done None -> registry w1 = registry w)).
  { destruct (Status_eqb (ci_Status c) StatusRunning).
    - destruct (StopContainer_registry id w w1 r1 Hstop) as (Hd & [Hsame|(c' & _ & _ & -> & Hins)]).
      + rewrite Hsame. auto.
      + split; [eauto|]. split; [|congruence]. intros _. rewrite Hins.
        apply delete_insert_eq.
    - rewrite ret_eq in Hstop. injection Hstop as <- <-. split; [eauto|]. auto. }
  destruct Hreg as ([e ->] & Hdel & Hkeep).
  destruct e as [err|]; injection Hrun as <- <-; (split; [eauto|]).
  - left. split; [discriminate|]. apply Hkeep. discriminate.
  - right. split; [reflexivity|]. split; [eauto|].
    cbn [with_registry registry]. now apply Hdel.
Qed.

Lemma NewContainer_registry (config : Config) (w w' : World) (r : Outcome (Res string)) :
  NewContainer ul E config w = (r, w') ->
  let id := new_id E w in
  (exists a, r = Done a) /\
  ((r <> Done (Ok id) /\ registry w' = registry w) \/
   (r = Done (Ok id) /\
    exists rec, registry w' = <[id := rec]> (registry w) /\
                ci_ID rec = id /\ ci_Status rec = StatusRunning /\
                ci_Name rec = cfg_Name (effective_config id config) /\
                ci_Config rec = effective_config id config /\
                ~ name_collides (registry w) config)).
Proof.
  intros Hrun id.
  destruct (NewContainer_cases ul E config w) as (r0 & w0 & Hrun0 & _ & Hcases).
  rewrite Hrun0 in Hrun. injection Hrun as <- <-. split; [eauto|]. fold id in Hcases.
  destruct Hcases as [(_ & -> & Hreg)|[(_ & Hreg & e & w2 & _ & -> & _)|
                      [(_ & Hreg & root & w2 & e & _ & _ & ->)|
                       (Hfree & root & w2 & pid & w3 & _ & _ & -> & _ & Hreg)]]].
  - left. split; [discriminate|assumption].
  - left. split; [discriminate|assumption].
  - left. split; [discriminate|assumption].
  - right. split; [reflexivity|]. eexists. split; [exact Hreg|]. cbn. auto.
Qed.

Lemma NewContainer_Ok (config : Config) (w w' : World) (id : string) :
  NewContainer ul E config w = (Done (Ok id), w') ->
  id = new_id E w /\
  exists rec, registry w' = <[id := rec]> (registry w) /\
              ci_ID rec = id /\ ci_Status rec = StatusRunning /\
              ci_Name rec = cfg_Name (effective_config id config) /\
              ci_Config rec = effective_config id config /\
              ~ name_collides (registry w) config.
Proof.
  intros Hrun.
  assert (Hid : id = new_id E w).
  { destruct (NewContainer_cases ul E config w) as (r0 & w0 & Hrun0 & _ & Hcases).
    rewrite Hrun0 in Hrun. injection Hrun as -> ->.
    destruct Hcases as [(_ & [=] & _)|[(_ & _ & e & w2' & _ & [=] & _)|
                        [(_ & _ & root & w2' & e & _ & _ & [=])|
                         (_ & root & w2' & pid & w3 & _ & _ & [= ->] & _)]]].
    reflexivity. }
  subst id. split; [reflexivity|].
  destruct (NewContainer_registry config w w' _ Hrun) as (_ & [(Hne & _)|(_ & Hrec)]);
    [now contradiction Hne|exact Hrec].
Qed.

(** X1.  An operation on one container leaves every other record of
    the registry as it is: Stop, Wait and Remove touch at most the
    record of the id they are given, Create at most the record of the
    id it draws. *)
Theorem operations_leave_other_records (id id' : string) (w : World) :
  id' <> id ->
  (forall r w', StopContainer E id w = (r, w') -> registry w' !! id' = registry w !! id') /\
  (forall r w', WaitContainer E id w = (r, w') -> registry w' !! id' = registry w !! id') /\
  (forall r w', RemoveContainer E id w = (r, w') -> registry w' !! id' = registry w !! id') /\
  (forall config r w',
      id = new_id E w -> NewContainer ul E config w = (r, w') ->
      registry w' !! id' = registry w !! id').
Proof.
  intros Hne. repeat split.
  - intros r w' Hrun.
    destruct (StopContainer_registry id w w' r Hrun) as (_ & [->|(c & _ & _ & _ & ->)]);
      [reflexivity|]. now apply lookup_insert_ne.
  - intros r w' Hrun.
    destruct (WaitContainer_registry id w w' r Hrun) as [->|(c & _ & _ & _ & ->)];
      [reflexivity|]. now apply lookup_insert_ne.
  - intros r w' Hrun.
    destruct (RemoveContainer_registry id w w' r Hrun) as (_ & [(_ & ->)|(_ & _ & ->)]);
      [reflexivity|]. now apply lookup_delete_ne.
  - intros config r w' -> Hrun.
    destruct (NewContainer_registry config w w' r Hrun)
      as (_ & [(_ & ->)|(_ & rec & -> & _)]); [reflexivity|]. now apply lookup_insert_ne.
Qed.

Lemma wf_insert (reg : gmap string ContainerInfo) (id : string) (c : ContainerInfo) :
  wf_registry reg -> ci_ID c = id -> String.length id = 36%nat ->
  wf_registry (<[id := c]> reg).
Proof.
  intros Hwf Hid Hlen id' c' Hl. apply lookup_insert_Some in Hl as [[<- <-]|[_ Hl]]; auto.
Qed.

Lemma wf_delete (reg : gmap string ContainerInfo) (id : string) :
  wf_registry reg -> wf_registry (delete id reg).
Proof. intros Hwf id' c' Hl. apply lookup_delete_Some in Hl as [_ Hl]. auto. Qed.

Lemma run_op_wf (o : Op) (w w' : World) (r : Outcome (option Error)) :
  wf_registry (registry w) -> run_op E o w = (r, w') ->
  (exists e, r = Done e) /\ wf_registry (registry w').
Proof.
  intros Hwf Hrun. destruct o as [id|id|id]; cbn [run_op] in Hrun.
  - destruct (StopContainer_registry id w w' r Hrun) as (Hd & [->|(c & Hl & _ & _ & ->)]);
      [auto|]. split; [assumption|]. destruct (Hwf id c Hl). now apply wf_insert.
  - destruct (registry w !! id) as [c|] eqn:Hl.
    2:{ rewrite WaitContainer_absent in Hrun by assumption. injection Hrun as <- <-. eauto. }
    destruct (ci_Status c) eqn:Hs.
    2:{ rewrite (WaitContainer_stopped id c) in Hrun by assumption.
        injection Hrun as <- <-. eauto. }
    destruct (Hwf id c Hl) as [Hid Hlen].
    rewrite (WaitContainer_run id c w Hl Hs) in Hrun. cbv zeta in Hrun.
    unfold slice_to in Hrun. rewrite Hlen in Hrun. cbn [Nat.leb] in Hrun.
    repeat match type of Hrun with
           | context [match ?x with _ => _ end] => destruct x
           end; injection Hrun as <- <-; (split; [eauto|]); try assumption;
      now apply wf_insert.
  - destruct (RemoveContainer_registry id w w' r Hrun) as (Hd & [(_ & ->)|(_ & _ & ->)]);
      [auto|]. split; [assumption|]. now apply wf_delete.
Qed.

Lemma NewContainer_wf (config : Config) (w w' : World) (r : Outcome (Res string)) :
  wf_registry (registry w) -> NewContainer ul E config w = (r, w') ->
  (exists a, r = Done a) /\ wf_registry (registry w').
Proof.
  intros Hwf Hrun.
  destruct (NewContainer_registry config w w' r Hrun)
    as (Hd & [(_ & ->)|(_ & rec & -> & Hid & _)]); [auto|].
  split; [assumption|]. apply wf_insert; [assumption|assumption|apply new_id_length].
Qed.

(** X2.  Started on a registry in which every record is filed under
    its own 36-byte identifier (the empty registry is one), any
    sequence of Create, Stop, Wait and Remove requests runs to its end
    without a panic, whatever the environment answers, and leaves such
    a registry. *)
Theorem requests_never_panic (qs : list Request) :
  forall w r w',
    wf_registry (registry w) ->
    serve_all ul E qs w = (r, w') ->
    r = Done tt /\ wf_registry (registry w').
Proof.
  induction qs as [|q rest IH]; intros w r w' Hwf Hrun.
  { cbn in Hrun. injection Hrun as <- <-. auto. }
  cbn [serve_all] in Hrun. rewrite bind_eq in Hrun.
  destruct (serve ul E q w) as [r1 w1] eqn:Hq.
  assert (H1 : r1 = Done tt /\ wf_registry (registry w1)).
  { destruct q as [config|o]; cbn [serve] in Hq; rewrite bind_eq in Hq.
    - destruct (NewContainer ul E config w) as [r0 w0] eqn:Hnew.
      destruct (NewContainer_wf config w w0 r0 Hwf Hnew) as ([a ->] & Hwf0).
      rewrite ret_eq in Hq. injection Hq as <- <-. auto.
    - destruct (run_op E o w) as [r0 w0] eqn:Hop.
      destruct (run_op_wf o w w0 r0 Hwf Hop) as ([e ->] & Hwf0).
      rewrite ret_eq in Hq. injection Hq as <- <-. auto. }
  destruct H1 as [-> Hwf1]. exact (IH w1 r w' Hwf1 Hrun).
Qed.

(** X3.  Stop on a Running record succeeds exactly when the process
    can be looked up and the kernel accepts the termination signal or,
    failing that, the kill.  On success the record reads Stopped and
    is otherwise unchanged; on failure the registry is as before.  The
    kill is requested only after the termination signal was refused,
    and Stop never waits for the process to exit. *)
Theorem stop_escalates_to_kill (id : string) (c : ContainerInfo) (w w' : World)
    (r : Outcome (option Error)) :
  registry w !! id = Some c -> ci_Status c = StatusRunning ->
  StopContainer E id w = (r, w') ->
  let pid := ci_Pid c in
  let find := os_call E (trace w) (EvFindProcess pid) in
  let term := os_call E (trace w ++ [EvFindProcess pid]) (EvSignal pid SIGTERM) in
  let kill e := os_call E (trace w ++ [EvFindProcess pid; EvSignal pid SIGTERM;
                                       EvLog (LogSigtermFailed (OsError e))])
                          (EvKill pid) in
  (r = Done None <->
   find = None /\ (term = None \/ exists e, term = Some e /\ kill e = None)) /\
  (r = Done None -> registry w' = <[id := with_Status StatusStopped c]> (registry w)) /\
  (r <> Done None -> (exists err, r = Done (Some err)) /\ registry w' = registry w) /\
  exists evs,
    trace w' = trace w ++ evs /\
    (In (EvKill pid) evs -> exists e, term = Some e) /\
    (forall e, In e evs -> is_wait e = false).
Proof.
  intros Hl Hs Hrun. cbv zeta.
  rewrite (StopContainer_run id c w Hl Hs) in Hrun. cbv zeta in Hrun.
  destruct (os_call E (trace w) (EvFindProcess (ci_Pid c))) as [e1|].
  { injection Hrun as <- <-. repeat split; try discriminate.
    - intros [H _]. discriminate H.
    - eauto.
    - exists [EvFindProcess (ci_Pid c)]. split; [reflexivity|]. split.
      + intros [H|[]]. discriminate H.
      + intros e [<-|[]]. reflexivity. }
  destruct (os_call E (trace w ++ [EvFindProcess (ci_Pid c)]) (EvSignal (ci_Pid c) SIGTERM))
    as [e2|].
  2:{ injection Hrun as <- <-. repeat split; auto; try congruence.
      exists [EvFindProcess (ci_Pid c); EvSignal (ci_Pid c) SIGTERM].
      split; [reflexivity|]. split.
      - intros [H|[H|[]]]; discriminate H.
      - intros e [<-|[<-|[]]]; reflexivity. }
  destruct (os_call E (trace w ++ [EvFindProcess (ci_Pid c); EvSignal (ci_Pid c) SIGTERM;
                                   EvLog (LogSigtermFailed (OsError e2))])
              (EvKill (ci_Pid c))) as [e3|] eqn:Hkill;
    injection Hrun as <- <-.
  - repeat split; try discriminate; eauto.
    + intros (_ & [H|(e & [= <-] & H)]); [discriminate H|]. rewrite Hkill in H. discriminate H.
    + eexists. split; [reflexivity|]. split; [eauto|].
      intros e [<-|[<-|[<-|[<-|[]]]]]; reflexivity.
  - repeat split; auto; try congruence.
    + right. exists e2. auto.
    + eexists. split; [reflexivity|]. split; [eauto|].
      intros e [<-|[<-|[<-|[<-|[]]]]]; reflexivity.
Qed.

(** X4.  Wait fails with NotFound on an absent id and returns success
    at once on a Stopped record; in both cases nothing is asked of the
    operating system.  When the lookup or the wait itself fails, the
    record is left Running.  Wait never sends a signal. *)
Theorem wait_leaves_running_on_failure (id : string) (w w' : World)
    (r : Outcome (option Error)) :
  WaitContainer E id w = (r, w') ->
  (registry w !! id = None -> r = Done (Some (NotFound id)) /\ w' = w) /\
  (forall c, registry w !! id = Some c -> ci_Status c = StatusStopped ->
             r = Done None /\ w' = w) /\
  (forall err, r = Done (Some err) -> registry w' = registry w) /\
  exists evs, trace w' = trace w ++ evs /\ forall e, In e evs -> is_signal e = false.
Proof.
  intros Hrun. destruct (registry w !! id) as [c|] eqn:Hl.
  2:{ rewrite WaitContainer_absent in Hrun by assumption. injection Hrun as <- <-.
      repeat split; try discriminate; auto.
      exists []. rewrite app_nil_r. split; [reflexivity|]. intros e []. }
  destruct (ci_Status c) eqn:Hs.
  2:{ rewrite (WaitContainer_stopped id c) in Hrun by assumption. injection Hrun as <- <-.
      repeat split; try discriminate; auto.
      exists []. rewrite app_nil_r. split; [reflexivity|]. intros e []. }
  rewrite (WaitContainer_run id c w Hl Hs) in Hrun. cbv zeta in Hrun.
  split; [discriminate|]. split; [intros c' [= <-]; congruence|].
  repeat match type of Hrun with
         | context [match ?x with _ => _ end] => destruct x
         end; injection Hrun as <- <-;
    (split; [first [discriminate | reflexivity | intros err _; reflexivity]|]);
    (eexists; split; [reflexivity|]);
    intros ev Hin; cbn in Hin; repeat (destruct Hin as [<-|Hin]; [reflexivity|]);
    destruct Hin.
Qed.

Lemma run_op_lookup (o : Op) (id : string) (w w' : World) (r : Outcome (option Error)) :
  run_op E o w = (r, w') ->
  registry w' !! id = registry w !! id \/
  registry w' !! id = None \/
  exists c, registry w !! id = Some c /\ ci_Status c = StatusRunning /\
            registry w' !! id = Some (with_Status StatusStopped c).
Proof.
  intros Hrun. destruct o as [i|i|i]; cbn [run_op] in Hrun.
  - destruct (StopContainer_registry i w w' r Hrun) as (_ & [->|(c & Hl & Hs & _ & ->)]);
      [auto|]. destruct (decide (i = id)) as [->|Hne].
    + right; right. exists c. now rewrite lookup_insert_eq.
    + left. now apply lookup_insert_ne.
  - destruct (WaitContainer_registry i w w' r Hrun) as [->|(c & Hl & Hs & _ & ->)];
      [auto|]. destruct (decide (i = id)) as [->|Hne].
    + right; right. exists c. now rewrite lookup_insert_eq.
    + left. now apply lookup_insert_ne.
  - destruct (RemoveContainer_registry i w w' r Hrun) as (_ & [(_ & ->)|(_ & _ & ->)]);
      [auto|]. destruct (decide (i = id)) as [->|Hne].
    + right; left. apply lookup_delete_eq.
    + left. now apply lookup_delete_ne.
Qed.

(** X5.  There is no way back: under any sequence of Stop, Wait and
    Remove requests, on any ids, a record that reads Stopped stays
    exactly as it is until it is removed, and an id that is not in the
    registry stays out of it. *)
Theorem stopped_is_final (ops : list Op) :
  forall w r w',
    run_ops E ops w = (r, w') ->
    (forall id c, registry w !! id = Some c -> ci_Status c = StatusStopped ->
                  registry w' !! id = Some c \/ registry w' !! id = None) /\
    (forall id, registry w !! id = None -> registry w' !! id = None).
Proof.
  induction ops as [|o rest IH]; intros w r w' Hrun.
  { cbn in Hrun. injection Hrun as <- <-. auto. }
  cbn [run_ops] in Hrun. rewrite bind_eq in Hrun.
  destruct (run_op E o w) as [r1 w1] eqn:Hop.
  assert (Hrest : exists r2, (forall id c, registry w1 !! id = Some c ->
                                ci_Status c = StatusStopped ->
                                registry w' !! id = Some c \/ registry w' !! id = None) /\
                             (forall id, registry w1 !! id = None -> registry w' !! id = None)
                             /\ r2 = r).
  { destruct r1 as [e|].
    - rewrite bind_eq in Hrun. destruct (run_ops E rest w1) as [r2 w2] eqn:Hr2.
      destruct (IH w1 r2 w2 Hr2) as [H1 H2].
      destruct r2; rewrite ?ret_eq in Hrun; injection Hrun as <- <-; eauto.
    - injection Hrun as <- <-. exists Panic. auto. }
  destruct Hrest as (_ & Hst & Habs & _). split.
  - intros id c Hl Hs.
    destruct (run_op_lookup o id w w1 r1 Hop) as [Heq|[Hnone|(c' & Hl' & Hs' & _)]].
    + apply Hst; congruence.
    + right. now apply Habs.
    + congruence.
  - intros id Hl.
    destruct (run_op_lookup o id w w1 r1 Hop) as [Heq|[Hnone|(c' & Hl' & _)]].
    + apply Habs. congruence.
    + now apply Habs.
    + congruence.
Qed.

(** X6.  Creating a container under a fresh id and then removing it
    gives back the registry one started from. *)
Theorem create_then_remove_restores (config : Config) (w w1 w2 : World) (id : string) :
  registry w !! new_id E w = None ->
  NewContainer ul E config w = (Done (Ok id), w1) ->
  RemoveContainer E id w1 = (Done None, w2) ->
  id = new_id E w /\ registry w2 = registry w.
Proof.
  intros Hfresh Hnew Hrm.
  destruct (NewContainer_Ok config w w1 id Hnew) as (-> & rec & Hreg & _).
  split; [reflexivity|].
  rewrite (RemoveContainer_ok E _ w1 w2 Hrm), Hreg. now apply delete_insert_id.
Qed.

(** X7.  List returns every record of the registry once, touches
    nothing and never fails. *)
Theorem ListContainers_snapshot (w : World) :
  exists l,
    ListContainers w = (Done (Ok l), w) /\
    (forall c, In c l <-> exists id, registry w !! id = Some c) /\
    length l = size (registry w) /\
    (wf_registry (registry w) -> NoDup (map ci_ID l)).
Proof.
  exists (map snd (map_to_list (registry w))). split; [reflexivity|]. split; [|split].
  - intros c. rewrite in_map_iff. split.
    + intros ([id c'] & <- & Hin).
      apply list_elem_of_In, elem_of_map_to_list in Hin. eauto.
    + intros (id & Hl). exists (id, c). split; [reflexivity|].
      now apply list_elem_of_In, elem_of_map_to_list.
  - now rewrite length_map, length_map_to_list.
  - intros Hwf.
    assert (Heq : map ci_ID (map snd (map_to_list (registry w)))
                  = map fst (map_to_list (registry w))).
    { rewrite map_map. apply map_ext_in. intros [id c] Hin.
      apply list_elem_of_In, elem_of_map_to_list in Hin. cbn. now apply Hwf. }
    rewrite Heq. apply NoDup_fst_map_to_list.
Qed.

Lemma substring_take (n : nat) (s : string) :
  (n <= String.length s)%nat ->
  String.length (String.substring 0 n s) = n /\
  String.prefix (String.substring 0 n s) s = true.
Proof.
  revert s. induction n as [|n IH]; intros s Hlen.
  - destruct s; cbn; auto.
  - destruct s as [|a s]; cbn in Hlen; [lia|].
    destruct (IH s ltac:(lia)) as [H1 H2]. cbn. rewrite H1, H2.
    destruct (Ascii.ascii_dec a a); [auto|contradiction].
Qed.

(** X8.  Create with no name never meets DuplicateName; when it
    succeeds, the record (and the configuration it keeps) bears the
    first twelve bytes of the new id as its name. *)
Theorem default_name_is_id_prefix (config : Config) (w w' : World)
    (r : Outcome (Res string)) :
  cfg_Name config = "" ->
  NewContainer ul E config w = (r, w') ->
  (forall n, r <> Done (Err (DuplicateName n))) /\
  (forall id, r = Done (Ok id) ->
     exists c, registry w' !! id = Some c /\
               ci_Name c = String.substring 0 12 id /\
               cfg_Name (ci_Config c) = ci_Name c /\
               String.length (ci_Name c) = 12%nat /\
               String.prefix (ci_Name c) id = true).
Proof.
  intros Hname Hrun. split.
  - intros n ->. assert (Hc : name_collides (registry w) config).
    { apply (NewContainer_duplicate_iff ul E). rewrite Hrun. eauto. }
    destruct Hc as [Hne _]. contradiction.
  - intros id ->.
    destruct (NewContainer_Ok config w w' id Hrun) as (-> & rec & -> & _ & _ & Hn & Hc & _).
    exists rec. rewrite lookup_insert_eq. split; [reflexivity|].
    unfold effective_config in Hn, Hc. rewrite Hname in Hn, Hc. cbn in Hn, Hc.
    rewrite Hc. cbn [with_Name cfg_Name]. rewrite Hn.
    destruct (substring_take 12 (new_id E w)) as [H1 H2];
      [rewrite new_id_length; lia|]. auto.
Qed.

Lemma unique_names_insert (reg : gmap string ContainerInfo) (id : string)
    (rec : ContainerInfo) :
  unique_names reg ->
  (forall id' c', id' <> id -> reg !! id' = Some c' -> ci_Name c' <> ci_Name rec) ->
  unique_names (<[id := rec]> reg).
Proof.
  intros Hu Hfree id1 c1 id2 c2 H1 H2 Hn.
  apply lookup_insert_Some in H1 as [[<- <-]|[Hne1 H1]];
    apply lookup_insert_Some in H2 as [[<- <-]|[Hne2 H2]].
  - reflexivity.
  - exfalso. eapply Hfree; [|exact H2|]; [congruence|congruence].
  - exfalso. eapply Hfree; [|exact H1|]; [congruence|congruence].
  - eapply Hu; eassumption.
Qed.

Lemma unique_names_delete (reg : gmap string ContainerInfo) (id : string) :
  unique_names reg -> unique_names (delete id reg).
Proof.
  intros Hu id1 c1 id2 c2 H1 H2 Hn.
  apply lookup_delete_Some in H1 as [_ H1]. apply lookup_delete_Some in H2 as [_ H2].
  eapply Hu; eassumption.
Qed.

Lemma unique_names_status (reg : gmap string ContainerInfo) (id : string)
    (c : ContainerInfo) (st : Status) :
  unique_names reg -> reg !! id = Some c ->
  unique_names (<[id := with_Status st c]> reg).
Proof.
  intros Hu Hl. apply unique_names_insert; [assumption|].
  intros id' c' Hne Hl' Hn. apply Hne. eapply Hu; [exact Hl'|exact Hl|exact Hn].
Qed.

(** X9.  When no two records bear the same name, that stays so under
    Stop, Wait and Remove, and under every Create that asks for a name
    of its own.  (A Create with no name takes its default name
    unchecked.) *)
Theorem unique_names_preserved (w : World) :
  unique_names (registry w) ->
  (forall config r w',
      cfg_Name config <> "" -> NewContainer ul E config w = (r, w') ->
      unique_names (registry w')) /\
  (forall o r w', run_op E o w = (r, w') -> unique_names (registry w')).
Proof.
  intros Hu. split.
  - intros config r w' Hname Hrun.
    destruct (NewContainer_registry config w w' r Hrun)
      as (_ & [(_ & ->)|(_ & rec & -> & _ & _ & Hn & _ & Hfree)]); [assumption|].
    rewrite (effective_config_named _ _ Hname) in Hn.
    apply unique_names_insert; [assumption|].
    intros id' c' _ Hl Heq. apply Hfree. split; [assumption|].
    exists id', c'. split; [assumption|congruence].
  - intros o r w' Hrun. destruct o as [id|id|id]; cbn [run_op] in Hrun.
    + destruct (StopContainer_registry id w w' r Hrun) as (_ & [->|(c & Hl & _ & _ & ->)]);
        [assumption|]. now apply unique_names_status.
    + destruct (WaitContainer_registry id w w' r Hrun) as [->|(c & Hl & _ & _ & ->)];
        [assumption|]. now apply unique_names_status.
    + destruct (RemoveContainer_registry id w w' r Hrun) as (_ & [(_ & ->)|(_ & _ & ->)]);
        [assumption|]. now apply unique_names_delete.
Qed.

End Registry.

(** ** The handoff from the orchestrator to the init process *)

Lemma rev_string_rev_string (s acc1 acc2 : string) :
  rev_string acc2 (rev_string acc1 s) = rev_string (s +:+ acc2) acc1.
Proof.
  revert acc1. induction s as [|c s IH]; intros acc1; [reflexivity|].
  cbn [rev_string]. now rewrite IH.
Qed.

Lemma reverse_rev_string (s : string) : reverse (rev_string "" s) = s.
Proof.
  unfold reverse. rewrite rev_string_rev_string. cbn [rev_string]. apply append_empty_r.
Qed.

Lemma split_byte_piece (sep : ascii) (s : string) :
  forall cur t, has_byte sep s = false ->
    split_byte sep cur (s +:+ t) = split_byte sep (rev_string cur s) t.
Proof.
  induction s as [|c s IH]; intros cur t Hs; [reflexivity|].
  cbn [has_byte] in Hs. apply orb_false_iff in Hs as [Hc Hs].
  change (String c s +:+ t) with (String c (s +:+ t)).
  cbn [split_byte rev_string]. rewrite Hc. now apply IH.
Qed.

Lemma split_byte_length (sep : ascii) (s : string) :
  forall cur, length (split_byte sep cur s) = S (count_byte sep s).
Proof.
  induction s as [|c s IH]; intros cur; [reflexivity|].
  cbn [split_byte count_byte]. destruct (Ascii.eqb c sep); cbn; now rewrite IH.
Qed.

Lemma count_byte_app (sep : ascii) (s t : string) :
  count_byte sep (s +:+ t) = (count_byte sep s + count_byte sep t)%nat.
Proof.
  induction s as [|c s IH]; [reflexivity|].
  change (String c s +:+ t) with (String c (s +:+ t)). cbn [count_byte].
  rewrite IH. lia.
Qed.

(** Joining by a separator and splitting at it. *)
Lemma Split_Join (sep : ascii) (l : list string) :
  l <> [] -> Forall (fun s => has_byte sep s = false) l ->
  Split (Join l (String sep "")) sep = l.
Proof.
  intros Hne Hall. unfold Split. induction l as [|x l IH]; [contradiction|].
  apply Forall_cons in Hall as [Hx Hall]. destruct l as [|y l].
  - cbn [Join]. rewrite <- (append_empty_r x) at 1.
    rewrite split_byte_piece by assumption. cbn [split_byte].
    now rewrite reverse_rev_string.
  - change (Join (x :: y :: l) (String sep ""))
      with (x +:+ String sep (Join (y :: l) (String sep ""))).
    rewrite split_byte_piece by assumption. cbn [split_byte].
    rewrite Ascii.eqb_refl, reverse_rev_string. f_equal. now apply IH.
Qed.

Lemma Split_Join_length (sep : ascii) (l : list string) :
  l <> [] ->
  length (Split (Join l (String sep "")) sep)
  = (length l + list_sum (map (count_byte sep) l))%nat.
Proof.
  intros Hne. unfold Split. rewrite split_byte_length.
  induction l as [|x l IH]; [contradiction|]. destruct l as [|y l].
  - cbn. lia.
  - change (Join (x :: y :: l) (String sep ""))
      with (x +:+ String sep (Join (y :: l) (String sep ""))).
    rewrite count_byte_app. cbn [count_byte]. rewrite Ascii.eqb_refl.
    specialize (IH ltac:(discriminate)). cbn [length map list_sum fold_right] in *. lia.
Qed.

Section Handoff.

Variable E : Env.

Lemma startContainer_eq (container : ContainerInfo) (rootfs : string) (w : World) :
  startContainer E container rootfs w =
  match os_start E (trace w) (start_request container rootfs) with
  | inl errno => (Done (Err (OsError errno)), extend [start_request container rootfs] w)
  | inr pid =>
      (Done (Ok pid),
       extend [start_request container rootfs; EvLog (LogProcessStarted pid)] w)
  end.
Proof.
  unfold startContainer. cbv zeta. rewrite bind_eq. cbn [cmd_Start].
  change (EvStart _ _ _ _ _) with (start_request container rootfs).
  destruct (os_start E (trace w) (start_request container rootfs)) as [errno|pid].
  - reflexivity.
  - unfold bind, Printf, ret, record, extend. cbn [registry environ trace].
    now rewrite <- app_assoc.
Qed.

(** X10.  What the orchestrator writes into the environment of the
    process it starts is what the init process reads back: the id, the
    name, the joined command string and the root filesystem path, each
    under its variable, whatever bytes they contain. *)
Theorem handoff_env_round_trip (container : ContainerInfo) (rootfs : string) (w : World) :
  (exists rest,
      trace (snd (startContainer E container rootfs w))
      = trace w ++ start_request container rootfs :: rest) /\
  LookupEnv "CONTAINER_ID" (handoff_env container rootfs) = Some (ci_ID container) /\
  LookupEnv "CONTAINER_NAME" (handoff_env container rootfs) = Some (ci_Name container) /\
  LookupEnv "CONTAINER_CMD" (handoff_env container rootfs)
  = Some (Join (ci_Command container) " ") /\
  LookupEnv "CONTAINER_ROOTFS" (handoff_env container rootfs) = Some rootfs.
Proof.
  split; [|repeat split; reflexivity].
  rewrite startContainer_eq.
  destruct (os_start E (trace w) (start_request container rootfs)) as [errno|pid].
  - exists []. reflexivity.
  - exists [EvLog (LogProcessStarted pid)]. reflexivity.
Qed.

End Handoff.

(** X11.  The command vector is handed over as one string joined by
    spaces and split again at spaces.  A non-empty vector whose
    arguments contain no space comes back as it was; in general the
    init process sees one more argument for every space inside an
    argument. *)
Theorem command_survives_handoff (command : list string) :
  command <> [] ->
  (Forall (fun arg => has_byte " " arg = false) command ->
   Split (Join command " ") " " = command) /\
  length (Split (Join command " ") " ")
  = (length command + list_sum (map (count_byte " ") command))%nat.
Proof.
  intros Hne. split.
  - now apply Split_Join.
  - now apply Split_Join_length.
Qed.

(** ** Scripts of requests *)

Section Scripts.

Variable E : Env.

Lemma run_checked_accepted (steps : list (Event * (Error -> Error)))
    (body : M (option Error)) :
  forall w,
    all_accepted E (trace w) (map fst steps) = true ->
    run_checked E steps body w = body (extend (map fst steps) w).
Proof.
  induction steps as [|[ev wrap] rest IH]; intros w Hall.
  - cbn. now rewrite extend_nil.
  - cbn [map fst all_accepted] in Hall. cbn [run_checked map fst]. unfold check.
    rewrite bind_eq, call_eq.
    destruct (os_call E (trace w) ev) as [errno|]; [discriminate|].
    rewrite (IH (record ev w) Hall). f_equal.
    unfold record, extend. cbn [registry environ trace]. now rewrite <- app_assoc.
Qed.

Lemma run_checked_refused (steps : list (Event * (Error -> Error)))
    (body : M (option Error)) :
  forall w,
    all_accepted E (trace w) (map fst steps) = false ->
    exists pre ev wrap errno post,
      steps = pre ++ (ev, wrap) :: post /\
      all_accepted E (trace w) (map fst pre) = true /\
      os_call E (trace w ++ map fst pre) ev = Some errno /\
      run_checked E steps body w
      = (Done (Some (wrap (OsError errno))), extend (map fst pre ++ [ev]) w).
Proof.
  induction steps as [|[ev wrap] rest IH]; intros w Hall; [discriminate|].
  cbn [map fst all_accepted] in Hall. cbn [run_checked]. unfold check.
  rewrite bind_eq, call_eq.
  destruct (os_call E (trace w) ev) as [errno|] eqn:Hev.
  - exists [], ev, wrap, errno, rest. cbn. rewrite app_nil_r. auto.
  - destruct (IH (record ev w) Hall) as (pre & ev' & wrap' & errno & post & -> & Hpre & Hev' & Hrun).
    exists ((ev, wrap) :: pre), ev', wrap', errno, post.
    split; [reflexivity|]. split; [cbn; now rewrite Hev|].
    cbn [record trace] in Hev'. split.
    + cbn [map fst]. now rewrite <- app_assoc in Hev'.
    + rewrite Hrun. f_equal. unfold record, extend. cbn [registry environ trace map fst].
      now rewrite <- app_assoc.
Qed.

(** An error of a script that is rendered once more by the caller. *)
Lemma run_checked_rewrap (steps : list (Event * (Error -> Error)))
    (body : M (option Error)) (W : Error -> Error) (k : M (option Error)) (w : World) :
  (m <- run_checked E steps body ;;
   match m with
   | Some err => ret (Some (W err))
   | None => k
   end) w
  = run_checked E (map (fun s => (fst s, fun e => W (snd s e))) steps)
      (m <- body ;;
       match m with
       | Some err => ret (Some (W err))
       | None => k
       end) w.
Proof.
  revert w. induction steps as [|[ev wrap] rest IH]; intros w; [reflexivity|].
  cbn [run_checked map fst snd]. unfold check. rewrite !bind_eq, call_eq.
  destruct (os_call E (trace w) ev) as [errno|].
  - reflexivity.
  - rewrite <- IH. now rewrite bind_eq.
Qed.

Lemma check_ext (r : M (option Errno)) (wrap : Error -> Error)
    (b1 b2 : M (option Error)) :
  (forall w, b1 w = b2 w) -> forall w, check r wrap b1 w = check r wrap b2 w.
Proof.
  intros Hb w. unfold check. rewrite !bind_eq.
  destruct (r w) as [[[errno|]|] w1]; auto.
Qed.

Lemma run_checked_ext (steps : list (Event * (Error -> Error)))
    (b1 b2 : M (option Error)) :
  (forall w, b1 w = b2 w) ->
  forall w, run_checked E steps b1 w = run_checked E steps b2 w.
Proof.
  intros Hb. induction steps as [|[ev wrap] rest IH]; intros w; [apply Hb|].
  cbn [run_checked]. now apply check_ext.
Qed.

End Scripts.

(** ** The init process as a script *)

Section InitScript.

Variable E : Env.

Lemma setupContainerMounts_script (rootfs : string) :
  setupContainerMounts E rootfs
  = run_checked E (mount_steps rootfs) (mknod_then E rootfs (ret None) same).
Proof. reflexivity. Qed.

Lemma mounts_rewrap (rootfs : string) (k : M (option Error)) (w : World) :
  (m <- setupContainerMounts E rootfs ;;
   match m with
   | Some err => ret (Some (MountsSetupError err))
   | None => k
   end) w
  = run_checked E (map (fun s => (fst s, fun e => MountsSetupError (snd s e)))
                       (mount_steps rootfs))
      (mknod_then E rootfs k MountsSetupError) w.
Proof.
  rewrite setupContainerMounts_script, run_checked_rewrap.
  apply run_checked_ext. clear w. intros w.
  unfold mknod_then. rewrite !bind_eq.
  destruct (call E (init_mknod rootfs) w) as [[[errno|]|] w1]; try reflexivity.
  destruct (negb (IsExist errno)); reflexivity.
Qed.

Lemma InitContainer_script (w : World) :
  let rootfs := default "" (LookupEnv "CONTAINER_ROOTFS" (environ w)) in
  let cmdString := default "" (LookupEnv "CONTAINER_CMD" (environ w)) in
  let containerName := default "" (LookupEnv "CONTAINER_NAME" (environ w)) in
  InitContainer E w =
  if (rootfs =? "") || (cmdString =? "")
  then (Done (InitFailed MissingConfiguration), w)
  else
    match run_checked E (init_mount_steps containerName rootfs)
            (mknod_then E rootfs (init_exec E rootfs cmdString) MountsSetupError)
            (record (EvLog (LogInit containerName rootfs)) w) with
    | (Done r, w') => (Done (lift r), w')
    | (Panic, w') => (Panic, w')
    end.
Proof.
  cbv zeta. rewrite InitContainer_eq. cbv zeta.
  destruct ((default "" (LookupEnv "CONTAINER_ROOTFS" (environ w)) =? "")
            || (default "" (LookupEnv "CONTAINER_CMD" (environ w)) =? ""));
    [reflexivity|].
  match goal with |- match ?a with _ => _ end = match ?b with _ => _ end =>
    assert (Heq : a = b); [|now rewrite Heq] end.
  unfold init_mount_steps. cbn [run_checked]. unfold setHostname.
  apply check_ext. intros w2. apply mounts_rewrap.
Qed.

Lemma all_accepted_accepting (h evs : list Event) :
  accepting E -> all_accepted E h evs = true.
Proof.
  intros [Hcall _]. revert h. induction evs as [|ev rest IH]; intros h; [reflexivity|].
  cbn [all_accepted]. now rewrite Hcall.
Qed.

Lemma no_chroot_in_mounts (name rootfs p : string) :
  ~ In (EvChroot p) (map fst (init_mount_steps name rootfs)).
Proof. cbn. intuition discriminate. Qed.

Lemma io_init_exec (rootfs cmdString : string) : io_only (init_exec E rootfs cmdString).
Proof.
  unfold init_exec. apply io_check; [apply io_call|]. apply io_check; [apply io_call|].
  destruct (Split cmdString " ") as [|cmd0 rest]; [apply io_ret|].
  apply io_bind.
  { intros w. unfold LookPath. eexists _, [_]. reflexivity. }
  intros [errno|cmdPath]; [apply io_ret|].
  apply io_bind; [apply io_Printf|]. intros _. apply io_bind.
  { intros w. exists (environ w), []. unfold Environ. now rewrite extend_nil. }
  intros env. apply io_check; [apply io_call|apply io_ret].
Qed.

(** The change of root is the first request of [init_exec]. *)
Lemma init_exec_chroot_first (rootfs cmdString : string) (w : World) :
  exists a rest,
    init_exec E rootfs cmdString w = (Done a, extend (EvChroot rootfs :: rest) w).
Proof.
  unfold init_exec, check at 1. rewrite bind_eq, call_eq.
  destruct (os_call E (trace w) (EvChroot rootfs)) as [errno|].
  - eexists _, []. reflexivity.
  - match goal with |- context [?m (record (EvChroot rootfs) w)] =>
      assert (Hio : io_only m) end.
    { apply io_check; [apply io_call|].
      destruct (Split cmdString " ") as [|cmd0 rest]; [apply io_ret|].
      apply io_bind.
      { intros w0. unfold LookPath. eexists _, [_]. reflexivity. }
      intros [errno|cmdPath]; [apply io_ret|].
      apply io_bind; [apply io_Printf|]. intros _. apply io_bind.
      { intros w0. exists (environ w0), []. unfold Environ. now rewrite extend_nil. }
      intros env. apply io_check; [apply io_call|apply io_ret]. }
    destruct (Hio (record (EvChroot rootfs) w)) as (a & evs & ->).
    exists a, evs. f_equal. unfold record, extend. cbn [registry environ trace].
    now rewrite <- app_assoc.
Qed.

(** X12.  Mount before chroot: whenever the init process asks for a
    change of root, it has by then set the hostname, made the mount
    points and mounted /proc, /sys, /dev and /dev/pts, all accepted by
    the kernel, and made the device node (or found it there); the
    change of root it asks for next is to the root of its
    configuration. *)
Theorem chroot_after_mounts (w w' : World) (r : Outcome InitResult) :
  InitContainer E w = (r, w') ->
  let rootfs := default "" (LookupEnv "CONTAINER_ROOTFS" (environ w)) in
  let name := default "" (LookupEnv "CONTAINER_NAME" (environ w)) in
  let steps := map fst (init_mount_steps name rootfs) in
  let start := EvLog (LogInit name rootfs) in
  exists evs,
    trace w' = trace w ++ evs /\
    forall p, In (EvChroot p) evs ->
      all_accepted E (trace w ++ [start]) steps = true /\
      (forall errno,
          os_call E ((trace w ++ [start]) ++ steps) (init_mknod rootfs) = Some errno ->
          IsExist errno = true) /\
      exists rest, evs = start :: steps ++ init_mknod rootfs :: EvChroot rootfs :: rest.
Proof.
  intros Hrun rootfs name steps start. rewrite InitContainer_script in Hrun.
  cbv zeta in Hrun. fold rootfs name in Hrun.
  destruct ((rootfs =? "") || (default "" (LookupEnv "CONTAINER_CMD" (environ w)) =? "")).
  { injection Hrun as <- <-. exists []. rewrite app_nil_r. split; [reflexivity|].
    intros p []. }
  set (cmdString := default "" (LookupEnv "CONTAINER_CMD" (environ w))) in *.
  fold start in Hrun. set (w1 := record start w) in *.
  change (trace w ++ [start]) with (trace w1).
  destruct (all_accepted E (trace w1) steps) eqn:Hall.
  2:{ destruct (run_checked_refused E (init_mount_steps name rootfs)
                  (mknod_then E rootfs (init_exec E rootfs cmdString) MountsSetupError)
                  w1 Hall) as (pre & ev & wrap & errno & post & Hsteps & _ & _ & Heq).
      rewrite Heq in Hrun. injection Hrun as <- <-.
      exists (start :: map fst pre ++ [ev]). split.
      { unfold w1, record, extend. cbn [trace]. now rewrite <- app_assoc. }
      intros p [Hp|Hp]; [discriminate Hp|]. exfalso.
      apply (no_chroot_in_mounts name rootfs p). rewrite Hsteps, map_app. cbn [map fst].
      apply in_app_iff. apply in_app_iff in Hp as [Hp|[Hp|[]]]; [now left|].
      right. now left. }
  rewrite (run_checked_accepted E _ _ w1 Hall) in Hrun. fold steps in Hrun.
  unfold mknod_then in Hrun. rewrite bind_eq, call_eq in Hrun.
  cbn [extend trace] in Hrun.
  set (w3 := record (init_mknod rootfs) (extend steps w1)) in *.
  assert (Hgo : (let (o, w4) := init_exec E rootfs cmdString w3 in
                 match o with Done r0 => (Done (lift r0), w4) | Panic => (Panic, w4) end)
                = (r, w') ->
                exists rest, trace w' = trace w ++ start :: steps ++ init_mknod rootfs
                                          :: EvChroot rootfs :: rest).
  { intros Heq.
    destruct (init_exec_chroot_first rootfs cmdString w3) as (a & rest & Hex).
    rewrite Hex in Heq. injection Heq as <- <-. exists rest.
    unfold w3, w1. cbn [extend record trace]. rewrite <- !app_assoc. reflexivity. }
  destruct (os_call E (trace w1 ++ steps) (init_mknod rootfs)) as [errno|] eqn:Hmk.
  - destruct (IsExist errno) eqn:Hex; cbn [negb] in Hrun.
    + destruct (Hgo Hrun) as (rest & Htr).
      eexists. split; [exact Htr|]. intros p _. split; [reflexivity|].
      split; [|eauto]. intros errno' [= <-]. exact Hex.
    + injection Hrun as <- <-. exists (start :: steps ++ [init_mknod rootfs]). split.
      { unfold w3, w1. cbn [extend record trace]. now rewrite <- !app_assoc. }
      intros p [Hp|Hp]; [discriminate Hp|]. exfalso.
      apply in_app_iff in Hp as [Hp|[Hp|[]]]; [|discriminate Hp].
      now apply no_chroot_in_mounts in Hp.
  - destruct (Hgo Hrun) as (rest & Htr).
    eexists. split; [exact Htr|]. intros p _. split; [reflexivity|].
    split; [|eauto]. intros errno' [=].
Qed.

(** X13.  The mounts of the init process succeed exactly when every
    mount point and mount is accepted and the device node is made or
    is refused only because it exists; any other refusal of the node
    fails them. *)
Theorem mounts_tolerate_existing_node (rootfs : string) (w : World) :
  let steps := map fst (mount_steps rootfs) in
  fst (setupContainerMounts E rootfs w) = Done None <->
  all_accepted E (trace w) steps = true /\
  match os_call E (trace w ++ steps) (init_mknod rootfs) with
  | Some errno => IsExist errno = true
  | None => True
  end.
Proof.
  cbv zeta. rewrite setupContainerMounts_script.
  destruct (all_accepted E (trace w) (map fst (mount_steps rootfs))) eqn:Hall.
  - rewrite (run_checked_accepted E _ _ w Hall). unfold mknod_then.
    rewrite bind_eq, call_eq. cbn [extend trace].
    destruct (os_call E (trace w ++ map fst (mount_steps rootfs)) (init_mknod rootfs))
      as [errno|].
    + destruct (IsExist errno); cbn; split; auto; try discriminate.
      intros [_ H]. discriminate H.
    + cbn. split; auto.
  - destruct (run_checked_refused E (mount_steps rootfs)
                (mknod_then E rootfs (ret None) same) w Hall)
      as (pre & ev & wrap & errno & post & _ & _ & _ & ->).
    cbn. split; [discriminate|]. intros [H _]. discriminate H.
Qed.

Lemma handoff_values (container : ContainerInfo) (rootfs : string) :
  default "" (LookupEnv "CONTAINER_ROOTFS" (handoff_env container rootfs)) = rootfs /\
  default "" (LookupEnv "CONTAINER_CMD" (handoff_env container rootfs))
  = Join (ci_Command container) " " /\
  default "" (LookupEnv "CONTAINER_NAME" (handoff_env container rootfs))
  = ci_Name container.
Proof. repeat split; reflexivity. Qed.

(** X14.  From the orchestrator to the new image: an init process
    that runs in the environment the orchestrator hands over, with a
    command whose arguments contain no space, in a kernel that accepts
    every request, takes the name of the container as its hostname,
    mounts under and changes root to the root filesystem prepared for
    it, and replaces itself by the first word of the command, run with
    exactly the command vector and the environment handed over. *)
Theorem init_execs_handed_command (container : ContainerInfo) (rootfs : string)
    (w : World) :
  accepting E ->
  environ w = handoff_env container rootfs ->
  rootfs <> "" ->
  Join (ci_Command container) " " <> "" ->
  Forall (fun arg => has_byte " " arg = false) (ci_Command container) ->
  exists path,
    os_lookpath E (trace w ++ EvLog (LogInit (ci_Name container) rootfs)
                     :: map fst (init_mount_steps (ci_Name container) rootfs)
                     ++ [init_mknod rootfs; EvChroot rootfs; EvChdir "/"])
                (hd "" (ci_Command container)) = inr path /\
    InitContainer E w
    = (Done ImageReplaced,
       extend (EvLog (LogInit (ci_Name container) rootfs)
               :: map fst (init_mount_steps (ci_Name container) rootfs)
               ++ [init_mknod rootfs; EvChroot rootfs; EvChdir "/";
                   EvLookPath (hd "" (ci_Command container));
                   EvLog (LogExecCommand (Join (ci_Command container) " "));
                   EvExec path (ci_Command container) (handoff_env container rootfs)])
              w).
Proof.
  intros Hacc Henv Hroot Hcmd Hnosp.
  assert (Hne : ci_Command container <> []) by (intros H; rewrite H in Hcmd; now apply Hcmd).
  destruct (handoff_values container rootfs) as (Hr & Hc & Hn).
  rewrite InitContainer_script. cbv zeta. rewrite Henv, Hr, Hc, Hn.
  rewrite (proj2 (String.eqb_neq _ _) Hroot), (proj2 (String.eqb_neq _ _) Hcmd).
  cbn [orb].
  set (name := ci_Name container). set (cmd := Join (ci_Command container) " ").
  set (start := EvLog (LogInit name rootfs)).
  set (steps := map fst (init_mount_steps name rootfs)).
  rewrite run_checked_accepted by now apply all_accepted_accepting.
  fold steps. destruct Hacc as [Hcall Hlook].
  unfold mknod_then. rewrite bind_eq, call_eq, Hcall.
  unfold init_exec, check. rewrite bind_eq, call_eq, Hcall, bind_eq, call_eq, Hcall.
  unfold cmd. rewrite !(Split_Join " " _ Hne Hnosp).
  destruct (ci_Command container) as [|cmd0 args] eqn:Hcommand; [contradiction|].
  cbn [hd]. rewrite bind_eq. cbn [LookPath record extend trace].
  assert (Hh : ((((trace w ++ [start]) ++ steps) ++ [init_mknod rootfs])
                ++ [EvChroot rootfs]) ++ [EvChdir "/"]
               = trace w ++ start :: steps ++ [init_mknod rootfs; EvChroot rootfs; EvChdir "/"])
    by (rewrite <- !app_assoc; reflexivity).
  rewrite Hh.
  destruct (Hlook (trace w ++ start :: steps
                     ++ [init_mknod rootfs; EvChroot rootfs; EvChdir "/"]) cmd0)
    as [path Hpath].
  exists path. split; [exact Hpath|]. rewrite Hpath, !bind_eq.
  cbn [Printf Environ]. unfold check, bind, call, ret.
  unfold Environ. cbv beta iota. rewrite Hcall. cbv beta iota. cbn [lift].
  f_equal. unfold record, extend. cbn [registry environ trace].
  rewrite Henv. f_equal. rewrite <- !app_assoc. reflexivity.
Qed.

End InitScript.

(** ** resources/resource.go *)

Lemma prefix_append (s t : string) : String.prefix s (s +:+ t) = true.
Proof.
  induction s as [|c s IH]; [now destruct t|].
  change (String.prefix (String c s) (String c (s +:+ t)) = true).
  cbn [String.prefix]. destruct (Ascii.ascii_dec c c); [exact IH|contradiction].
Qed.

Lemma prefix_Join (dir elem : string) : String.prefix dir (filepath_Join dir elem) = true.
Proof.
  unfold filepath_Join. destruct (elem =? ""); [|destruct (String.prefix "/" elem)].
  - rewrite <- (append_empty_r dir) at 2. apply prefix_append.
  - apply prefix_append.
  - apply prefix_append.
Qed.

Lemma prefix_refl (s : string) : String.prefix s s = true.
Proof. rewrite <- (append_empty_r s) at 2. apply prefix_append. Qed.

Lemma prefix_append_same (d a b : string) :
  String.prefix (d +:+ a) (d +:+ b) = String.prefix a b.
Proof.
  induction d as [|c d IH]; [reflexivity|].
  change (String.prefix (String c (d +:+ a)) (String c (d +:+ b)) = String.prefix a b).
  cbn [String.prefix]. destruct (Ascii.ascii_dec c c); [exact IH|contradiction].
Qed.

Lemma under_refl (d : string) : under d d = true.
Proof. unfold under. now rewrite String.eqb_refl. Qed.

Lemma under_file (d name : string) :
  String.prefix "/" name = false -> name <> "" ->
  under d (filepath_Join d name) = true.
Proof.
  intros Hp Hn. unfold under, filepath_Join.
  rewrite (proj2 (String.eqb_neq _ _) Hn), Hp, prefix_append_same.
  replace (String.prefix "/" ("/" +:+ name)) with true by (now destruct name).
  apply orb_true_r.
Qed.

Section Resources.

Variable ul : string -> string.
Variable E : Env.

Lemma run_checked_app (s1 s2 : list (Event * (Error -> Error))) (body : M (option Error)) :
  run_checked E (s1 ++ s2) body = run_checked E s1 (run_checked E s2 body).
Proof.
  induction s1 as [|[ev wrap] rest IH]; [reflexivity|].
  cbn [app run_checked]. now rewrite IH.
Qed.

Lemma when_ok_script (cond : bool) (steps : list (Event * (Error -> Error)))
    (W : Error -> Error) (body : M (option Error)) (w : World) :
  when_ok cond (run_checked E steps (ret None)) W body w
  = run_checked E (if cond then rewrap W steps else []) body w.
Proof.
  unfold when_ok. destruct cond; [|reflexivity].
  unfold rewrap. rewrite run_checked_rewrap. now apply run_checked_ext.
Qed.

Lemma when_ok_ext (cond : bool) (step : M (option Error)) (W : Error -> Error)
    (b1 b2 : M (option Error)) :
  (forall w, b1 w = b2 w) ->
  forall w, when_ok cond step W b1 w = when_ok cond step W b2 w.
Proof.
  intros Hb w. unfold when_ok. destruct cond; [|apply Hb].
  rewrite !bind_eq. destruct (step w) as [[[err|]|] w1]; auto.
Qed.

Lemma setupMemoryLimit_script (cgroupName : string) (pid : Z) (memoryLimit : string)
    (bytes : Z) :
  parseMemoryLimit ul memoryLimit = Ok bytes ->
  setupMemoryLimit ul E cgroupName pid memoryLimit
  = run_checked E (memory_steps cgroupName pid bytes) (ret None).
Proof. intros H. unfold setupMemoryLimit. now rewrite H. Qed.

Lemma ApplyResourceLimits_script (pid : Z) (config : ResourceConfig) (bytes : Z)
    (w : World) :
  parsed_bytes ul config = Some bytes ->
  ApplyResourceLimits ul E pid config w
  = run_checked E (limit_steps pid config bytes) (ret None) w.
Proof.
  intros Hparse. unfold ApplyResourceLimits, limit_steps, parsed_bytes in *.
  destruct (rc_MemoryLimit config =? "") eqn:Hm.
  - destruct (rc_CpuSet config =? "") eqn:Hc.
    + destruct (Z.eqb_spec (rc_CpuShare config) 0) as [H0|H0]; cbn [andb negb app].
      * rewrite H0. reflexivity.
      * unfold when_ok at 1 2. cbn [negb].
        change (setupCpuShare E ("godocker-" +:+ Itoa pid) pid (rc_CpuShare config))
          with (run_checked E (cpushare_steps ("godocker-" +:+ Itoa pid) pid
                                 (rc_CpuShare config)) (ret None)).
        apply when_ok_script.
    + cbn [andb negb app]. unfold when_ok at 1. cbn [negb].
      change (setupCpuSet E ("godocker-" +:+ Itoa pid) pid (rc_CpuSet config))
        with (run_checked E (cpuset_steps ("godocker-" +:+ Itoa pid) pid (rc_CpuSet config))
                (ret None)).
      change (setupCpuShare E ("godocker-" +:+ Itoa pid) pid (rc_CpuShare config))
        with (run_checked E (cpushare_steps ("godocker-" +:+ Itoa pid) pid
                               (rc_CpuShare config)) (ret None)).
      rewrite run_checked_app, when_ok_script. cbn [negb].
      apply run_checked_ext. intros w0. apply when_ok_script.
  - cbn [andb negb].
    destruct (parseMemoryLimit ul (rc_MemoryLimit config)) as [b|err] eqn:Hp;
      [|discriminate]. injection Hparse as ->.
    rewrite (setupMemoryLimit_script _ _ _ _ Hp).
    change (setupCpuSet E ("godocker-" +:+ Itoa pid) pid (rc_CpuSet config))
      with (run_checked E (cpuset_steps ("godocker-" +:+ Itoa pid) pid (rc_CpuSet config))
              (ret None)).
    change (setupCpuShare E ("godocker-" +:+ Itoa pid) pid (rc_CpuShare config))
      with (run_checked E (cpushare_steps ("godocker-" +:+ Itoa pid) pid
                             (rc_CpuShare config)) (ret None)).
    rewrite !run_checked_app, when_ok_script. cbn [negb].
    apply run_checked_ext. intros w0. rewrite when_ok_script.
    apply run_checked_ext. intros w1. apply when_ok_script.
Qed.

(** X15.  The resource limiter makes its requests in a fixed order
    (memory, then core affinity, then CPU share; in each, directory,
    limit files, membership) and stops at the first one refused: what
    it has written by then stays written, nothing after it is asked
    for.  It succeeds exactly when every request is accepted. *)
Theorem resource_limits_stop_at_first_refusal (pid : Z) (config : ResourceConfig)
    (bytes : Z) (w : World) :
  parsed_bytes ul config = Some bytes ->
  let requests := map fst (limit_steps pid config bytes) in
  (all_accepted E (trace w) requests = true ->
   ApplyResourceLimits ul E pid config w = (Done None, extend requests w)) /\
  (all_accepted E (trace w) requests = false ->
   exists pre ev post errno err,
     requests = pre ++ ev :: post /\
     all_accepted E (trace w) pre = true /\
     os_call E (trace w ++ pre) ev = Some errno /\
     ApplyResourceLimits ul E pid config w = (Done (Some err), extend (pre ++ [ev]) w)).
Proof.
  intros Hparse requests. split; intros Hall;
    rewrite (ApplyResourceLimits_script pid config bytes w Hparse).
  - now rewrite run_checked_accepted.
  - destruct (run_checked_refused E (limit_steps pid config bytes) (ret None) w Hall)
      as (pre & ev & wrap & errno & post & Hsteps & Hpre & Hev & Hrun).
    exists (map fst pre), ev, (map fst post), errno, (wrap (OsError errno)).
    unfold requests. rewrite Hrun. rewrite Hsteps, map_app. cbn [map fst].
    repeat split; assumption || reflexivity.
Qed.

(** X16.  With nothing to limit (no memory limit, no core list, a CPU
    share that is not positive) the resource limiter asks for nothing
    and succeeds.  With a memory limit that does not parse it fails at
    once, before any request: no control group is made, and the core
    list and CPU share of the same configuration are not applied. *)
Theorem resource_limits_without_effect (pid : Z) (config : ResourceConfig) (w : World) :
  (rc_MemoryLimit config = "" -> rc_CpuSet config = "" -> (rc_CpuShare config <= 0)%Z ->
   ApplyResourceLimits ul E pid config w = (Done None, w)) /\
  (forall err,
      rc_MemoryLimit config <> "" ->
      parseMemoryLimit ul (rc_MemoryLimit config) = Err err ->
      ApplyResourceLimits ul E pid config w
      = (Done (Some (SetMemoryLimitFailed err)), w)).
Proof.
  split.
  - intros Hm Hc Hs.
    rewrite (ApplyResourceLimits_script pid config 0 w)
      by (unfold parsed_bytes; now rewrite Hm).
    unfold limit_steps. rewrite Hm, Hc.
    destruct (Z.ltb_spec 0 (rc_CpuShare config)); [lia|reflexivity].
  - intros err Hm Hp. unfold ApplyResourceLimits.
    rewrite (proj2 (String.eqb_neq _ _) Hm). cbn [andb negb].
    unfold when_ok at 1, setupMemoryLimit. now rewrite Hp, bind_eq.
Qed.

Lemma own_dir (pid : Z) (root : string) (e : Event) :
  In root [cgroupMemoryPath; cgroupCpusetPath; cgroupCpuPath] ->
  touches (filepath_Join root ("godocker-" +:+ Itoa pid)) e = true ->
  in_own_cgroup pid e = true.
Proof.
  intros Hroot Hp. apply existsb_exists.
  exists (filepath_Join root ("godocker-" +:+ Itoa pid)). split; [|exact Hp].
  unfold cgroup_dirs. apply in_map_iff. exists root. now split.
Qed.

Lemma limit_steps_own (pid : Z) (config : ResourceConfig) (bytes : Z) (e : Event) :
  In e (map fst (limit_steps pid config bytes)) -> in_own_cgroup pid e = true.
Proof.
  unfold limit_steps. rewrite !map_app, !in_app_iff.
  intros [H|[H|H]].
  - destruct (negb (rc_MemoryLimit config =? "")); [|destruct H].
    cbn [map fst rewrap memory_steps In] in H.
    repeat (destruct H as [<-|H]); try destruct H;
      apply (own_dir pid cgroupMemoryPath); cbn [In touches]; auto;
      first [apply under_refl | apply under_file; [reflexivity|discriminate]].
  - destruct (negb (rc_CpuSet config =? "")); [|destruct H].
    cbn [map fst rewrap cpuset_steps In] in H.
    repeat (destruct H as [<-|H]); try destruct H;
      apply (own_dir pid cgroupCpusetPath); cbn [In touches]; auto;
      first [apply under_refl | apply under_file; [reflexivity|discriminate]].
  - destruct (0 <? rc_CpuShare config)%Z; [|destruct H].
    cbn [map fst rewrap cpushare_steps In] in H.
    repeat (destruct H as [<-|H]); try destruct H;
      apply (own_dir pid cgroupCpuPath); cbn [In touches]; auto;
      first [apply under_refl | apply under_file; [reflexivity|discriminate]].
Qed.

(** The requests of the resource limiter: none at all, or some of its
    script for the parsed memory limit. *)
Lemma ApplyResourceLimits_requests (pid : Z) (config : ResourceConfig)
    (w w' : World) (r : Outcome (option Error)) :
  ApplyResourceLimits ul E pid config w = (r, w') ->
  (exists e, r = Done e) /\
  registry w' = registry w /\
  exists evs, trace w' = trace w ++ evs /\
    (evs = [] \/
     exists bytes, parsed_bytes ul config = Some bytes /\
       incl evs (map fst (limit_steps pid config bytes))).
Proof.
  intros Hrun. destruct (parsed_bytes ul config) as [bytes|] eqn:Hparse.
  - rewrite (ApplyResourceLimits_script pid config bytes w Hparse) in Hrun.
    destruct (all_accepted E (trace w) (map fst (limit_steps pid config bytes))) eqn:Hall.
    + rewrite run_checked_accepted in Hrun by assumption. injection Hrun as <- <-.
      split; [eauto|]. split; [reflexivity|]. eexists. split; [reflexivity|].
      right. exists bytes. split; [reflexivity|]. apply incl_refl.
    + destruct (run_checked_refused E (limit_steps pid config bytes) (ret None) w Hall)
        as (pre & ev & wrap & errno & post & Hsteps & _ & _ & Heq).
      rewrite Heq in Hrun. injection Hrun as <- <-.
      split; [eauto|]. split; [reflexivity|]. eexists. split; [reflexivity|].
      right. exists bytes. split; [reflexivity|].
      rewrite Hsteps, map_app. cbn [map fst]. intros e He.
      apply in_app_iff. apply in_app_iff in He as [He|[<-|[]]]; [now left|].
      right. now left.
  - unfold parsed_bytes in Hparse.
    destruct (rc_MemoryLimit config =? "") eqn:Hm; [discriminate|].
    destruct (parseMemoryLimit ul (rc_MemoryLimit config)) as [b|err] eqn:Hp;
      [discriminate|].
    unfold ApplyResourceLimits in Hrun.
    rewrite Hm in Hrun. cbn [andb negb] in Hrun.
    unfold when_ok at 1, setupMemoryLimit in Hrun. rewrite Hp, bind_eq in Hrun.
    injection Hrun as <- <-. split; [eauto|]. split; [reflexivity|].
    exists []. split; [now rewrite app_nil_r|now left].
Qed.

(** X17.  Whatever the configuration and the environment, the resource
    limiter returns (it does not panic), leaves the registry alone, and
    every request it makes creates or writes something at or below one
    of the three control-group directories named after the process
    id. *)
Theorem resource_limits_stay_in_own_cgroup (pid : Z) (config : ResourceConfig)
    (w w' : World) (r : Outcome (option Error)) :
  ApplyResourceLimits ul E pid config w = (r, w') ->
  (exists e, r = Done e) /\
  registry w' = registry w /\
  exists evs, trace w' = trace w ++ evs /\ forallb (in_own_cgroup pid) evs = true.
Proof.
  intros Hrun.
  destruct (ApplyResourceLimits_requests pid config w w' r Hrun)
    as (Hr & Hreg & evs & Htr & Hevs).
  split; [exact Hr|]. split; [exact Hreg|]. exists evs. split; [exact Htr|].
  destruct Hevs as [->|(bytes & _ & Hincl)]; [reflexivity|].
  apply forallb_forall. intros e He. eapply limit_steps_own, Hincl, He.
Qed.

Lemma parseResourceConfig_eq (memoryLimit cpuSet : string) :
  parseResourceConfig memoryLimit cpuSet
  = {| rc_MemoryLimit := memoryLimit; rc_CpuSet := cpuSet; rc_CpuShare := 0 |}.
Proof.
  unfold parseResourceConfig.
  destruct (String.eqb_spec memoryLimit "") as [->|_];
    destruct (String.eqb_spec cpuSet "") as [->|_]; reflexivity.
Qed.

(** X18.  A configuration built by the command-line parser never has a
    CPU share: the limiter then makes no request at or below the cpu
    controller's directory, whatever the two strings are, and no
    request at all when both are empty. *)
Theorem command_line_sets_no_cpu_share (memoryLimit cpuSet : string) (pid : Z)
    (w w' : World) (r : Outcome (option Error)) :
  ApplyResourceLimits ul E pid (parseResourceConfig memoryLimit cpuSet) w = (r, w') ->
  rc_CpuShare (parseResourceConfig memoryLimit cpuSet) = 0%Z /\
  exists evs,
    trace w' = trace w ++ evs /\
    forallb (fun e => negb (touches cgroupCpuPath e)) evs = true /\
    (memoryLimit = "" -> cpuSet = "" -> evs = []).
Proof.
  rewrite parseResourceConfig_eq. intros Hrun. split; [reflexivity|].
  destruct (ApplyResourceLimits_requests pid _ w w' r Hrun)
    as (_ & _ & evs & Htr & Hevs).
  exists evs. split; [exact Htr|].
  destruct Hevs as [->|(bytes & _ & Hincl)]; [split; reflexivity|].
  unfold limit_steps in Hincl. cbn [rc_MemoryLimit rc_CpuSet rc_CpuShare] in Hincl.
  change (0 <? 0)%Z with false in Hincl. rewrite app_nil_r in Hincl.
  split.
  - apply forallb_forall. intros e He. apply Hincl in He.
    rewrite map_app, in_app_iff in He. destruct He as [He|He].
    + destruct (negb (memoryLimit =? "")); [|destruct He].
      cbn [map fst rewrap memory_steps In] in He.
      repeat (destruct He as [<-|He]); try destruct He; reflexivity.
    + destruct (negb (cpuSet =? "")); [|destruct He].
      cbn [map fst rewrap cpuset_steps In] in He.
      repeat (destruct He as [<-|He]); try destruct He; reflexivity.
  - intros -> ->. cbn in Hincl. destruct evs as [|e evs]; [reflexivity|].
    destruct (Hincl e (or_introl eq_refl)).
Qed.

End Resources.

(** ** resources/resource.go: the memory-limit parser outside the
    range of exact products *)

Lemma wrap64_range (z : Z) : (- 2 ^ 63 <= wrap64 z < 2 ^ 63)%Z.
Proof.
  unfold wrap64. pose proof (Z.mod_pos_bound (z + 2 ^ 63) (2 ^ 64) eq_refl) as H.
  change (2 ^ 64)%Z with (2 * 2 ^ 63)%Z in *. lia.
Qed.

Lemma ParseUint_loop_range (d : string) :
  forall n, all_digits d = true -> (0 <= n <= maxUint64)%Z ->
    (maxUint64 < decimal_from n d)%Z ->
    ParseUint_loop d n = ErrRange maxUint64.
Proof.
  induction d as [|c d IH]; intros n Hd Hn Hmax; simpl in *; [lia|].
  apply andb_true_iff in Hd as [Hc Hd].
  rewrite (digit_of_digit c Hc). apply is_digit_range in Hc.
  rewrite maxUint64_val in *.
  change (2 ^ 64)%Z with 18446744073709551616%Z.
  change (18446744073709551615 / 10 + 1)%Z with 1844674407370955162%Z.
  destruct (Z.leb_spec 10 (byte_val c - 48)); [lia|].
  destruct (Z.leb_spec 1844674407370955162 n); [reflexivity|].
  destruct (Z.le_gt_cases (n * 10 + (byte_val c - 48)) 18446744073709551615) as [Hfit|Hover].
  - rewrite Z.mod_small by lia.
    destruct (Z.ltb_spec (n * 10 + (byte_val c - 48)) (n * 10)); [lia|].
    destruct (Z.ltb_spec 18446744073709551615 (n * 10 + (byte_val c - 48))); [lia|].
    simpl. apply IH; [assumption|lia|assumption].
  - replace ((n * 10 + (byte_val c - 48)) mod 18446744073709551616)%Z
      with (n * 10 + (byte_val c - 48) - 18446744073709551616)%Z.
    + destruct (Z.ltb_spec (n * 10 + (byte_val c - 48) - 18446744073709551616) (n * 10));
        [reflexivity|lia].
    + apply Z.mod_unique with (q := 1%Z); lia.
Qed.

Lemma ParseUint_digits (d : string) :
  nonempty d = true -> all_digits d = true ->
  ParseUint d = if (decimal_value d <=? maxUint64)%Z then NumOk (decimal_value d)
                else ErrRange maxUint64.
Proof.
  intros Hne Hd. destruct d as [|c d]; [discriminate|]. unfold ParseUint.
  destruct (Z.leb_spec (decimal_value (String c d)) maxUint64).
  - apply ParseUint_loop_digits; [assumption|lia|assumption].
  - apply ParseUint_loop_range; [assumption|rewrite maxUint64_val; lia|assumption].
Qed.

Lemma digit_not_sign (c : ascii) :
  is_digit c = true -> Ascii.eqb c "+" = false /\ Ascii.eqb c "-" = false.
Proof.
  intros Hc. apply is_digit_range in Hc.
  split; apply Ascii.eqb_neq; intros ->; vm_compute in Hc; destruct Hc as [Hc _];
    now apply Hc.
Qed.

Lemma ParseInt_too_large (d : string) :
  nonempty d = true -> all_digits d = true -> (2 ^ 63 <= decimal_value d)%Z ->
  ParseInt d = ErrRange (2 ^ 63 - 1).
Proof.
  intros Hne Hd Hge. pose proof (ParseUint_digits d Hne Hd) as Hu.
  destruct d as [|c d]; [discriminate|]. unfold ParseInt.
  assert (Hc : is_digit c = true) by (simpl in Hd; now apply andb_true_iff in Hd).
  destruct (digit_not_sign c Hc) as [-> ->]. cbn [orb negb andb]. rewrite Hu.
  destruct (decimal_value (String c d) <=? maxUint64)%Z; [|reflexivity].
  destruct (Z.leb_spec (2 ^ 63) (decimal_value (String c d))); [reflexivity|lia].
Qed.

Lemma ParseInt_negative (d : string) :
  nonempty d = true -> all_digits d = true -> (decimal_value d <= 2 ^ 63)%Z ->
  ParseInt (String "-" d) = NumOk (- decimal_value d).
Proof.
  intros Hne Hd Hle. unfold ParseInt.
  change (Ascii.eqb "-" "-") with true. change (Ascii.eqb "-" "+") with false.
  cbn [orb negb andb]. rewrite (ParseUint_digits d Hne Hd).
  destruct (Z.leb_spec (decimal_value d) maxUint64) as [_|Hover].
  - destruct (Z.ltb_spec (2 ^ 63) (decimal_value d)); [lia|reflexivity].
  - rewrite maxUint64_val in Hover. change (2 ^ 63)%Z with 9223372036854775808%Z in Hle.
    lia.
Qed.

(** The parser on a number in lower-case ASCII that ends in a digit,
    followed by a unit. *)
Lemma parseMemoryLimit_number (ul : string -> string) (n : string) (u : MemUnit) :
  isASCII n = true -> map_bytes lower_byte n = n ->
  (forall k, is_digit k = false -> HasSuffix n (String k "") = false) ->
  parseMemoryLimit ul (n +:+ unit_suffix u)
  = match ParseInt n with
    | NumOk v => Ok (wrap64 (v * unit_factor u))
    | _ => Err (InvalidMemorySpec n)
    end.
Proof.
  intros Ha Hm Hs.
  assert (Hl : ToLower ul (n +:+ unit_suffix u) = n +:+ unit_suffix u).
  { unfold ToLower. rewrite isASCII_app, Ha, map_bytes_app, Hm. destruct u; reflexivity. }
  unfold parseMemoryLimit. rewrite Hl.
  destruct u; cbn [unit_suffix].
  - rewrite append_empty_r. rewrite !Hs by reflexivity.
    destruct (ParseInt n); reflexivity.
  - rewrite (proj2 (HasSuffix_snoc n "k" "k") eq_refl), TrimSuffix_snoc.
    destruct (ParseInt n); reflexivity.
  - destruct (HasSuffix (n +:+ "m") "k") eqn:Hk;
      [apply HasSuffix_snoc in Hk; discriminate|].
    rewrite (proj2 (HasSuffix_snoc n "m" "m") eq_refl), TrimSuffix_snoc.
    destruct (ParseInt n); reflexivity.
  - destruct (HasSuffix (n +:+ "g") "k") eqn:Hk;
      [apply HasSuffix_snoc in Hk; discriminate|].
    destruct (HasSuffix (n +:+ "g") "m") eqn:Hm';
      [apply HasSuffix_snoc in Hm'; discriminate|].
    rewrite (proj2 (HasSuffix_snoc n "g" "g") eq_refl), TrimSuffix_snoc.
    destruct (ParseInt n); reflexivity.
Qed.

Lemma signed_no_unit (sign : ascii) (d : string) (k : ascii) :
  nonempty d = true -> all_digits d = true -> is_digit k = false ->
  HasSuffix (String sign d) (String k "") = false.
Proof.
  intros Hne Hd Hk. destruct (last_split d) as [->|(p & c & ->)]; [discriminate|].
  change (String sign (p +:+ String c "")) with (String sign p +:+ String c "").
  destruct (HasSuffix (String sign p +:+ String c "") (String k "")) eqn:Hs; [|reflexivity].
  apply HasSuffix_snoc in Hs. subst k.
  rewrite all_digits_app, andb_true_iff in Hd. simpl in Hd.
  rewrite andb_true_r in Hd. destruct Hd. congruence.
Qed.

(** X19.  Outside the range where the product fits, the memory-limit
    parser does not fail: the product of a number below 2^63 and its
    unit wraps around in 64 bits, so that a large positive limit can
    come out negative.  A minus sign is accepted and gives a negative
    limit.  Only a number of 2^63 or more is refused, as an invalid
    format.  Every result is a 64-bit signed integer. *)
Theorem memory_limit_wraps_around (ul : string -> string) :
  (forall s v, parseMemoryLimit ul s = Ok v -> (- 2 ^ 63 <= v < 2 ^ 63)%Z) /\
  (forall (d : string) (u : MemUnit),
      nonempty d = true -> all_digits d = true ->
      ((decimal_value d < 2 ^ 63)%Z ->
       parseMemoryLimit ul (d +:+ unit_suffix u)
       = Ok (wrap64 (decimal_value d * unit_factor u))) /\
      ((decimal_value d <= 2 ^ 63)%Z ->
       parseMemoryLimit ul (String "-" d +:+ unit_suffix u)
       = Ok (wrap64 (- decimal_value d * unit_factor u))) /\
      ((2 ^ 63 <= decimal_value d)%Z ->
       parseMemoryLimit ul (d +:+ unit_suffix u) = Err (InvalidMemorySpec d))).
Proof.
  split.
  - intros s v. rewrite parseMemoryLimit_numeric.
    destruct (ParseInt (numeric_part ul s)); [|discriminate|discriminate].
    cbv zeta. intros [= <-]. apply wrap64_range.
  - intros d u Hne Hd. destruct (digits_lower d Hd) as [Ha Hm].
    repeat split.
    + intros Hlt.
      rewrite (parseMemoryLimit_number ul d u Ha Hm)
        by (intros k Hk; now apply digits_no_unit).
      now rewrite (ParseInt_digits d Hne Hd Hlt).
    + intros Hle.
      rewrite (parseMemoryLimit_number ul (String "-" d) u).
      * now rewrite (ParseInt_negative d Hne Hd Hle).
      * cbn [isASCII]. rewrite Ha. reflexivity.
      * cbn [map_bytes]. rewrite Hm. reflexivity.
      * intros k Hk. now apply signed_no_unit.
    + intros Hge.
      rewrite (parseMemoryLimit_number ul d u Ha Hm)
        by (intros k Hk; now apply digits_no_unit).
      now rewrite (ParseInt_too_large d Hne Hd Hge).
Qed.

(** ** cmd/run.go and the image package: what the command line is
    split into *)

Lemma has_byte_app (b : ascii) (s t : string) :
  has_byte b (s +:+ t) = has_byte b s || has_byte b t.
Proof.
  induction s as [|c s IH]; [reflexivity|].
  change (String c s +:+ t) with (String c (s +:+ t)). cbn [has_byte].
  now rewrite IH, orb_assoc.
Qed.

Lemma has_byte_rev_string (b : ascii) (s : string) :
  forall acc, has_byte b (rev_string acc s) = has_byte b s || has_byte b acc.
Proof.
  induction s as [|c s IH]; intros acc; [reflexivity|].
  cbn [rev_string has_byte]. rewrite IH. cbn [has_byte].
  destruct (Ascii.eqb c b), (has_byte b s), (has_byte b acc); reflexivity.
Qed.

(** No piece of a split contains the separator. *)
Lemma split_byte_clean (sep : ascii) (s : string) :
  forall cur, has_byte sep cur = false ->
    Forall (fun p => has_byte sep p = false) (split_byte sep cur s).
Proof.
  induction s as [|c s IH]; intros cur Hcur; cbn [split_byte].
  - constructor; [|constructor]. unfold reverse.
    now rewrite has_byte_rev_string, Hcur.
  - destruct (Ascii.eqb c sep) eqn:Hc.
    + constructor; [|now apply IH]. unfold reverse.
      now rewrite has_byte_rev_string, Hcur.
    + apply IH. cbn [has_byte]. now rewrite Hc.
Qed.

Lemma Split_cons (sep : ascii) (r s : string) :
  has_byte sep r = false ->
  Split (r +:+ String sep s) sep = r :: Split s sep.
Proof.
  intros Hr. unfold Split. rewrite (split_byte_piece sep r "" _ Hr).
  cbn [split_byte]. rewrite Ascii.eqb_refl. now rewrite reverse_rev_string.
Qed.

Lemma Split_clean (sep : ascii) (s : string) :
  has_byte sep s = false -> Split s sep = [s].
Proof.
  intros Hs. rewrite <- (append_empty_r s) at 1. unfold Split.
  rewrite (split_byte_piece sep s "" "" Hs). cbn [split_byte].
  now rewrite reverse_rev_string.
Qed.

Section Volumes.

Variable Abs : string -> string.

Lemma volumes_fold (specs : list string) :
  forall acc,
    fold_left
      (fun volumeMappings v =>
         match Split v ":" with
         | [hostPart; containerPath] =>
             volumeMappings ++
             [{| vm_HostPath := Abs hostPart; vm_ContainerPath := containerPath |}]
         | _ => volumeMappings
         end) specs acc
    = acc ++ flat_map (volume_of Abs) specs.
Proof.
  induction specs as [|v specs IH]; intros acc; cbn [fold_left flat_map].
  - now rewrite app_nil_r.
  - rewrite IH. unfold volume_of at 2.
    destruct (Split v ":") as [|a [|b [|c l]]]; cbn [app];
      rewrite <- ?app_assoc; reflexivity.
Qed.

Lemma parseVolumes_Join (specs : list string) :
  Forall (fun v => has_byte "," v = false) specs ->
  parseVolumes Abs (Join specs ",") = flat_map (volume_of Abs) specs.
Proof.
  intros Hclean. unfold parseVolumes.
  destruct specs as [|x specs]; [reflexivity|].
  destruct (String.eqb_spec (Join (x :: specs) ",") "") as [Hempty|_].
  - destruct specs as [|y specs].
    + cbn [Join] in Hempty. subst x. reflexivity.
    + cbn [Join] in Hempty. destruct x; discriminate.
  - rewrite Split_Join by (discriminate || assumption).
    now rewrite volumes_fold.
Qed.

Lemma volume_of_render (m : VolumeMapping) :
  has_byte ":" (vm_HostPath m) = false -> has_byte ":" (vm_ContainerPath m) = false ->
  volume_of Abs (render_volume m)
  = [{| vm_HostPath := Abs (vm_HostPath m); vm_ContainerPath := vm_ContainerPath m |}].
Proof.
  intros Hh Hc. unfold volume_of, render_volume.
  change (vm_HostPath m +:+ ":" +:+ vm_ContainerPath m)
    with (vm_HostPath m +:+ String ":" (vm_ContainerPath m)).
  rewrite (Split_cons ":" _ _ Hh), (Split_clean ":" _ Hc). reflexivity.
Qed.

Lemma volume_of_bad (v : string) :
  count_byte ":" v <> 1%nat -> volume_of Abs v = [].
Proof.
  intros Hbad. unfold volume_of.
  pose proof (split_byte_length ":" v "") as Hlen. fold (Split v ":") in Hlen.
  destruct (Split v ":") as [|a [|b [|c l]]]; try reflexivity.
  cbn [length] in Hlen. lia.
Qed.

(** X20.  The volume parser reads back a comma-separated list of
    host:container pairs, whose paths contain neither colon nor comma,
    as those pairs in order, with the host path made absolute.  A
    piece that does not have exactly one colon, such as a pair with a
    mode suffix or a path alone, is dropped without an error: the
    result is the same as if the piece had not been given. *)
Theorem volumes_need_exactly_one_colon :
  (forall ms : list VolumeMapping,
      forallb clean_volume ms = true ->
      parseVolumes Abs (Join (map render_volume ms) ",")
      = map (fun m => {| vm_HostPath := Abs (vm_HostPath m);
                         vm_ContainerPath := vm_ContainerPath m |}) ms) /\
  (forall (pre post : list string) (bad : string),
      Forall (fun v => has_byte "," v = false) (pre ++ bad :: post) ->
      count_byte ":" bad <> 1%nat ->
      parseVolumes Abs (Join (pre ++ bad :: post) ",")
      = parseVolumes Abs (Join (pre ++ post) ",")).
Proof.
  split.
  - intros ms Hms. rewrite parseVolumes_Join.
    + induction ms as [|m ms IH]; [reflexivity|].
      cbn [forallb] in Hms. apply andb_true_iff in Hms as [Hm Hms].
      unfold clean_volume in Hm. rewrite !andb_true_iff, !negb_true_iff in Hm.
      destruct Hm as [[[Hh _] Hc] _].
      cbn [map flat_map]. rewrite (volume_of_render m Hh Hc), (IH Hms). reflexivity.
    + apply List.Forall_forall. intros v Hv. apply in_map_iff in Hv as (m & <- & Hm).
      rewrite forallb_forall in Hms. specialize (Hms m Hm).
      unfold clean_volume in Hms. rewrite !andb_true_iff, !negb_true_iff in Hms.
      destruct Hms as [[[_ Hh] _] Hc].
      unfold render_volume. rewrite !has_byte_app, Hh, Hc. reflexivity.
  - intros pre post bad Hclean Hbad.
    rewrite !parseVolumes_Join.
    + rewrite !flat_map_app. cbn [flat_map]. now rewrite (volume_of_bad bad Hbad).
    + apply Forall_app in Hclean as [Hpre Hpost]. apply Forall_app. split; [exact Hpre|].
      now apply Forall_cons in Hpost as [_ Hpost].
    + exact Hclean.
Qed.

End Volumes.

(** X21.  The image-name parser never panics and splits at the first
    colon: a name without a colon is the repository with an empty tag;
    repository:tag is read back as the two; and whatever follows a
    second colon is dropped, so that a name with a registry port is
    cut at the port.  Neither part it returns contains a colon. *)
Theorem image_name_splits_at_first_colon :
  (forall s, exists r t,
      parseImageName s = Some (r, t) /\
      has_byte ":" r = false /\ has_byte ":" t = false) /\
  (forall s, has_byte ":" s = false -> parseImageName s = Some (s, "")) /\
  (forall r t rest,
      has_byte ":" r = false -> has_byte ":" t = false ->
      parseImageName (r +:+ ":" +:+ t) = Some (r, t) /\
      parseImageName (r +:+ ":" +:+ t +:+ ":" +:+ rest) = Some (r, t)).
Proof.
  repeat split.
  - intros s. unfold parseImageName. cbv zeta.
    pose proof (split_byte_clean ":" s "" eq_refl) as Hclean. fold (Split s ":") in Hclean.
    pose proof (split_byte_length ":" s "") as Hlen. fold (Split s ":") in Hlen.
    destruct (Split s ":") as [|p0 [|p1 l]].
    + discriminate.
    + exists p0, "". cbn. apply Forall_cons in Hclean as [H0 _]. auto.
    + exists p0, p1. cbn [length Nat.eqb].
      apply Forall_cons in Hclean as [H0 Hclean].
      apply Forall_cons in Hclean as [H1 _]. auto.
  - intros s Hs. unfold parseImageName. now rewrite (Split_clean ":" s Hs).
  - unfold parseImageName. change (r +:+ ":" +:+ t) with (r +:+ String ":" t).
    rewrite (Split_cons ":" _ _ H), (Split_clean ":" _ H0). reflexivity.
  - unfold parseImageName.
    change (r +:+ ":" +:+ t +:+ ":" +:+ rest) with (r +:+ String ":" (t +:+ String ":" rest)).
    rewrite (Split_cons ":" _ _ H), (Split_cons ":" _ _ H0). reflexivity.
Qed.

(** ** network/network.go: bridge mode *)

Section Network.

Variable E : Env.

Local Ltac world :=
  unfold record, extend, with_registry; cbn [registry environ trace];
  rewrite <- ?app_assoc; cbn [app]; reflexivity.

Lemma run_staged_app {A} (s1 s2 : list (Event * (Error -> Error))) (body : M (Res A)) :
  run_staged E (s1 ++ s2) body = run_staged E s1 (run_staged E s2 body).
Proof.
  induction s1 as [|[ev wrap] rest IH]; [reflexivity|].
  cbn [app run_staged]. now rewrite IH.
Qed.

Lemma run_staged_ext {A} (steps : list (Event * (Error -> Error))) (b1 b2 : M (Res A)) :
  (forall w, b1 w = b2 w) ->
  forall w, run_staged E steps b1 w = run_staged E steps b2 w.
Proof.
  intros Hb. induction steps as [|[ev wrap] rest IH]; intros w; [apply Hb|].
  cbn [run_staged]. rewrite !bind_eq, call_eq.
  destruct (os_call E (trace w) ev); [reflexivity|apply IH].
Qed.

Lemma run_staged_accepted {A} (steps : list (Event * (Error -> Error)))
    (body : M (Res A)) :
  forall w,
    all_accepted E (trace w) (map fst steps) = true ->
    run_staged E steps body w = body (extend (map fst steps) w).
Proof.
  induction steps as [|[ev wrap] rest IH]; intros w Hall.
  - cbn. now rewrite extend_nil.
  - cbn [map fst all_accepted] in Hall. cbn [run_staged map fst].
    rewrite bind_eq, call_eq.
    destruct (os_call E (trace w) ev) as [errno|]; [discriminate|].
    rewrite (IH (record ev w) Hall). f_equal. world.
Qed.

Lemma run_staged_refused {A} (steps : list (Event * (Error -> Error)))
    (body : M (Res A)) :
  forall w,
    all_accepted E (trace w) (map fst steps) = false ->
    exists pre ev wrap errno post,
      steps = pre ++ (ev, wrap) :: post /\
      all_accepted E (trace w) (map fst pre) = true /\
      os_call E (trace w ++ map fst pre) ev = Some errno /\
      run_staged E steps body w
      = (Done (Err (wrap (OsError errno))), extend (map fst pre ++ [ev]) w).
Proof.
  induction steps as [|[ev wrap] rest IH]; intros w Hall; [discriminate|].
  cbn [map fst all_accepted] in Hall. cbn [run_staged].
  rewrite bind_eq, call_eq.
  destruct (os_call E (trace w) ev) as [errno|] eqn:Hev.
  - exists [], ev, wrap, errno, rest. cbn. rewrite app_nil_r. auto.
  - destruct (IH (record ev w) Hall)
      as (pre & ev' & wrap' & errno & post & -> & Hpre & Hev' & Hrun).
    exists ((ev, wrap) :: pre), ev', wrap', errno, post.
    split; [reflexivity|]. split; [cbn; now rewrite Hev|].
    cbn [record trace] in Hev'. split.
    + cbn [map fst]. now rewrite <- app_assoc in Hev'.
    + rewrite Hrun. f_equal. world.
Qed.

(** A stage that is a script of requests. *)
Lemma stage_script {A} (steps : list (Event * (Error -> Error))) (W : Error -> Error)
    (body : M (Res A)) :
  forall w,
    stage (run_checked E steps (ret None)) W body w
    = run_staged E (rewrap W steps) body w.
Proof.
  induction steps as [|[ev wrap] rest IH]; intros w; [reflexivity|].
  specialize (IH (record ev w)). unfold stage in *.
  cbn [run_checked rewrap map run_staged fst snd]. unfold check.
  rewrite !bind_eq, call_eq in *.
  destruct (os_call E (trace w) ev) as [errno|]; [reflexivity|].
  exact IH.
Qed.

Lemma setupBridge_eq (w : World) :
  setupBridge E w
  = if bridge_present E (trace w)
    then (Done None, extend (bridge_prelude E (trace w)) w)
    else run_checked E bridge_steps (ret None) (extend (bridge_prelude E (trace w)) w).
Proof.
  unfold setupBridge, bridge_prelude, bridge_present. rewrite bind_eq.
  unfold deviceExists.
  destruct (os_interface E (trace w) DefaultBridge) as [text|].
  - destruct (Contains text "no such network interface"); cbn [fst];
      rewrite bind_eq; unfold Printf;
      replace (record (EvLog (LogCreateBridge DefaultBridge))
                 (record (EvInterfaceByName DefaultBridge) w))
        with (extend [EvInterfaceByName DefaultBridge;
                      EvLog (LogCreateBridge DefaultBridge)] w) by world;
      reflexivity.
  - cbn [fst]. rewrite bind_eq. unfold Printf. rewrite ret_eq. f_equal. world.
Qed.

Lemma stage_setupBridge {A} (W : Error -> Error) (body : M (Res A)) (w : World) :
  stage (setupBridge E) W body w
  = run_staged E (if bridge_present E (trace w) then [] else rewrap W bridge_steps) body
      (extend (bridge_prelude E (trace w)) w).
Proof.
  destruct (bridge_present E (trace w)) eqn:Hp.
  - unfold stage. rewrite bind_eq, setupBridge_eq, Hp. reflexivity.
  - rewrite <- stage_script. unfold stage. now rewrite !bind_eq, setupBridge_eq, Hp.
Qed.

Lemma nat_tail_eq (w : World) :
  stage (setupNAT E DefaultBridge DefaultSubnet) (NetworkSetupError "NAT")
        (ret (Ok (bridge_config E))) w
  = run_staged E (rewrap (NetworkSetupError "NAT") forward_steps) (nat_tail E) w.
Proof.
  unfold stage, setupNAT, check, nat_tail, Output, nat_rule.
  cbn [forward_steps rewrap map run_staged fst snd].
  rewrite !bind_eq, !call_eq.
  destruct (os_call E (trace w) _) as [errno|]; [reflexivity|].
  rewrite !bind_eq, !call_eq.
  destruct (os_call E _ _) as [errno|]; reflexivity.
Qed.

(** Bridge mode is one script of commands that must succeed, followed
    by the address-translation rule. *)
Lemma SetupNetwork_bridge (cid id8 : string) (pid : Z) (w : World) :
  slice_to 8 cid = Some id8 ->
  SetupNetwork E BridgeMode cid pid w
  = run_staged E (bridge_mode_steps E (trace w) id8 pid) (nat_tail E)
      (extend (bridge_prelude E (trace w)) w).
Proof.
  intros Hid. unfold SetupNetwork. change (BridgeMode =? BridgeMode) with true.
  cbv iota. rewrite stage_setupBridge. unfold bridge_mode_steps. cbv zeta.
  rewrite run_staged_app. apply run_staged_ext. intros w1.
  rewrite bind_eq. unfold slice. rewrite Hid, ret_eq.
  change (createVethPair E ("veth-" +:+ id8) "eth0")
    with (run_checked E (veth_steps ("veth-" +:+ id8) "eth0") (ret None)).
  rewrite stage_script, run_staged_app. apply run_staged_ext. intros w2.
  change (setupContainerNetns E ("veth-" +:+ id8) "eth0" pid (allocateIP E))
    with (run_checked E (netns_steps "eth0" pid (allocateIP E)) (ret None)).
  rewrite stage_script, run_staged_app. apply run_staged_ext. intros w3.
  change (connectVethToBridge E ("veth-" +:+ id8) DefaultBridge)
    with (run_checked E (attach_steps ("veth-" +:+ id8) DefaultBridge) (ret None)).
  rewrite stage_script, run_staged_app. apply run_staged_ext. intros w4.
  apply nat_tail_eq.
Qed.

Lemma nat_tail_run (w : World) :
  nat_tail E w
  = (Done (Ok (bridge_config E)),
     extend (nat_rule DefaultBridge DefaultSubnet :: nat_warning E (trace w)) w).
Proof.
  unfold nat_tail, nat_warning. rewrite bind_eq, call_eq.
  destruct (os_call E (trace w) _) as [errno|].
  - rewrite bind_eq. unfold Printf. rewrite ret_eq. f_equal. world.
  - rewrite ret_eq. f_equal.
Qed.

(** X22.  In bridge mode, for a container id of at least eight bytes,
    the network is set up by a fixed sequence of commands: those that
    make the bridge (only when it is missing), the veth pair, the five
    commands in the container's namespace, the attachment to the
    bridge and the forwarding switch.  The first command refused ends
    the setup with an error; what the earlier commands made is left in
    place and no later command is run.  When all are accepted the
    address-translation rule is asked for last and the setup succeeds
    whether or not that rule is accepted; a refusal is only logged.
    The address in the result is the one [allocateIP] gives. *)
Theorem bridge_setup_stops_at_first_refusal (cid id8 : string) (pid : Z) (w : World) :
  slice_to 8 cid = Some id8 ->
  let w0 := extend (bridge_prelude E (trace w)) w in
  let requests := map fst (bridge_mode_steps E (trace w) id8 pid) in
  (all_accepted E (trace w0) requests = true ->
   SetupNetwork E BridgeMode cid pid w
   = (Done (Ok (bridge_config E)),
      extend (requests ++ nat_rule DefaultBridge DefaultSubnet
                          :: nat_warning E (trace w0 ++ requests)) w0)) /\
  (all_accepted E (trace w0) requests = false ->
   exists pre ev post errno err,
     requests = pre ++ ev :: post /\
     all_accepted E (trace w0) pre = true /\
     os_call E (trace w0 ++ pre) ev = Some errno /\
     SetupNetwork E BridgeMode cid pid w = (Done (Err err), extend (pre ++ [ev]) w0)).
Proof.
  intros Hid w0 requests. rewrite (SetupNetwork_bridge cid id8 pid w Hid).
  fold w0. split; intros Hall.
  - rewrite run_staged_accepted by exact Hall. rewrite nat_tail_run.
    fold requests. f_equal. cbn [extend trace]. world.
  - destruct (run_staged_refused (bridge_mode_steps E (trace w) id8 pid) (nat_tail E) w0 Hall)
      as (pre & ev & wrap & errno & post & Hsteps & Hpre & Hev & Hrun).
    exists (map fst pre), ev, (map fst post), errno, (wrap (OsError errno)).
    rewrite Hrun. unfold requests. rewrite Hsteps, map_app. cbn [map fst].
    repeat split; assumption || reflexivity.
Qed.

(** X23.  The bridge is made only when the lookup of its interface
    fails, and then whatever the failure is: the error of the lookup is
    dropped, so that a lookup refused for another reason than a missing
    interface also leads to the three commands that make the bridge.
    When the interface is found no command is run. *)
Theorem bridge_made_only_when_missing (w : World) :
  (os_interface E (trace w) DefaultBridge = None ->
   setupBridge E w
   = (Done None,
      extend [EvInterfaceByName DefaultBridge; EvLog (LogBridgeExists DefaultBridge)] w)) /\
  (forall text,
      os_interface E (trace w) DefaultBridge = Some text ->
      let w0 := extend [EvInterfaceByName DefaultBridge;
                        EvLog (LogCreateBridge DefaultBridge)] w in
      exists r rest,
        setupBridge E w
        = (Done r,
           extend (EvCommand ["ip"; "link"; "add"; "name"; DefaultBridge; "type"; "bridge"]
                     :: rest) w0) /\
        Forall (fun e => is_command e = true) rest /\
        (r = None <-> all_accepted E (trace w0) (map fst bridge_steps) = true)).
Proof.
  split.
  - intros Hi. rewrite setupBridge_eq. unfold bridge_prelude, bridge_present.
    now rewrite Hi.
  - intros text Hi w0. rewrite setupBridge_eq. unfold bridge_prelude, bridge_present.
    rewrite Hi. fold w0.
    destruct (all_accepted E (trace w0) (map fst bridge_steps)) eqn:Hall.
    + rewrite run_checked_accepted by exact Hall. rewrite ret_eq.
      eexists None, _. split; [reflexivity|]. split; [|tauto].
      repeat constructor.
    + destruct (run_checked_refused E bridge_steps (ret None) w0 Hall)
        as (pre & ev & wrap & errno & post & Hsteps & _ & _ & Hrun).
      rewrite Hrun.
      destruct pre as [|s1 pre].
      * injection Hsteps as <- _. eexists _, []. split; [reflexivity|].
        split; [constructor|]. split; discriminate.
      * injection Hsteps as <- Hrest. eexists _, _. split; [reflexivity|].
        split; [|split; discriminate].
        assert (Hcmd : Forall (fun e => is_command e = true)
                         (map fst (pre ++ (ev, wrap) :: post))).
        { rewrite <- Hrest. repeat constructor. }
        rewrite map_app in Hcmd. cbn [map fst] in Hcmd.
        apply Forall_app in Hcmd as [Hpre Hev]. apply Forall_app. split; [exact Hpre|].
        apply Forall_cons in Hev as [Hev _]. now constructor.
Qed.

(** X24.  What [SetupNetwork] can return.  It never touches the
    registry.  A configuration it returns carries the mode asked for
    and no MAC address; in bridge mode it is the fixed gateway and
    subnet with the address [allocateIP] gives, and the container id
    has at least eight bytes; in host and none mode it carries no
    address at all and the only effect was one line on the console.
    The function panics only in bridge mode on an id shorter than eight
    bytes, and on such an id bridge mode never succeeds: it panics once
    the bridge is there, or fails because the bridge could not be
    made. *)
Theorem network_modes (netMode cid : string) (pid : Z) (w w' : World)
    (r : Outcome (Res NetworkConfig)) :
  SetupNetwork E netMode cid pid w = (r, w') ->
  registry w' = registry w /\
  (forall cfg, r = Done (Ok cfg) ->
     nc_Mode cfg = netMode /\ nc_MacAddr cfg = "" /\
     (netMode = BridgeMode /\ cfg = bridge_config E /\ (8 <= String.length cid)%nat \/
      (netMode = HostMode \/ netMode = NoneMode) /\
      nc_IPAddress cfg = "" /\ nc_Gateway cfg = "" /\ nc_Subnet cfg = "" /\
      exists m, trace w' = trace w ++ [EvLog m])) /\
  (r = Panic -> netMode = BridgeMode /\ (String.length cid < 8)%nat) /\
  (netMode = BridgeMode -> (String.length cid < 8)%nat ->
   r = Panic \/ exists e, r = Done (Err (NetworkSetupError "bridge" e))).
Proof.
  intros Hrun. destruct (String.eqb_spec netMode BridgeMode) as [->|Hb].
  - destruct (slice_to 8 cid) as [id8|] eqn:Hid.
    + assert (Hlen : (8 <= String.length cid)%nat).
      { unfold slice_to in Hid. destruct (Nat.leb_spec 8 (String.length cid));
          [assumption|discriminate]. }
      rewrite (SetupNetwork_bridge cid id8 pid w Hid) in Hrun.
      destruct (all_accepted E (trace (extend (bridge_prelude E (trace w)) w))
                  (map fst (bridge_mode_steps E (trace w) id8 pid))) eqn:Hall.
      * rewrite run_staged_accepted, nat_tail_run in Hrun by exact Hall.
        injection Hrun as <- <-. split; [reflexivity|].
        split; [|split; [discriminate|intros _ ?; lia]].
        intros cfg [= <-]. split; [reflexivity|]. split; [reflexivity|].
        left. auto.
      * destruct (run_staged_refused _ (nat_tail E) _ Hall)
          as (pre & ev & wrap & errno & post & _ & _ & _ & Heq).
        rewrite Heq in Hrun. injection Hrun as <- <-. split; [reflexivity|].
        split; [discriminate|]. split; [discriminate|intros _ ?; lia].
    + assert (Hlen : (String.length cid < 8)%nat).
      { unfold slice_to in Hid. destruct (Nat.leb_spec 8 (String.length cid));
          [discriminate|assumption]. }
      unfold SetupNetwork in Hrun. change (BridgeMode =? BridgeMode) with true in Hrun.
      cbv iota in Hrun. rewrite stage_setupBridge in Hrun.
      set (steps := if bridge_present E (trace w) then []
                    else rewrap (NetworkSetupError "bridge") bridge_steps) in Hrun.
      destruct (all_accepted E (trace (extend (bridge_prelude E (trace w)) w))
                  (map fst steps)) eqn:Hall.
      * rewrite run_staged_accepted in Hrun by exact Hall.
        rewrite bind_eq in Hrun. unfold slice in Hrun. rewrite Hid in Hrun.
        injection Hrun as <- <-. split; [reflexivity|].
        split; [discriminate|]. split; auto.
      * destruct (run_staged_refused steps
                    (id8 <- slice 8 cid ;;
                     stage (createVethPair E ("veth-" +:+ id8) "eth0")
                       (NetworkSetupError "veth pair")
                       (stage
                          (setupContainerNetns E ("veth-" +:+ id8) "eth0" pid
                             (allocateIP E))
                          (NetworkSetupError "container namespace")
                          (stage (connectVethToBridge E ("veth-" +:+ id8) DefaultBridge)
                             (NetworkSetupError "bridge attachment")
                             (stage (setupNAT E DefaultBridge DefaultSubnet)
                                (NetworkSetupError "NAT")
                                (ret
                                   (Ok
                                      {| nc_Mode := BridgeMode;
                                         nc_IPAddress := allocateIP E;
                                         nc_Gateway := DefaultGateway;
                                         nc_Subnet := DefaultSubnet;
                                         nc_MacAddr := "" |}))))))
                    _ Hall)
          as (pre & ev & wrap & errno & post & Hsteps & _ & _ & Heq).
        rewrite Heq in Hrun. injection Hrun as <- <-. split; [reflexivity|].
        split; [discriminate|]. split; [discriminate|]. intros _ _. right.
        assert (Hin : In (ev, wrap) steps) by (rewrite Hsteps; apply in_elt).
        unfold steps in Hin. destruct (bridge_present E (trace w)); [destruct Hin|].
        apply in_map_iff in Hin as (s & [= <- <-] & _). eauto.
  - unfold SetupNetwork in Hrun. rewrite (proj2 (String.eqb_neq _ _) Hb) in Hrun.
    destruct (String.eqb_spec netMode HostMode) as [->|Hh].
    + injection Hrun as <- <-. split; [reflexivity|].
      split; [|split; [discriminate|intros Hm; discriminate Hm]].
      intros cfg [= <-]. repeat split. right. repeat split; eauto.
    + destruct (String.eqb_spec netMode NoneMode) as [->|Hn].
      * injection Hrun as <- <-. split; [reflexivity|].
        split; [|split; [discriminate|intros Hm; discriminate Hm]].
        intros cfg [= <-]. repeat split. right. repeat split; eauto.
      * injection Hrun as <- <-. split; [reflexivity|].
        split; [discriminate|]. split; [discriminate|]. intros Hm. contradiction.
Qed.

End Network.

(** ** container/container.go: the fields creation never reads *)

Lemma with_registry_twice (r1 r2 : gmap string ContainerInfo) (w : World) :
  with_registry r1 (with_registry r2 w) = with_registry r1 w.
Proof. reflexivity. Qed.

Lemma rb_ret {A} (a : A) : registry_blind (ret a).
Proof. intros w reg. reflexivity. Qed.

Lemma rb_panic {A} : registry_blind (@panic A).
Proof. intros w reg. reflexivity. Qed.

Lemma rb_bind {A B} (m : M A) (k : A -> M B) :
  registry_blind m -> (forall a, registry_blind (k a)) -> registry_blind (bind m k).
Proof.
  intros Hm Hk w reg. rewrite !bind_eq, Hm.
  destruct (m w) as [[a|] w1]; cbn [fst snd]; [apply Hk|reflexivity].
Qed.

Lemma rb_Printf (m : LogMsg) : registry_blind (Printf m).
Proof. intros w reg. reflexivity. Qed.

Lemma rb_slice (n : nat) (s : string) : registry_blind (slice n s).
Proof. unfold slice. destruct (slice_to n s); [apply rb_ret|apply rb_panic]. Qed.

Lemma rb_check (r : M (option Errno)) (wrap : Error -> Error) (body : M (option Error)) :
  registry_blind r -> registry_blind body -> registry_blind (check r wrap body).
Proof.
  intros Hr Hb. unfold check. apply rb_bind; [exact Hr|].
  intros [errno|]; [apply rb_ret|exact Hb].
Qed.

Lemma rb_when_ok (cond : bool) (step : M (option Error)) (wrap : Error -> Error)
    (body : M (option Error)) :
  registry_blind step -> registry_blind body -> registry_blind (when_ok cond step wrap body).
Proof.
  intros Hs Hb. unfold when_ok. destruct cond; [|exact Hb].
  apply rb_bind; [exact Hs|]. intros [err|]; [apply rb_ret|exact Hb].
Qed.

Lemma rb_stage {A} (step : M (option Error)) (wrap : Error -> Error) (body : M (Res A)) :
  registry_blind step -> registry_blind body -> registry_blind (stage step wrap body).
Proof.
  intros Hs Hb. unfold stage. apply rb_bind; [exact Hs|].
  intros [err|]; [apply rb_ret|exact Hb].
Qed.

Section Blind.

Variable ul : string -> string.
Variable E : Env.

Lemma rb_call (c : Event) : registry_blind (call E c).
Proof. intros w reg. reflexivity. Qed.

Lemma rb_Output (argv : list string) : registry_blind (Output E argv).
Proof. apply rb_call. Qed.

Ltac rb_step :=
  lazymatch goal with
  | |- registry_blind (ret _) => apply rb_ret
  | |- registry_blind (Printf _) => apply rb_Printf
  | |- registry_blind (call _ _) => apply rb_call
  | |- registry_blind (Output _ _) => apply rb_Output
  | |- registry_blind (slice _ _) => apply rb_slice
  | |- registry_blind (check _ _ _) => apply rb_check
  | |- registry_blind (when_ok _ _ _ _) => apply rb_when_ok
  | |- registry_blind (stage _ _ _) => apply rb_stage
  | |- registry_blind (bind _ _) => apply rb_bind; [|intros ?]
  | |- registry_blind (match ?x with _ => _ end) => destruct x
  end.

Ltac rb := repeat rb_step.

Lemma rb_setupMemoryLimit (cgroupName : string) (pid : Z) (memoryLimit : string) :
  registry_blind (setupMemoryLimit ul E cgroupName pid memoryLimit).
Proof. unfold setupMemoryLimit. rb. Qed.

Lemma rb_setupCpuSet (cgroupName : string) (pid : Z) (cpuSet : string) :
  registry_blind (setupCpuSet E cgroupName pid cpuSet).
Proof. unfold setupCpuSet. rb. Qed.

Lemma rb_setupCpuShare (cgroupName : string) (pid cpuShare : Z) :
  registry_blind (setupCpuShare E cgroupName pid cpuShare).
Proof. unfold setupCpuShare. rb. Qed.

Lemma rb_ApplyResourceLimits (pid : Z) (config : ResourceConfig) :
  registry_blind (ApplyResourceLimits ul E pid config).
Proof.
  unfold ApplyResourceLimits. rb;
    auto using rb_setupMemoryLimit, rb_setupCpuSet, rb_setupCpuShare.
Qed.

Lemma rb_deviceExists (name : string) : registry_blind (deviceExists E name).
Proof.
  intros w reg. unfold deviceExists. cbn [with_registry trace].
  destruct (os_interface E (trace w) name) as [text|]; [|reflexivity].
  destruct (Contains text "no such network interface"); reflexivity.
Qed.

Lemma rb_setupBridge : registry_blind (setupBridge E).
Proof. unfold setupBridge. rb. apply rb_deviceExists. Qed.

Lemma rb_createVethPair (vethName peerName : string) :
  registry_blind (createVethPair E vethName peerName).
Proof. unfold createVethPair. rb. Qed.

Lemma rb_setupContainerNetns (vethName peerName : string) (pid : Z) (ipAddr : string) :
  registry_blind (setupContainerNetns E vethName peerName pid ipAddr).
Proof. unfold setupContainerNetns. rb. Qed.

Lemma rb_connectVethToBridge (vethName bridge : string) :
  registry_blind (connectVethToBridge E vethName bridge).
Proof. unfold connectVethToBridge. rb. Qed.

Lemma rb_setupNAT (bridge subnet : string) : registry_blind (setupNAT E bridge subnet).
Proof. unfold setupNAT. rb. Qed.

Lemma rb_SetupNetwork (netMode containerID : string) (pid : Z) :
  registry_blind (SetupNetwork E netMode containerID pid).
Proof.
  unfold SetupNetwork. rb;
    auto using rb_setupBridge, rb_createVethPair, rb_setupContainerNetns,
      rb_connectVethToBridge, rb_setupNAT.
Qed.

Lemma rb_post_spawn (config : Config) (containerId : string) (pid : Z) :
  registry_blind (post_spawn ul E config containerId pid).
Proof.
  unfold post_spawn. rb; auto using rb_ApplyResourceLimits, rb_SetupNetwork.
Qed.

Lemma post_spawn_fields (c1 c2 : Config) (containerId : string) (pid : Z) :
  cfg_Resource c1 = cfg_Resource c2 -> cfg_Network c1 = cfg_Network c2 ->
  post_spawn ul E c1 containerId pid = post_spawn ul E c2 containerId pid.
Proof. intros Hr Hn. unfold post_spawn. now rewrite Hr, Hn. Qed.

Lemma effective_same (id : string) (c1 c2 : Config) :
  same_but_volumes c1 c2 ->
  same_but_volumes (effective_config id c1) (effective_config id c2).
Proof.
  intros (Hname & Himage & Hcmd & Htty & Hnet & Hres). unfold effective_config.
  rewrite Hname. destruct (cfg_Name c2 =? ""); repeat split; assumption.
Qed.

(** X25.  Creation never looks at the volumes of a configuration, nor
    at its detach flag: two configurations that agree on the other
    fields give the same result, ask the operating system for exactly
    the same things (no mount among them depends on a volume) and
    leave records that differ only in the copy of the configuration
    they keep. *)
Theorem volumes_are_never_used (c1 c2 : Config) (w : World) :
  same_but_volumes c1 c2 ->
  let r1 := NewContainer ul E c1 w in
  let r2 := NewContainer ul E c2 w in
  fst r1 = fst r2 /\
  trace (snd r1) = trace (snd r2) /\
  forall id, sans_config <$> registry (snd r1) !! id
             = sans_config <$> registry (snd r2) !! id.
Proof.
  intros Hsame r1 r2. subst r1 r2. rewrite !NewContainer_eq. cbv zeta.
  pose proof (effective_same (new_id E w) c1 c2 Hsame)
    as (Hname' & Himage' & Hcmd' & Htty' & Hnet' & Hres').
  destruct Hsame as (Hname & _). rewrite Hname.
  destruct (negb (cfg_Name c2 =? "") && name_in_use (registry w) (cfg_Name c2));
    [auto|].
  rewrite Himage'.
  destruct (prepareRootfs E (new_id E w) (cfg_Image (effective_config (new_id E w) c2))
              (record EvRandom w)) as [[[root|e]|] w2]; [|auto|auto].
  rewrite !startContainer_eq.
  assert (Hreq : start_request
                   (new_record (new_id E w) (effective_config (new_id E w) c1)
                      (os_now E (trace w2))) root
                 = start_request
                     (new_record (new_id E w) (effective_config (new_id E w) c2)
                        (os_now E (trace w2))) root).
  { unfold start_request, handoff_env, new_record. cbn [ci_ID ci_Name ci_Command ci_Config].
    now rewrite Hname', Hcmd', Htty'. }
  rewrite Hreq.
  destruct (os_start E (trace w2) _) as [errno|pid]; [auto|].
  rewrite (post_spawn_fields _ _ (new_id E w) pid Hres' Hnet').
  rewrite !rb_post_spawn. cbn [fst snd with_registry trace registry].
  split; [reflexivity|]. split; [reflexivity|].
  intros id. destruct (decide (id = new_id E w)) as [->|Hne].
  - rewrite !lookup_insert_eq. cbn. unfold sans_config, with_Pid, new_record.
    cbn [ci_ID ci_Name ci_Pid ci_Image ci_Command ci_Status ci_CreateTime].
    now rewrite Hname', Himage', Hcmd'.
  - now rewrite !lookup_insert_ne by congruence.
Qed.

End Blind.

(** ** container/container.go: what is left behind *)

Section Leftovers.

Variable ul : string -> string.
Variable E : Env.

Local Ltac world :=
  unfold record, extend, with_registry; cbn [registry environ trace];
  rewrite <- ?app_assoc; cbn [app]; reflexivity.

Lemma effective_image (id : string) (config : Config) :
  cfg_Image (effective_config id config) = cfg_Image config.
Proof. unfold effective_config. now destruct (cfg_Name config =? ""). Qed.

(** X26.  A creation that fails for another reason than a taken name
    has asked for the container's directory and never asks for its
    removal; the id it drew is not registered.  When the failure is the
    start of the process, the directory and the marker file in it were
    made.  As the id is in no record, a later Remove of it fails with
    NotFound before any cleanup: the program leaves the directory
    behind. *)
Theorem failed_create_leaves_directory (config : Config) (w w' : World) (e : Error) :
  NewContainer ul E config w = (Done (Err e), w') ->
  (forall n, e <> DuplicateName n) ->
  let id := new_id E w in
  let root := filepath_Join DefaultContainerRoot id in
  let marker := EvWriteFile (filepath_Join root ".rootfs_ready") (cfg_Image config)
                            mode_0644 in
  exists evs,
    trace w' = trace w ++ EvRandom :: EvMkdirAll root mode_0755 :: evs /\
    (forall ev, In ev evs -> is_cleanup ev = false) /\
    registry w' = registry w /\
    (forall cause, e = ProcessStartError cause ->
       os_call E (trace w ++ [EvRandom]) (EvMkdirAll root mode_0755) = None /\
       In marker evs /\
       os_call E (trace w ++ [EvRandom; EvMkdirAll root mode_0755;
                              EvLog (LogRootfsPrepared root (cfg_Image config))])
              marker = None) /\
    (registry w !! id = None ->
     RemoveContainer E id w' = (Done (Some (NotFound id)), w')).
Proof.
  intros Hrun Hname id root marker. rewrite NewContainer_eq in Hrun. cbv zeta in Hrun.
  fold id in Hrun.
  destruct (negb (cfg_Name config =? "") && name_in_use (registry w) (cfg_Name config)).
  { injection Hrun as <- _. now destruct (Hname (cfg_Name config)). }
  rewrite effective_image in Hrun. unfold prepareRootfs in Hrun.
  fold root in Hrun. rewrite !bind_eq, call_eq in Hrun.
  cbn [record trace] in Hrun.
  destruct (os_call E (trace w ++ [EvRandom]) (EvMkdirAll root mode_0755))
    as [errno|] eqn:Hmk.
  { rewrite ret_eq in Hrun. injection Hrun as <- <-.
    exists []. split; [world|]. split; [intros ev []|]. split; [reflexivity|].
    split; [discriminate|]. intros Hfresh. now apply RemoveContainer_absent. }
  rewrite bind_eq in Hrun. unfold Printf in Hrun. rewrite bind_eq, call_eq in Hrun.
  fold marker in Hrun. cbn [record trace] in Hrun.
  rewrite <- !app_assoc in Hrun. cbn [app] in Hrun.
  destruct (os_call E _ marker) as [errno|] eqn:Hmark.
  { rewrite ret_eq in Hrun. injection Hrun as <- <-.
    exists [EvLog (LogRootfsPrepared root (cfg_Image config)); marker].
    split; [world|]. split.
    - intros ev [<-|[<-|[]]]; reflexivity.
    - split; [reflexivity|]. split; [discriminate|].
      intros Hfresh. now apply RemoveContainer_absent. }
  rewrite ret_eq, startContainer_eq in Hrun.
  match type of Hrun with
  | context [os_start E ?h ?q] => destruct (os_start E h q) as [errno|pid] eqn:Hst
  end.
  - injection Hrun as <- <-. eexists [_; _; _]. split; [world|]. split.
    + intros ev [<-|[<-|[<-|[]]]]; reflexivity.
    + split; [reflexivity|]. split.
      * intros cause _. split; [reflexivity|]. split; [right; left; reflexivity|].
        reflexivity.
      * intros Hfresh. now apply RemoveContainer_absent.
  - match type of Hrun with
    | post_spawn ul E ?cfg id pid ?w0 = _ =>
        destruct (post_spawn_spec ul E cfg id pid w0) as (evs & Hps)
    end.
    { unfold id. rewrite new_id_length. lia. }
    rewrite Hps in Hrun. discriminate.
Qed.

Lemma run_ops_cons (o : Op) (rest : list Op) (w : World) :
  run_ops E (o :: rest) w
  = match run_op E o w with
    | (Done r, w1) =>
        match run_ops E rest w1 with
        | (Done rs, w2) => (Done (r :: rs), w2)
        | (Panic, w2) => (Panic, w2)
        end
    | (Panic, w1) => (Panic, w1)
    end.
Proof.
  cbn [run_ops]. rewrite bind_eq. destruct (run_op E o w) as [[r|] w1]; [|reflexivity].
  rewrite bind_eq. destruct (run_ops E rest w1) as [[rs|] w2]; reflexivity.
Qed.

(** Operations on an id that is not in the registry do nothing. *)
Lemma run_ops_absent (id : string) (ops : list Op) :
  forall w,
    registry w !! id = None -> Forall (fun o => op_id o = id) ops ->
    snd (run_ops E ops w) = w.
Proof.
  induction ops as [|o ops IH]; intros w Habs Hops; [reflexivity|].
  apply Forall_cons in Hops as [Ho Hops]. rewrite run_ops_cons.
  assert (Hop : run_op E o w = (Done (Some (NotFound id)), w)).
  { destruct o as [i|i|i]; cbn [op_id] in Ho; subst i; cbn [run_op].
    - now apply StopContainer_absent.
    - now apply WaitContainer_absent.
    - now apply RemoveContainer_absent. }
  rewrite Hop. specialize (IH w Habs Hops).
  destruct (run_ops E ops w) as [[rs|] w2]; exact IH.
Qed.

(** X27.  The process of a container that reads Stopped is never
    waited for, looked up or signalled again: under any sequence of
    Stop, Wait and Remove on that container the only requests are the
    removal of its directory and the warning when that fails.  (Stop
    itself does not wait, so a process ended by Stop is never
    reaped.) *)
Theorem stopped_process_is_never_reaped (id : string) (c : ContainerInfo)
    (ops : list Op) :
  forall w,
    registry w !! id = Some c -> ci_Status c = StatusStopped ->
    Forall (fun o => op_id o = id) ops ->
    exists evs,
      trace (snd (run_ops E ops w)) = trace w ++ evs /\
      (length evs <= 2)%nat /\
      (forall e, In e evs -> is_cleanup e = true /\ is_wait e = false /\ is_signal e = false) /\
      (evs = [] -> registry (snd (run_ops E ops w)) = registry w).
Proof.
  induction ops as [|o ops IH]; intros w Hl Hs Hops.
  - exists []. cbn [run_ops]. rewrite ret_eq. cbn [snd length]. rewrite app_nil_r.
    split; [reflexivity|]. split; [lia|]. split; [intros e []|reflexivity].
  - apply Forall_cons in Hops as [Ho Hops]. rewrite run_ops_cons.
    destruct o as [i|i|i]; cbn [op_id] in Ho; subst i; cbn [run_op].
    + rewrite (StopContainer_stopped E id c w Hl Hs).
      destruct (IH w Hl Hs Hops) as (evs & Htr & Hlen & Hev & Hreg).
      exists evs. destruct (run_ops E ops w) as [[rs|] w2]; auto.
    + rewrite (WaitContainer_stopped E id c w Hl Hs).
      destruct (IH w Hl Hs Hops) as (evs & Htr & Hlen & Hev & Hreg).
      exists evs. destruct (run_ops E ops w) as [[rs|] w2]; auto.
    + rewrite (RemoveContainer_present E id c w Hl), Hs. cbn [Status_eqb].
      rewrite ret_eq. cbv zeta.
      set (clean := EvRemoveAll (filepath_Join DefaultContainerRoot id)).
      set (evs := clean :: match os_call E (trace w) clean with
                           | Some errno => [EvLog (LogCleanupWarning (OsError errno))]
                           | None => []
                           end).
      set (w1 := with_registry (delete id (registry w)) (extend evs w)).
      assert (Hrest : snd (run_ops E ops w1) = w1).
      { apply (run_ops_absent id); [|exact Hops]. unfold w1. cbn [with_registry registry].
        apply lookup_delete_eq. }
      exists evs. destruct (run_ops E ops w1) as [[rs|] w2]; cbn [snd] in *; subst w2.
      * split; [reflexivity|]. split.
        { unfold evs. destruct (os_call E (trace w) clean); cbn; lia. }
        split; [|discriminate].
        intros e He. unfold evs in He. destruct (os_call E (trace w) clean).
        -- destruct He as [<-|[<-|[]]]; auto.
        -- destruct He as [<-|[]]; auto.
      * split; [reflexivity|]. split.
        { unfold evs. destruct (os_call E (trace w) clean); cbn; lia. }
        split; [|discriminate].
        intros e He. unfold evs in He. destruct (os_call E (trace w) clean).
        -- destruct He as [<-|[<-|[]]]; auto.
        -- destruct He as [<-|[]]; auto.
Qed.

(** X29.  Remove undoes only the container's directory.  Whatever
    the state of the container and the answers of the environment, the
    only thing Remove asks to be removed is the directory of that id
    under the container root; it runs no external command and makes or
    writes no file, so the control groups made for the process and the
    veth pair, bridge and address-translation rule made for its network
    are left as creation made them. *)
Theorem remove_undoes_only_the_directory (id : string) (w w' : World)
    (r : Outcome (option Error)) :
  RemoveContainer E id w = (r, w') ->
  exists evs,
    trace w' = trace w ++ evs /\
    forall e, In e evs ->
      is_command e = false /\
      (forall dir, touches dir e = false) /\
      (forall p, e = EvRemoveAll p -> p = filepath_Join DefaultContainerRoot id).
Proof.
  intros Hrun. destruct (registry w !! id) as [c|] eqn:Hl.
  2:{ rewrite RemoveContainer_absent in Hrun by assumption. injection Hrun as _ <-.
      exists []. split; [now rewrite app_nil_r|intros e []]. }
  rewrite (RemoveContainer_present E id c w Hl) in Hrun.
  assert (Hcheck : forall evs : list Event,
             forallb (fun e => match e with
                               | EvFindProcess _ | EvSignal _ _ | EvKill _ | EvLog _ => true
                               | EvRemoveAll p =>
                                   String.eqb p (filepath_Join DefaultContainerRoot id)
                               | _ => false
                               end) evs = true ->
             forall e, In e evs ->
               is_command e = false /\
               (forall dir, touches dir e = false) /\
               (forall p, e = EvRemoveAll p -> p = filepath_Join DefaultContainerRoot id)).
  { intros evs Hall e He. rewrite forallb_forall in Hall. specialize (Hall e He).
    destruct e; try discriminate; repeat split; try discriminate.
    intros p0 [= <-]. now apply String.eqb_eq. }
  set (clean := EvRemoveAll (filepath_Join DefaultContainerRoot id)) in *.
  destruct (ci_Status c) eqn:Hs; cbn [Status_eqb] in Hrun.
  - rewrite (StopContainer_run E id c w Hl Hs) in Hrun. cbv zeta in Hrun.
    destruct (os_call E (trace w) (EvFindProcess (ci_Pid c))) as [e1|].
    { injection Hrun as _ <-. eexists. split; [reflexivity|].
      apply Hcheck. reflexivity. }
    destruct (os_call E (trace w ++ [EvFindProcess (ci_Pid c)])
                (EvSignal (ci_Pid c) SIGTERM)) as [e2|].
    + destruct (os_call E _ (EvKill (ci_Pid c))) as [e3|].
      { injection Hrun as _ <-. eexists. split; [reflexivity|].
        apply Hcheck. reflexivity. }
      injection Hrun as _ <-. cbn [with_registry extend trace registry].
      destruct (os_call E _ clean) as [e4|]; (eexists; split;
        [rewrite <- app_assoc; reflexivity
        |apply Hcheck; cbn [forallb app]; unfold clean; now rewrite String.eqb_refl]).
    + injection Hrun as _ <-. cbn [with_registry extend trace registry].
      destruct (os_call E _ clean) as [e4|]; (eexists; split;
        [rewrite <- app_assoc; reflexivity
        |apply Hcheck; cbn [forallb app]; unfold clean; now rewrite String.eqb_refl]).
  - rewrite ret_eq in Hrun. injection Hrun as _ <-.
    cbn [with_registry extend trace registry].
    destruct (os_call E _ clean) as [e4|]; (eexists; split;
      [reflexivity
      |apply Hcheck; cbn [forallb app]; unfold clean; now rewrite String.eqb_refl]).
Qed.

End Leftovers.

(** ** container/container.go: the earlier init path *)

Section Earlier.

Variable E : Env.

Lemma containerInitProcess_eq (w : World) :
  let rootfs := default "" (LookupEnv "CONTAINER_ROOTFS" (environ w)) in
  let cmdString := default "" (LookupEnv "CONTAINER_CMD" (environ w)) in
  let containerName := default "" (LookupEnv "CONTAINER_NAME" (environ w)) in
  containerInitProcess E w =
  if (rootfs =? "") || (cmdString =? "")
  then (Done (InitFailed MissingConfiguration), w)
  else
    match
      check (call E (EvSethostname containerName)) same (
        m <- setupMounts E rootfs ;;
        match m with
        | Some err => ret (Some err)
        | None =>
            check (call E (EvChroot rootfs)) same (
            check (call E (EvChdir "/")) same (
            match Split cmdString " " with
            | [] => ret (Some InvalidCommand)
            | cmd0 :: _ =>
                p <- LookPath E cmd0 ;;
                match p with
                | inl errno => ret (Some (OsError errno))
                | inr cmdPath =>
                    env <- Environ ;;
                    check (call E (EvExec cmdPath (Split cmdString " ") env)) same (ret None)
                end
            end))
        end) w
    with
    | (Done r, w') => (Done (lift r), w')
    | (Panic, w') => (Panic, w')
    end.
Proof.
  cbv zeta. unfold containerInitProcess. do 2 (rewrite bind_eq; cbn [Getenv]).
  destruct ((default "" (LookupEnv "CONTAINER_ROOTFS" (environ w)) =? "")
            || (default "" (LookupEnv "CONTAINER_CMD" (environ w)) =? ""));
    [reflexivity|].
  rewrite bind_eq, bind_eq. cbn [Getenv]. reflexivity.
Qed.

Lemma ny_bind_same (e : Error) (m k : M (option Error)) :
  never_yields e m -> never_yields e k ->
  never_yields e (x <- m ;; match x with
                            | Some err => ret (Some err)
                            | None => k
                            end).
Proof.
  intros Hm Hk w r w' H. rewrite bind_eq in H.
  destruct (m w) as [[[err|]|] w1] eqn:Hmw.
  - rewrite ret_eq in H. injection H as <- _. exact (Hm w _ _ Hmw).
  - exact (Hk _ _ _ H).
  - injection H as <- _. discriminate.
Qed.

Lemma ny_setupMounts (rootfs : string) :
  never_yields MissingConfiguration (setupMounts E rootfs).
Proof. unfold setupMounts. repeat ny_step. Qed.

(** X28.  The earlier init path kept in the package checks its
    configuration as the current one does: it fails with
    MissingConfiguration exactly when the root-filesystem or the
    command variable is absent or empty, before any request.  When
    nothing is refused it sets the hostname, mounts the proc file
    system under the root and nothing else, changes root and
    directory, and replaces itself by the first word of the command
    with the environment it was started in. *)
Theorem earlier_init_path (w : World) :
  let rootfs := LookupEnv "CONTAINER_ROOTFS" (environ w) in
  let cmd := LookupEnv "CONTAINER_CMD" (environ w) in
  let name := default "" (LookupEnv "CONTAINER_NAME" (environ w)) in
  (absent_or_empty rootfs \/ absent_or_empty cmd ->
   containerInitProcess E w = (Done (InitFailed MissingConfiguration), w)) /\
  (fst (containerInitProcess E w) = Done (InitFailed MissingConfiguration) ->
   absent_or_empty rootfs \/ absent_or_empty cmd) /\
  (accepting E -> ~ absent_or_empty rootfs -> ~ absent_or_empty cmd ->
   exists path,
     containerInitProcess E w
     = (Done ImageReplaced,
        extend (earlier_init_requests name (default "" rootfs) (default "" cmd) path
                  (environ w)) w)).
Proof.
  intros rootfs cmd name. split; [|split].
  - intros H. apply missing_check in H. rewrite containerInitProcess_eq. cbv zeta.
    fold rootfs. fold cmd. now rewrite H.
  - rewrite containerInitProcess_eq. cbv zeta. fold rootfs. fold cmd. intros H.
    apply missing_check.
    destruct ((default "" rootfs =? "") || (default "" cmd =? "")); [reflexivity|].
    exfalso. revert H.
    match goal with |- context [match ?m ?w0 with _ => _ end] =>
      destruct (m w0) as [[r|] w'] eqn:Hrun;
      [assert (Hny : never_yields MissingConfiguration m)|] end.
    + apply ny_check; [intros ?; cbv [same]; discriminate|].
      apply ny_bind_same; [apply ny_setupMounts|]. repeat ny_step.
    + cbn [fst]. intros [= Hl]. destruct r as [e|]; [|discriminate].
      cbn in Hl. injection Hl as ->. exact (Hny _ _ _ Hrun eq_refl).
    + discriminate.
  - intros [Hcall Hlook] Hr Hc.
    assert (Hguard : (default "" rootfs =? "") || (default "" cmd =? "") = false).
    { destruct ((default "" rootfs =? "") || (default "" cmd =? "")) eqn:Hg;
        [|reflexivity]. apply missing_check in Hg. tauto. }
    rewrite containerInitProcess_eq. cbv zeta. fold rootfs. fold cmd. fold name.
    rewrite Hguard. unfold earlier_init_requests.
    pose proof (split_byte_length " " (default "" cmd) "") as Hlen.
    fold (Split (default "" cmd) " ") in Hlen.
    destruct (Split (default "" cmd) " ") as [|cmd0 args]; [discriminate|]. cbn [hd].
    destruct (Hlook (trace w ++ [EvSethostname name;
                                 EvMkdirAll (filepath_Join (default "" rootfs) "proc") mode_0755;
                                 EvMount "proc" (filepath_Join (default "" rootfs) "proc")
                                         "proc" 0 "";
                                 EvChroot (default "" rootfs); EvChdir "/"]) cmd0)
      as [path Hpath].
    exists path.
    unfold check, setupMounts, check, LookPath, Environ, bind, call, ret.
    cbv beta iota. repeat (rewrite Hcall; cbv beta iota).
    unfold record. cbn [registry environ trace]. rewrite <- !app_assoc. cbn [app].
    rewrite Hpath. cbv beta iota. rewrite Hcall. cbv beta iota. cbn [lift].
    f_equal. unfold extend. cbn [registry environ trace]. f_equal.
    rewrite <- !app_assoc. reflexivity.
Qed.

End Earlier.

(** ** The further properties at work on example worlds *)

Lemma wf_two_containers : wf_registry (registry two_containers).
Proof.
  intros id c Hl. unfold two_containers in Hl. cbn [registry] in Hl.
  apply lookup_insert_Some in Hl as [[<- <-]|[_ Hl]]; [split; reflexivity|].
  apply lookup_singleton_Some in Hl as [<- <-]. split; reflexivity.
Qed.

Lemma unique_two_containers : unique_names (registry two_containers).
Proof.
  intros id1 c1 id2 c2 H1 H2 Hn. unfold two_containers in H1, H2. cbn [registry] in H1, H2.
  apply lookup_insert_Some in H1 as [[<- <-]|[_ H1]];
    apply lookup_insert_Some in H2 as [[<- <-]|[_ H2]];
    try apply lookup_singleton_Some in H1 as [<- <-];
    try apply lookup_singleton_Some in H2 as [<- <-];
    try reflexivity; discriminate Hn.
Qed.

(** Stopping or removing the sample container leaves the other one
    alone. *)
Lemma operations_leave_other_records_witness :
  registry (snd (StopContainer (calm 0) sample_id two_containers)) !! other_id
  = Some other_record /\
  registry (snd (RemoveContainer (calm 0) sample_id two_containers)) !! other_id
  = Some other_record.
Proof.
  destruct (operations_leave_other_records (fun s => s) (calm 0) sample_id other_id
              two_containers) as (Hstop & _ & Hremove & _); [discriminate|].
  split.
  - rewrite (Hstop _ _ (surjective_pairing _)). vm_compute. reflexivity.
  - rewrite (Hremove _ _ (surjective_pairing _)). vm_compute. reflexivity.
Defined.

(** A busy client on the registry of two. *)
Lemma requests_never_panic_witness :
  let qs := [ReqOp (OpWait sample_id); ReqCreate (sample_config "" "bridge" "1g");
             ReqOp (OpRemove other_id); ReqOp (OpStop "no-such-id")] in
  fst (serve_all (fun s => s) not_child qs two_containers) = Done tt /\
  wf_registry (registry (snd (serve_all (fun s => s) not_child qs two_containers))).
Proof.
  intros qs.
  apply (requests_never_panic (fun s => s) not_child qs two_containers _ _
           wf_two_containers (surjective_pairing _)).
Defined.

(** The termination signal is refused, the kill goes through. *)
Lemma stop_escalates_to_kill_witness :
  let r := StopContainer stubborn sample_id (one_container StatusRunning) in
  fst r = Done None /\
  registry (snd r) = <[sample_id := sample_record StatusStopped]>
                       (registry (one_container StatusRunning)) /\
  trace (snd r) = [EvFindProcess 4242; EvSignal 4242 SIGTERM;
                   EvLog (LogSigtermFailed (OsError 1%Z)); EvKill 4242].
Proof.
  intros r.
  destruct (stop_escalates_to_kill stubborn sample_id (sample_record StatusRunning)
              (one_container StatusRunning) (snd r) (fst r))
    as (Hiff & Hok & _ & _).
  - vm_compute. reflexivity.
  - reflexivity.
  - apply surjective_pairing.
  - assert (Hr : fst r = Done None).
    { apply Hiff. split; [reflexivity|]. right. exists 1%Z. split; reflexivity. }
    split; [exact Hr|]. split; [exact (Hok Hr)|]. vm_compute. reflexivity.
Defined.

(** Waiting for a process that is not a child of the caller. *)
Lemma wait_leaves_running_on_failure_witness :
  let r := WaitContainer not_child sample_id (one_container StatusRunning) in
  fst r = Done (Some (WaitFailed (OsError 10%Z))) /\
  registry (snd r) = registry (one_container StatusRunning).
Proof.
  intros r.
  destruct (wait_leaves_running_on_failure not_child sample_id
              (one_container StatusRunning) (snd r) (fst r) (surjective_pairing _))
    as (_ & _ & Hfail & _).
  assert (Hr : fst r = Done (Some (WaitFailed (OsError 10%Z)))) by (vm_compute; reflexivity).
  split; [exact Hr|]. exact (Hfail _ Hr).
Defined.

(** The Stopped container of the registry of two, under a sequence of
    requests that ends with its removal. *)
Lemma stopped_is_final_witness :
  let ops := [OpStop other_id; OpWait other_id; OpStop sample_id; OpRemove other_id] in
  let w' := snd (run_ops (calm 0) ops two_containers) in
  (registry w' !! other_id = Some other_record \/ registry w' !! other_id = None) /\
  registry w' !! "no-such-id" = None.
Proof.
  intros ops w'.
  destruct (stopped_is_final (calm 0) ops two_containers _ _ (surjective_pairing _))
    as [Hst Habs].
  split.
  - apply Hst; [vm_compute; reflexivity|reflexivity].
  - apply Habs. vm_compute. reflexivity.
Defined.

(** Create, then Remove, on the registry of two. *)
Lemma create_then_remove_restores_witness :
  let config := sample_config "cache" "none" "" in
  let id := new_id (calm 0) two_containers in
  let w1 := snd (NewContainer (fun s => s) (calm 0) config two_containers) in
  let w2 := snd (RemoveContainer (calm 0) id w1) in
  registry w2 = registry two_containers.
Proof.
  intros config id w1 w2.
  apply (create_then_remove_restores (fun s => s) (calm 0) config two_containers w1 w2 id).
  - vm_compute. reflexivity.
  - vm_compute. reflexivity.
  - vm_compute. reflexivity.
Defined.

(** The listing of the registry of two. *)
Lemma ListContainers_snapshot_witness :
  exists l,
    ListContainers two_containers = (Done (Ok l), two_containers) /\
    length l = 2%nat /\ NoDup (map ci_ID l).
Proof.
  destruct (ListContainers_snapshot two_containers) as (l & Hl & _ & Hlen & Hnd).
  exists l. split; [exact Hl|]. split.
  - rewrite Hlen. vm_compute. reflexivity.
  - exact (Hnd wf_two_containers).
Defined.

(** A container created with no name. *)
Lemma default_name_is_id_prefix_witness :
  let r := NewContainer (fun s => s) (calm 0) (sample_config "" "none" "") fresh_world in
  exists c, registry (snd r) !! "00000000-0000-4000-8000-000000000000" = Some c /\
            ci_Name c = "00000000-000".
Proof.
  intros r.
  destruct (default_name_is_id_prefix (fun s => s) (calm 0) (sample_config "" "none" "")
              fresh_world (snd r) (fst r) eq_refl (surjective_pairing _)) as [_ H].
  destruct (H "00000000-0000-4000-8000-000000000000") as (c & Hl & Hn & _).
  - vm_compute. reflexivity.
  - exists c. split; [exact Hl|]. rewrite Hn. reflexivity.
Defined.

(** A third, named container in the registry of two. *)
Lemma unique_names_preserved_witness :
  unique_names
    (registry (snd (NewContainer (fun s => s) (calm 0) (sample_config "cache" "none" "")
                      two_containers))) /\
  unique_names (registry (snd (run_op (calm 0) (OpRemove sample_id) two_containers))).
Proof.
  destruct (unique_names_preserved (fun s => s) (calm 0) two_containers
              unique_two_containers) as [Hcreate Hop].
  split.
  - eapply (Hcreate (sample_config "cache" "none" "")); [discriminate|].
    apply surjective_pairing.
  - eapply (Hop (OpRemove sample_id)). apply surjective_pairing.
Defined.

(** A command of three words, and one with a space inside a word. *)
Lemma command_survives_handoff_witness :
  Split (Join ["/bin/sh"; "-c"; "ls"] " ") " " = ["/bin/sh"; "-c"; "ls"] /\
  length (Split (Join ["/bin/echo"; "hello world"] " ") " ") = 3%nat.
Proof.
  split.
  - apply (proj1 (command_survives_handoff ["/bin/sh"; "-c"; "ls"] ltac:(discriminate))).
    repeat constructor.
  - apply (proj2 (command_survives_handoff ["/bin/echo"; "hello world"]
                    ltac:(discriminate))).
Defined.

(** The device node exists already; the change of root is asked for,
    after all the mounts. *)
Lemma chroot_after_mounts_witness :
  let r := InitContainer node_exists init_world in
  In (EvChroot sample_rootfs) (trace (snd r)) /\
  all_accepted node_exists [EvLog (LogInit "web" sample_rootfs)]
    (map fst (init_mount_steps "web" sample_rootfs)) = true.
Proof.
  intros r.
  destruct (chroot_after_mounts node_exists init_world (snd r) (fst r)
              (surjective_pairing _)) as (evs & Htr & Hord).
  assert (Hin : In (EvChroot sample_rootfs) (trace (snd r))).
  { vm_compute. repeat (first [left; reflexivity | right]). }
  split; [exact Hin|].
  rewrite Htr in Hin. cbn [init_world trace app] in Hin.
  destruct (Hord _ Hin) as (Hall & _). exact Hall.
Defined.

(** The mounts under the sample root when the device node exists. *)
Lemma mounts_tolerate_existing_node_witness :
  fst (setupContainerMounts node_exists sample_rootfs init_world) = Done None.
Proof.
  apply (proj2 (mounts_tolerate_existing_node node_exists sample_rootfs init_world)).
  split; vm_compute; reflexivity.
Defined.

(** The init process of the sample container in a calm kernel. *)
Lemma init_execs_handed_command_witness :
  exists path,
    fst (InitContainer (calm 0) init_world) = Done ImageReplaced /\
    In (EvExec path ["/bin/sh"] (handoff_env (sample_record StatusRunning) sample_rootfs))
       (trace (snd (InitContainer (calm 0) init_world))).
Proof.
  destruct (init_execs_handed_command (calm 0) (sample_record StatusRunning)
              sample_rootfs init_world) as (path & _ & Hrun).
  - split; [reflexivity|]. intros h file. exists file. reflexivity.
  - reflexivity.
  - discriminate.
  - discriminate.
  - repeat constructor.
  - exists path. rewrite Hrun. split; [reflexivity|].
    cbn [snd extend trace init_world app]. right.
    apply in_app_iff. right. cbn. auto 10.
Defined.

(** All three limits on process 4242: accepted in a calm kernel; with
    the cpuset controller read-only the memory limit stays applied and
    the CPU share is never asked for. *)
Lemma resource_limits_stop_at_first_refusal_witness :
  ApplyResourceLimits (fun s => s) (calm 0) 4242 sample_limits fresh_world
  = (Done None,
     extend (map fst (limit_steps 4242 sample_limits 67108864)) fresh_world) /\
  exists pre ev post errno err,
    map fst (limit_steps 4242 sample_limits 67108864) = pre ++ ev :: post /\
    all_accepted no_cpuset (trace fresh_world) pre = true /\
    os_call no_cpuset (trace fresh_world ++ pre) ev = Some errno /\
    ApplyResourceLimits (fun s => s) no_cpuset 4242 sample_limits fresh_world
    = (Done (Some err), extend (pre ++ [ev]) fresh_world).
Proof.
  split.
  - apply (proj1 (resource_limits_stop_at_first_refusal (fun s => s) (calm 0) 4242
                    sample_limits 67108864 fresh_world ltac:(vm_compute; reflexivity))).
    vm_compute. reflexivity.
  - apply (proj2 (resource_limits_stop_at_first_refusal (fun s => s) no_cpuset 4242
                    sample_limits 67108864 fresh_world ltac:(vm_compute; reflexivity))).
    vm_compute. reflexivity.
Defined.

(** No limit at all, and a memory limit that is not a number beside a
    core list. *)
Lemma resource_limits_without_effect_witness :
  ApplyResourceLimits (fun s => s) (calm 0) 4242
    {| rc_MemoryLimit := ""; rc_CpuSet := ""; rc_CpuShare := -5 |} fresh_world
  = (Done None, fresh_world) /\
  ApplyResourceLimits (fun s => s) (calm 0) 4242
    {| rc_MemoryLimit := "lots"; rc_CpuSet := "0-1"; rc_CpuShare := 512 |} fresh_world
  = (Done (Some (SetMemoryLimitFailed (InvalidMemorySpec "lots"))), fresh_world).
Proof.
  split.
  - apply (proj1 (resource_limits_without_effect (fun s => s) (calm 0) 4242
                    {| rc_MemoryLimit := ""; rc_CpuSet := ""; rc_CpuShare := -5 |}
                    fresh_world)); [reflexivity|reflexivity|simpl; lia].
  - apply (proj2 (resource_limits_without_effect (fun s => s) (calm 0) 4242
                    {| rc_MemoryLimit := "lots"; rc_CpuSet := "0-1"; rc_CpuShare := 512 |}
                    fresh_world)); [discriminate|vm_compute; reflexivity].
Defined.

(** The requests for all three limits with the cpuset controller
    read-only. *)
Lemma resource_limits_stay_in_own_cgroup_witness :
  let r := ApplyResourceLimits (fun s => s) no_cpuset 4242 sample_limits fresh_world in
  registry (snd r) = registry fresh_world /\
  exists evs, trace (snd r) = trace fresh_world ++ evs /\
              forallb (in_own_cgroup 4242) evs = true.
Proof.
  intros r.
  exact (proj2 (resource_limits_stay_in_own_cgroup (fun s => s) no_cpuset 4242
                  sample_limits fresh_world (snd r) (fst r) (surjective_pairing _))).
Defined.

(** The limits of [-m 64m -cpuset 0-1]. *)
Lemma command_line_sets_no_cpu_share_witness :
  let r := ApplyResourceLimits (fun s => s) (calm 0) 4242
             (parseResourceConfig "64m" "0-1") fresh_world in
  exists evs,
    trace (snd r) = trace fresh_world ++ evs /\
    forallb (fun e => negb (touches cgroupCpuPath e)) evs = true.
Proof.
  intros r.
  destruct (command_line_sets_no_cpu_share (fun s => s) (calm 0) "64m" "0-1" 4242
              fresh_world (snd r) (fst r) (surjective_pairing _))
    as (_ & evs & Htr & Hcpu & _).
  exists evs. split; assumption.
Defined.

(** Eight gibi-gibibytes come out as the least 64-bit integer; a minus
    sign is taken; twenty digits are refused. *)
Lemma memory_limit_wraps_around_witness :
  parseMemoryLimit (fun s => s) "8589934592g" = Ok (- 2 ^ 63)%Z /\
  parseMemoryLimit (fun s => s) "-5m" = Ok (-5242880)%Z /\
  parseMemoryLimit (fun s => s) "99999999999999999999"
  = Err (InvalidMemorySpec "99999999999999999999").
Proof.
  pose proof (memory_limit_wraps_around (fun s => s)) as [_ H].
  split; [|split].
  - apply (proj1 (H "8589934592" UnitG eq_refl eq_refl)). vm_compute. reflexivity.
  - apply (proj1 (proj2 (H "5" UnitM eq_refl eq_refl))). vm_compute. discriminate.
  - apply (proj2 (proj2 (H "99999999999999999999" UnitBytes eq_refl eq_refl))).
    vm_compute. discriminate.
Defined.

(** Two volumes, and a third with a mode suffix between them. *)
Lemma volumes_need_exactly_one_colon_witness :
  parseVolumes (fun p => "/work/" +:+ p) "data:/data,logs:/var/log"
  = [ {| vm_HostPath := "/work/data"; vm_ContainerPath := "/data" |};
      {| vm_HostPath := "/work/logs"; vm_ContainerPath := "/var/log" |} ] /\
  parseVolumes (fun p => "/work/" +:+ p) "data:/data,etc:/etc:ro,logs:/var/log"
  = parseVolumes (fun p => "/work/" +:+ p) "data:/data,logs:/var/log".
Proof.
  split.
  - apply (proj1 (volumes_need_exactly_one_colon (fun p => "/work/" +:+ p))
             [ {| vm_HostPath := "data"; vm_ContainerPath := "/data" |};
               {| vm_HostPath := "logs"; vm_ContainerPath := "/var/log" |} ]).
    reflexivity.
  - apply (proj2 (volumes_need_exactly_one_colon (fun p => "/work/" +:+ p))
             ["data:/data"] ["logs:/var/log"] "etc:/etc:ro").
    + repeat constructor.
    + vm_compute. discriminate.
Defined.

(** A plain name, a name with a tag and a name with a registry port. *)
Lemma image_name_splits_at_first_colon_witness :
  parseImageName "alpine" = Some ("alpine", "") /\
  parseImageName "alpine:3.19" = Some ("alpine", "3.19") /\
  parseImageName "localhost:5000/alpine:3.19" = Some ("localhost", "5000/alpine").
Proof.
  destruct image_name_splits_at_first_colon as (_ & Hplain & Htag).
  split; [|split].
  - apply Hplain. reflexivity.
  - apply (proj1 (Htag "alpine" "3.19" "" eq_refl eq_refl)).
  - apply (proj2 (Htag "localhost" "5000/alpine" "3.19" eq_refl eq_refl)).
Defined.

(** Bridge mode for the sample container: complete although the
    address-translation rule is refused; stopped at the move of the
    peer, with the bridge and the veth pair made. *)
Lemma bridge_setup_stops_at_first_refusal_witness :
  fst (SetupNetwork no_iptables BridgeMode sample_id 4242 fresh_world)
  = Done (Ok (bridge_config no_iptables)) /\
  exists pre ev post errno err,
    map fst (bridge_mode_steps no_netns (trace fresh_world) "0f8fad5b" 4242)
    = pre ++ ev :: post /\
    length pre = 5%nat /\
    os_call no_netns
      (trace (extend (bridge_prelude no_netns (trace fresh_world)) fresh_world) ++ pre) ev
    = Some errno /\
    SetupNetwork no_netns BridgeMode sample_id 4242 fresh_world
    = (Done (Err err),
       extend (pre ++ [ev])
         (extend (bridge_prelude no_netns (trace fresh_world)) fresh_world)).
Proof.
  split.
  - rewrite (proj1 (bridge_setup_stops_at_first_refusal no_iptables sample_id "0f8fad5b"
                      4242 fresh_world eq_refl)); [reflexivity|].
    vm_compute. reflexivity.
  - destruct (proj2 (bridge_setup_stops_at_first_refusal no_netns sample_id "0f8fad5b"
                       4242 fresh_world eq_refl))
      as (pre & ev & post & errno & err & Hreq & Hpre & Hev & Hrun).
    + vm_compute. reflexivity.
    + exists pre, ev, post, errno, err. split; [exact Hreq|].
      split; [|split; assumption].
      revert Hreq Hpre Hev. clear.
      destruct pre as [|e1 [|e2 [|e3 [|e4 [|e5 [|e6 pre]]]]]];
        intros Hreq Hpre Hev;
        try reflexivity;
        try (injection Hreq as <-; vm_compute in Hev; discriminate Hev);
        try (injection Hreq as <- <-; vm_compute in Hev; discriminate Hev);
        try (injection Hreq as <- <- <-; vm_compute in Hev; discriminate Hev);
        try (injection Hreq as <- <- <- <-; vm_compute in Hev; discriminate Hev);
        try (injection Hreq as <- <- <- <- <-; vm_compute in Hev; discriminate Hev).
      exfalso. vm_compute in Hreq.
      injection Hreq as <- <- <- <- <- <- Hrest. vm_compute in Hpre. discriminate Hpre.
Defined.

(** The interfaces cannot be listed: the bridge is made all the
    same. *)
Lemma bridge_made_only_when_missing_witness :
  setupBridge (calm 0) fresh_world
  = (Done None,
     extend [EvInterfaceByName DefaultBridge; EvLog (LogBridgeExists DefaultBridge)]
       fresh_world) /\
  exists r rest,
    setupBridge no_iptables fresh_world
    = (Done r,
       extend (EvCommand ["ip"; "link"; "add"; "name"; DefaultBridge; "type"; "bridge"]
                 :: rest)
         (extend [EvInterfaceByName DefaultBridge; EvLog (LogCreateBridge DefaultBridge)]
            fresh_world)).
Proof.
  split.
  - apply (proj1 (bridge_made_only_when_missing (calm 0) fresh_world)). reflexivity.
  - destruct (proj2 (bridge_made_only_when_missing no_iptables fresh_world)
                "permission denied" eq_refl) as (r & rest & Hrun & _).
    exists r, rest. exact Hrun.
Defined.

(** Host mode for the sample container, and bridge mode on an id of
    three bytes. *)
Lemma network_modes_witness :
  (forall cfg,
      fst (SetupNetwork (calm 0) HostMode sample_id 4242 fresh_world) = Done (Ok cfg) ->
      nc_Mode cfg = HostMode /\ nc_MacAddr cfg = "") /\
  (fst (SetupNetwork (calm 0) BridgeMode "abc" 4242 fresh_world) = Panic \/
   exists e, fst (SetupNetwork (calm 0) BridgeMode "abc" 4242 fresh_world)
             = Done (Err (NetworkSetupError "bridge" e))).
Proof.
  split.
  - intros cfg Hcfg.
    destruct (network_modes (calm 0) HostMode sample_id 4242 fresh_world _ _
                (surjective_pairing _)) as (_ & Hok & _).
    destruct (Hok cfg Hcfg) as (Hm & Hmac & _). split; assumption.
  - destruct (network_modes (calm 0) BridgeMode "abc" 4242 fresh_world _ _
                (surjective_pairing _)) as (_ & _ & _ & Hshort).
    apply Hshort; [reflexivity|simpl; lia].
Defined.

(** The same container asked for with and without volumes. *)
Lemma volumes_are_never_used_witness :
  fst (NewContainer (fun s => s) (calm 0) with_volumes fresh_world)
  = fst (NewContainer (fun s => s) (calm 0) (sample_config "web" "bridge" "64m") fresh_world) /\
  trace (snd (NewContainer (fun s => s) (calm 0) with_volumes fresh_world))
  = trace (snd (NewContainer (fun s => s) (calm 0) (sample_config "web" "bridge" "64m")
                  fresh_world)).
Proof.
  destruct (volumes_are_never_used (fun s => s) (calm 0) with_volumes
              (sample_config "web" "bridge" "64m") fresh_world) as (Hr & Ht & _).
  - repeat split.
  - split; assumption.
Defined.

(** The process of the sample container cannot be started. *)
Lemma failed_create_leaves_directory_witness :
  let r := NewContainer (fun s => s) no_process (sample_config "web" "none" "") fresh_world in
  exists evs,
    trace (snd r)
    = trace fresh_world
      ++ EvRandom
         :: EvMkdirAll (filepath_Join DefaultContainerRoot (new_id no_process fresh_world))
                       mode_0755
         :: evs /\
    (forall ev, In ev evs -> is_cleanup ev = false) /\
    RemoveContainer no_process (new_id no_process fresh_world) (snd r)
    = (Done (Some (NotFound (new_id no_process fresh_world))), snd r).
Proof.
  intros r.
  destruct (failed_create_leaves_directory (fun s => s) no_process
              (sample_config "web" "none" "") fresh_world (snd r)
              (ProcessStartError (OsError 11%Z)))
    as (evs & Htr & Hclean & _ & _ & Hrm).
  - vm_compute. reflexivity.
  - discriminate.
  - exists evs. split; [exact Htr|]. split; [exact Hclean|].
    apply Hrm. vm_compute. reflexivity.
Defined.

(** Stop, Wait, Remove and Wait again on the Stopped container of the
    registry of two. *)
Lemma stopped_process_is_never_reaped_witness :
  let ops := [OpStop other_id; OpWait other_id; OpRemove other_id; OpWait other_id] in
  exists evs,
    trace (snd (run_ops (calm 0) ops two_containers)) = trace two_containers ++ evs /\
    forall e, In e evs -> is_wait e = false.
Proof.
  intros ops.
  destruct (stopped_process_is_never_reaped (calm 0) other_id other_record ops
              two_containers) as (evs & Htr & _ & Hev & _).
  - vm_compute. reflexivity.
  - reflexivity.
  - repeat constructor.
  - exists evs. split; [exact Htr|]. intros e He. now destruct (Hev e He) as (_ & Hw & _).
Defined.

(** The earlier init path in the environment handed to the sample
    container, and with an empty command. *)
Lemma earlier_init_path_witness :
  (exists path,
      containerInitProcess (calm 0) init_world
      = (Done ImageReplaced,
         extend (earlier_init_requests "web" sample_rootfs "/bin/sh" path
                   (environ init_world)) init_world)) /\
  containerInitProcess (calm 0) empty_command_world
  = (Done (InitFailed MissingConfiguration), empty_command_world).
Proof.
  split.
  - destruct (proj2 (proj2 (earlier_init_path (calm 0) init_world))) as [path Hrun].
    + split; [reflexivity|]. intros h file. exists file. reflexivity.
    + intros [H|H]; vm_compute in H; discriminate.
    + intros [H|H]; vm_compute in H; discriminate.
    + exists path. exact Hrun.
  - apply (proj1 (earlier_init_path (calm 0) empty_command_world)).
    right. right. reflexivity.
Defined.

(** Removal of the sample container while it runs. *)
Lemma remove_undoes_only_the_directory_witness :
  let r := RemoveContainer (calm 0) sample_id (one_container StatusRunning) in
  exists evs,
    trace (snd r) = trace (one_container StatusRunning) ++ evs /\
    forall e, In e evs -> is_command e = false.
Proof.
  intros r.
  destruct (remove_undoes_only_the_directory (calm 0) sample_id
              (one_container StatusRunning) (snd r) (fst r) (surjective_pairing _))
    as (evs & Htr & Hev).
  exists evs. split; [exact Htr|]. intros e He. now destruct (Hev e He).
Defined.
